(** * Booking and M-Pesa payment reconciliation (apps/classes)

    A shallow embedding of the booking state machine of [apps/classes]:
    [models.py] (Booking and its transition methods, PaymentLog),
    [payments.py] (the M-Pesa client and [process_class_payment]),
    [emails.py] (the notification senders) and [views.py] (booking
    creation, the payment poll, the M-Pesa callback, user cancellation).

    Conventions of the embedding.
    - Time is a number of seconds ([Z]); [timezone.now()] reads the [clock]
      of the world, [time.sleep] and network requests advance it.
    - Money ([DecimalField] with two decimal places) is a number of
      hundredths ([Z]): KES 1500.00 is [150000].
    - The database, the Django cache, the requests sent to the provider and
      the mail that left the process are the fields of one [World]; a
      handler is a function from worlds to worlds.
    - The provider and the mail server are oracles ([Env]): what they answer
      may depend on everything that was sent before.
    - A handler runs from its first line to its last without another one
      interleaving; the thread [mpesa_callback] starts is one more handler.
    - Only the code of [apps/classes] runs: the signal receivers other
      apps connect to its models are not run (see [Models.save]).
    - JSON objects are flat and hold [null], integers and strings.
    - Strings are byte strings; the code is followed on ASCII input. *)

From Stdlib Require Import ZArith List String Ascii Bool Lia DecimalString.
Import ListNotations.
Local Open Scope string_scope.
Local Open Scope list_scope.
Local Open Scope Z_scope.

(** ** Python values and string helpers *)

Module Py.

(** The JSON scalars that reach the handlers ([None] stands for [null] and
    for a missing key read with [.get]). *)
Inductive PyVal : Type :=
| PNone
| PInt (z : Z)
| PStr (s : string).

(** [str(v)] *)
Definition py_str (v : PyVal) : string :=
  match v with
  | PNone => "None"
  | PInt z => NilZero.string_of_int (Z.to_int z)
  | PStr s => s
  end.

(** [bool(v)], as in [if v:] and [if not v:] *)
Definition truthy (v : PyVal) : bool :=
  match v with
  | PNone => false
  | PInt z => negb (z =? 0)
  | PStr s => negb (String.eqb s "")
  end.

(** [a == b] on scalars: an [int] never equals a [str]. *)
Definition py_eqb (a b : PyVal) : bool :=
  match a, b with
  | PNone, PNone => true
  | PInt x, PInt y => x =? y
  | PStr x, PStr y => String.eqb x y
  | _, _ => false
  end.

(** A JSON object with scalar values, as [response.json()] returns it. *)
Definition Dict : Type := list (string * PyVal).

(** [d.get(k, default)] *)
Fixpoint get (d : Dict) (k : string) (default : PyVal) : PyVal :=
  match d with
  | [] => default
  | (k', v) :: d' => if String.eqb k' k then v else get d' k default
  end.

(** [k in d] *)
Fixpoint mem (d : Dict) (k : string) : bool :=
  match d with
  | [] => false
  | (k', _) :: d' => String.eqb k' k || mem d' k
  end.

(** [c.isdigit()] on an ASCII character. Strings are taken as ASCII text:
    the decimal digits outside ASCII, which [str.isdigit] accepts as
    well, are not in this type. *)
Definition isdigit (c : ascii) : bool :=
  let n := nat_of_ascii c in (48 <=? n)%nat && (n <=? 57)%nat.

(** [''.join(filter(str.isdigit, s))] *)
Fixpoint digits_only (s : string) : string :=
  match s with
  | EmptyString => EmptyString
  | String c s' => if isdigit c then String c (digits_only s') else digits_only s'
  end.

(** [s.startswith(p)] *)
Definition startswith (s p : string) : bool := String.prefix p s.

(** [s[:n]] *)
Definition take (n : nat) (s : string) : string := String.substring 0 n s.

(** [s[1:]] *)
Definition tail (s : string) : string :=
  match s with
  | EmptyString => EmptyString
  | String _ s' => s'
  end.

Definition lower_ascii (c : ascii) : ascii :=
  let n := nat_of_ascii c in
  if (65 <=? n)%nat && (n <=? 90)%nat then ascii_of_nat (n + 32) else c.

(** [s.lower()] *)
Fixpoint lower (s : string) : string :=
  match s with
  | EmptyString => EmptyString
  | String c s' => String (lower_ascii c) (lower s')
  end.

(** [sub in s] *)
Definition contains (sub s : string) : bool :=
  match String.index 0 sub s with
  | Some _ => true
  | None => false
  end.

(** The line feed of ["\n"] in an f-string. *)
Definition nl : string := String (ascii_of_nat 10) EmptyString.

(** What a call gives back: a value, or an exception that propagates. *)
Inductive Outcome (A : Type) : Type :=
| Returned (a : A)
| Raised.
Arguments Returned {A} a.
Arguments Raised {A}.

End Py.
Export Py.

(** ** The outside of the process: provider, mail server, cache *)

Module Runtime.

(** The three requests the M-Pesa client sends. The password, the timestamp
    and the bearer token of a payload are left out: no decision reads them. *)
Inductive Request : Type :=
| OAuthGenerate
| StkPushProcess (PhoneNumber : string) (Amount : Z)
                 (AccountReference TransactionDesc : string)
| StkPushQuery (CheckoutRequestID : string).

(** What [requests.get] / [requests.post] ends with. *)
Inductive Reply : Type :=
| Timeout                                   (* requests.exceptions.Timeout *)
| RequestException                          (* any other requests failure *)
| Http (status_code : Z) (body : Dict).

(** [response.raise_for_status()] raises on 4xx and 5xx. *)
Definition is_http_error (status_code : Z) : bool :=
  (400 <=? status_code) && (status_code <? 600).

Inductive Mail : Type :=
| BookingConfirmation (booking_id : Z)
| PaymentConfirmation (booking_id : Z) (receipt_number : PyVal)
| PaymentFailed (booking_id : Z) (reason : string).

(** The oracles: the provider's reply to a request and the seconds it took,
    given the requests sent before; whether the mail server takes a mail,
    given the mail sent before. *)
Record Env : Type := {
  reply : list Request -> Request -> Reply;
  latency : list Request -> Request -> nat;
  delivers : list Mail -> Mail -> bool
}.

(** A value stored in the Django cache. *)
Inductive CacheVal : Type :=
| CScalar (v : PyVal)
| CDict (d : Dict).

Record CacheEntry : Type := {
  ce_key : string;
  ce_value : CacheVal;
  ce_expiry : Z
}.

End Runtime.
Export Runtime.

(** ** models.py *)

Module Models.

Inductive Status : Type :=
| Pending | Confirmed | Cancelled | Completed | Expired.

Inductive BookingType : Type :=
| FreeTrial | Monthly | DropIn.

Inductive PaymentStatus : Type :=
| Unpaid | PaymentPending | Paid | Refunded | Failed.

Definition Status_eqb (a b : Status) : bool :=
  match a, b with
  | Pending, Pending | Confirmed, Confirmed | Cancelled, Cancelled
  | Completed, Completed | Expired, Expired => true
  | _, _ => false
  end.

Definition PaymentStatus_eqb (a b : PaymentStatus) : bool :=
  match a, b with
  | Unpaid, Unpaid | PaymentPending, PaymentPending | Paid, Paid
  | Refunded, Refunded | Failed, Failed => true
  | _, _ => false
  end.

Definition BookingType_eqb (a b : BookingType) : bool :=
  match a, b with
  | FreeTrial, FreeTrial | Monthly, Monthly | DropIn, DropIn => true
  | _, _ => false
  end.

(** The columns of [KarateClass] the booking flow reads. *)
Record KarateClass : Type := {
  kc_id : Z;
  title : string;
  price : Z;                  (* hundredths *)
  max_students : nat;
  free_trial_spots : nat
}.

(** A row of [Booking] (equally the instance a handler holds in memory).
    [karate_class] is the related row reached through the foreign key. *)
Record Booking : Type := {
  id : Z;
  user : Z;
  karate_class : KarateClass;
  schedule : Z;
  booking_type : BookingType;
  status : Status;
  payment_status : PaymentStatus;
  amount_paid : Z;            (* hundredths *)
  transaction_id : option string;
  mpesa_receipt_number : option string;
  phone_number : option string;
  booking_reference : string;
  payment_attempts : nat;
  last_payment_attempt : option Z;
  booked_at : Z;
  payment_date : option Z;
  confirmed_at : option Z;
  cancelled_at : option Z;
  expires_at : option Z;
  notes : string;
  confirmation_email_sent : bool;
  payment_email_sent : bool
}.

(** A row of [PaymentLog]; [response_data], [ip_address] and [user_agent]
    are payload columns no decision reads and are left out. *)
Record PaymentLog : Type := {
  log_booking : Z;
  log_transaction_id : option string;
  log_action : string;
  log_status_code : option string;
  log_created_at : Z
}.

Record WaitingList : Type := {
  wl_user : Z;
  wl_karate_class : Z;
  wl_schedule : Z
}.

(** What a [CharField] column holds after a scalar was assigned and saved. *)
Definition char_field (v : PyVal) : option string :=
  match v with
  | PNone => None
  | _ => Some (py_str v)
  end.

(** Attribute assignment [self.f = v] on a booking instance. *)

Definition set_status (v : Status) (r : Booking) : Booking :=
  {| id := id r; user := user r; karate_class := karate_class r;
     schedule := schedule r; booking_type := booking_type r; status := v;
     payment_status := payment_status r; amount_paid := amount_paid r;
     transaction_id := transaction_id r;
     mpesa_receipt_number := mpesa_receipt_number r;
     phone_number := phone_number r;
     booking_reference := booking_reference r;
     payment_attempts := payment_attempts r;
     last_payment_attempt := last_payment_attempt r;
     booked_at := booked_at r; payment_date := payment_date r;
     confirmed_at := confirmed_at r; cancelled_at := cancelled_at r;
     expires_at := expires_at r; notes := notes r;
     confirmation_email_sent := confirmation_email_sent r;
     payment_email_sent := payment_email_sent r |}.

Definition set_payment_status (v : PaymentStatus) (r : Booking) : Booking :=
  {| id := id r; user := user r; karate_class := karate_class r;
     schedule := schedule r; booking_type := booking_type r;
     status := status r; payment_status := v; amount_paid := amount_paid r;
     transaction_id := transaction_id r;
     mpesa_receipt_number := mpesa_receipt_number r;
     phone_number := phone_number r;
     booking_reference := booking_reference r;
     payment_attempts := payment_attempts r;
     last_payment_attempt := last_payment_attempt r;
     booked_at := booked_at r; payment_date := payment_date r;
     confirmed_at := confirmed_at r; cancelled_at := cancelled_at r;
     expires_at := expires_at r; notes := notes r;
     confirmation_email_sent := confirmation_email_sent r;
     payment_email_sent := payment_email_sent r |}.

Definition set_amount_paid (v : Z) (r : Booking) : Booking :=
  {| id := id r; user := user r; karate_class := karate_class r;
     schedule := schedule r; booking_type := booking_type r;
     status := status r; payment_status := payment_status r;
     amount_paid := v; transaction_id := transaction_id r;
     mpesa_receipt_number := mpesa_receipt_number r;
     phone_number := phone_number r;
     booking_reference := booking_reference r;
     payment_attempts := payment_attempts r;
     last_payment_attempt := last_payment_attempt r;
     booked_at := booked_at r; payment_date := payment_date r;
     confirmed_at := confirmed_at r; cancelled_at := cancelled_at r;
     expires_at := expires_at r; notes := notes r;
     confirmation_email_sent := confirmation_email_sent r;
     payment_email_sent := payment_email_sent r |}.

Definition set_transaction_id (v : option string) (r : Booking) : Booking :=
  {| id := id r; user := user r; karate_class := karate_class r;
     schedule := schedule r; booking_type := booking_type r;
     status := status r; payment_status := payment_status r;
     amount_paid := amount_paid r; transaction_id := v;
     mpesa_receipt_number := mpesa_receipt_number r;
     phone_number := phone_number r;
     booking_reference := booking_reference r;
     payment_attempts := payment_attempts r;
     last_payment_attempt := last_payment_attempt r;
     booked_at := booked_at r; payment_date := payment_date r;
     confirmed_at := confirmed_at r; cancelled_at := cancelled_at r;
     expires_at := expires_at r; notes := notes r;
     confirmation_email_sent := confirmation_email_sent r;
     payment_email_sent := payment_email_sent r |}.

Definition set_mpesa_receipt_number (v : option string) (r : Booking) : Booking :=
  {| id := id r; user := user r; karate_class := karate_class r;
     schedule := schedule r; booking_type := booking_type r;
     status := status r; payment_status := payment_status r;
     amount_paid := amount_paid r; transaction_id := transaction_id r;
     mpesa_receipt_number := v; phone_number := phone_number r;
     booking_reference := booking_reference r;
     payment_attempts := payment_attempts r;
     last_payment_attempt := last_payment_attempt r;
     booked_at := booked_at r; payment_date := payment_date r;
     confirmed_at := confirmed_at r; cancelled_at := cancelled_at r;
     expires_at := expires_at r; notes := notes r;
     confirmation_email_sent := confirmation_email_sent r;
     payment_email_sent := payment_email_sent r |}.

Definition set_phone_number (v : option string) (r : Booking) : Booking :=
  {| id := id r; user := user r; karate_class := karate_class r;
     schedule := schedule r; booking_type := booking_type r;
     status := status r; payment_status := payment_status r;
     amount_paid := amount_paid r; transaction_id := transaction_id r;
     mpesa_receipt_number := mpesa_receipt_number r; phone_number := v;
     booking_reference := booking_reference r;
     payment_attempts := payment_attempts r;
     last_payment_attempt := last_payment_attempt r;
     booked_at := booked_at r; payment_date := payment_date r;
     confirmed_at := confirmed_at r; cancelled_at := cancelled_at r;
     expires_at := expires_at r; notes := notes r;
     confirmation_email_sent := confirmation_email_sent r;
     payment_email_sent := payment_email_sent r |}.

Definition set_payment_attempts (v : nat) (r : Booking) : Booking :=
  {| id := id r; user := user r; karate_class := karate_class r;
     schedule := schedule r; booking_type := booking_type r;
     status := status r; payment_status := payment_status r;
     amount_paid := amount_paid r; transaction_id := transaction_id r;
     mpesa_receipt_number := mpesa_receipt_number r;
     phone_number := phone_number r;
     booking_reference := booking_reference r; payment_attempts := v;
     last_payment_attempt := last_payment_attempt r;
     booked_at := booked_at r; payment_date := payment_date r;
     confirmed_at := confirmed_at r; cancelled_at := cancelled_at r;
     expires_at := expires_at r; notes := notes r;
     confirmation_email_sent := confirmation_email_sent r;
     payment_email_sent := payment_email_sent r |}.

Definition set_last_payment_attempt (v : option Z) (r : Booking) : Booking :=
  {| id := id r; user := user r; karate_class := karate_class r;
     schedule := schedule r; booking_type := booking_type r;
     status := status r; payment_status := payment_status r;
     amount_paid := amount_paid r; transaction_id := transaction_id r;
     mpesa_receipt_number := mpesa_receipt_number r;
     phone_number := phone_number r;
     booking_reference := booking_reference r;
     payment_attempts := payment_attempts r; last_payment_attempt := v;
     booked_at := booked_at r; payment_date := payment_date r;
     confirmed_at := confirmed_at r; cancelled_at := cancelled_at r;
     expires_at := expires_at r; notes := notes r;
     confirmation_email_sent := confirmation_email_sent r;
     payment_email_sent := payment_email_sent r |}.

Definition set_payment_date (v : option Z) (r : Booking) : Booking :=
  {| id := id r; user := user r; karate_class := karate_class r;
     schedule := schedule r; booking_type := booking_type r;
     status := status r; payment_status := payment_status r;
     amount_paid := amount_paid r; transaction_id := transaction_id r;
     mpesa_receipt_number := mpesa_receipt_number r;
     phone_number := phone_number r;
     booking_reference := booking_reference r;
     payment_attempts := payment_attempts r;
     last_payment_attempt := last_payment_attempt r;
     booked_at := booked_at r; payment_date := v;
     confirmed_at := confirmed_at r; cancelled_at := cancelled_at r;
     expires_at := expires_at r; notes := notes r;
     confirmation_email_sent := confirmation_email_sent r;
     payment_email_sent := payment_email_sent r |}.

Definition set_confirmed_at (v : option Z) (r : Booking) : Booking :=
  {| id := id r; user := user r; karate_class := karate_class r;
     schedule := schedule r; booking_type := booking_type r;
     status := status r; payment_status := payment_status r;
     amount_paid := amount_paid r; transaction_id := transaction_id r;
     mpesa_receipt_number := mpesa_receipt_number r;
     phone_number := phone_number r;
     booking_reference := booking_reference r;
     payment_attempts := payment_attempts r;
     last_payment_attempt := last_payment_attempt r;
     booked_at := booked_at r; payment_date := payment_date r;
     confirmed_at := v; cancelled_at := cancelled_at r;
     expires_at := expires_at r; notes := notes r;
     confirmation_email_sent := confirmation_email_sent r;
     payment_email_sent := payment_email_sent r |}.

Definition set_cancelled_at (v : option Z) (r : Booking) : Booking :=
  {| id := id r; user := user r; karate_class := karate_class r;
     schedule := schedule r; booking_type := booking_type r;
     status := status r; payment_status := payment_status r;
     amount_paid := amount_paid r; transaction_id := transaction_id r;
     mpesa_receipt_number := mpesa_receipt_number r;
     phone_number := phone_number r;
     booking_reference := booking_reference r;
     payment_attempts := payment_attempts r;
     last_payment_attempt := last_payment_attempt r;
     booked_at := booked_at r; payment_date := payment_date r;
     confirmed_at := confirmed_at r; cancelled_at := v;
     expires_at := expires_at r; notes := notes r;
     confirmation_email_sent := confirmation_email_sent r;
     payment_email_sent := payment_email_sent r |}.

Definition set_expires_at (v : option Z) (r : Booking) : Booking :=
  {| id := id r; user := user r; karate_class := karate_class r;
     schedule := schedule r; booking_type := booking_type r;
     status := status r; payment_status := payment_status r;
     amount_paid := amount_paid r; transaction_id := transaction_id r;
     mpesa_receipt_number := mpesa_receipt_number r;
     phone_number := phone_number r;
     booking_reference := booking_reference r;
     payment_attempts := payment_attempts r;
     last_payment_attempt := last_payment_attempt r;
     booked_at := booked_at r; payment_date := payment_date r;
     confirmed_at := confirmed_at r; cancelled_at := cancelled_at r;
     expires_at := v; notes := notes r;
     confirmation_email_sent := confirmation_email_sent r;
     payment_email_sent := payment_email_sent r |}.

Definition set_notes (v : string) (r : Booking) : Booking :=
  {| id := id r; user := user r; karate_class := karate_class r;
     schedule := schedule r; booking_type := booking_type r;
     status := status r; payment_status := payment_status r;
     amount_paid := amount_paid r; transaction_id := transaction_id r;
     mpesa_receipt_number := mpesa_receipt_number r;
     phone_number := phone_number r;
     booking_reference := booking_reference r;
     payment_attempts := payment_attempts r;
     last_payment_attempt := last_payment_attempt r;
     booked_at := booked_at r; payment_date := payment_date r;
     confirmed_at := confirmed_at r; cancelled_at := cancelled_at r;
     expires_at := expires_at r; notes := v;
     confirmation_email_sent := confirmation_email_sent r;
     payment_email_sent := payment_email_sent r |}.

Definition set_confirmation_email_sent (v : bool) (r : Booking) : Booking :=
  {| id := id r; user := user r; karate_class := karate_class r;
     schedule := schedule r; booking_type := booking_type r;
     status := status r; payment_status := payment_status r;
     amount_paid := amount_paid r; transaction_id := transaction_id r;
     mpesa_receipt_number := mpesa_receipt_number r;
     phone_number := phone_number r;
     booking_reference := booking_reference r;
     payment_attempts := payment_attempts r;
     last_payment_attempt := last_payment_attempt r;
     booked_at := booked_at r; payment_date := payment_date r;
     confirmed_at := confirmed_at r; cancelled_at := cancelled_at r;
     expires_at := expires_at r; notes := notes r;
     confirmation_email_sent := v;
     payment_email_sent := payment_email_sent r |}.

Definition set_payment_email_sent (v : bool) (r : Booking) : Booking :=
  {| id := id r; user := user r; karate_class := karate_class r;
     schedule := schedule r; booking_type := booking_type r;
     status := status r; payment_status := payment_status r;
     amount_paid := amount_paid r; transaction_id := transaction_id r;
     mpesa_receipt_number := mpesa_receipt_number r;
     phone_number := phone_number r;
     booking_reference := booking_reference r;
     payment_attempts := payment_attempts r;
     last_payment_attempt := last_payment_attempt r;
     booked_at := booked_at r; payment_date := payment_date r;
     confirmed_at := confirmed_at r; cancelled_at := cancelled_at r;
     expires_at := expires_at r; notes := notes r;
     confirmation_email_sent := confirmation_email_sent r;
     payment_email_sent := v |}.

(** The state a handler runs in: the wall clock, the three tables, the
    Django cache, the requests sent to the provider so far and the mail
    that left so far (lists grow at the end). *)
Record World : Type := {
  clock : Z;
  bookings : list Booking;
  payment_logs : list PaymentLog;
  waiting_list : list WaitingList;
  cache : list CacheEntry;
  sent : list Request;
  outbox : list Mail
}.

Definition with_clock (v : Z) (r : World) : World :=
  {| clock := v; bookings := bookings r; payment_logs := payment_logs r;
     waiting_list := waiting_list r; cache := cache r; sent := sent r;
     outbox := outbox r |}.

Definition with_bookings (v : list Booking) (r : World) : World :=
  {| clock := clock r; bookings := v; payment_logs := payment_logs r;
     waiting_list := waiting_list r; cache := cache r; sent := sent r;
     outbox := outbox r |}.

Definition with_payment_logs (v : list PaymentLog) (r : World) : World :=
  {| clock := clock r; bookings := bookings r; payment_logs := v;
     waiting_list := waiting_list r; cache := cache r; sent := sent r;
     outbox := outbox r |}.

Definition with_waiting_list (v : list WaitingList) (r : World) : World :=
  {| clock := clock r; bookings := bookings r;
     payment_logs := payment_logs r; waiting_list := v; cache := cache r;
     sent := sent r; outbox := outbox r |}.

Definition with_cache (v : list CacheEntry) (r : World) : World :=
  {| clock := clock r; bookings := bookings r;
     payment_logs := payment_logs r; waiting_list := waiting_list r;
     cache := v; sent := sent r; outbox := outbox r |}.

Definition with_sent (v : list Request) (r : World) : World :=
  {| clock := clock r; bookings := bookings r;
     payment_logs := payment_logs r; waiting_list := waiting_list r;
     cache := cache r; sent := v; outbox := outbox r |}.

Definition with_outbox (v : list Mail) (r : World) : World :=
  {| clock := clock r; bookings := bookings r;
     payment_logs := payment_logs r; waiting_list := waiting_list r;
     cache := cache r; sent := sent r; outbox := v |}.

(** [Booking.objects.filter(id=i)] *)
Definition find_booking (i : Z) (w : World) : option Booking :=
  find (fun b => id b =? i) (bookings w).

(** [self.save()]: UPDATE of the row with this primary key, INSERT when
    there is none. [save] also fills an empty [booking_reference] and
    verification token with random text; the reference is chosen when the
    view creates the booking (see [BookingCreateView_post]), and the
    unique constraint of that column is checked there, at the one INSERT.
    [save] runs no [post_save] receivers. The one the newsletter app
    connects to [Booking] sends mail of its own and can set
    [payment_email_sent]; it writes no audit entry and leaves status and
    payment status alone. The statements about confirmation mail sent once
    are about saves at which it does nothing (see [Extra.receiver_idle]). *)
Definition save (self : Booking) (w : World) : World :=
  if existsb (fun b => id b =? id self) (bookings w)
  then with_bookings
         (map (fun b => if id b =? id self then self else b) (bookings w)) w
  else with_bookings (bookings w ++ [self]) w.

(** [PaymentLog.objects.create(booking=..., transaction_id=..., action=...,
    status_code=...)] *)
Definition PaymentLog_create (booking : Booking) (tid : option string)
    (action : string) (status_code : option string) (w : World) : World :=
  with_payment_logs
    (payment_logs w ++
       [{| log_booking := id booking; log_transaction_id := tid;
           log_action := action; log_status_code := status_code;
           log_created_at := clock w |}]) w.

(** [Booking.confirm_payment] *)
Definition confirm_payment (self : Booking) (transaction_id receipt_number : PyVal)
    (w : World) : World * Booking :=
  let self := set_payment_status Paid self in
  let self := set_status Confirmed self in
  let self := set_transaction_id (char_field transaction_id) self in
  let self := set_mpesa_receipt_number (char_field receipt_number) self in
  let self := set_payment_date (Some (clock w)) self in
  let self := set_confirmed_at (Some (clock w)) self in
  let self := set_expires_at None self in
  (save self w, self).

(** [Booking.cancel_booking] *)
Definition cancel_booking (self : Booking) (reason : option string)
    (w : World) : World * Booking :=
  let self := set_status Cancelled self in
  let self := set_cancelled_at (Some (clock w)) self in
  let self :=
    match reason with
    | Some r =>
        if String.eqb r "" then self
        else set_notes
               (if String.eqb (notes self) ""
                then ("Cancellation reason: " ++ r)%string
                else (notes self ++ nl ++ "Cancellation reason: " ++ r)%string)
               self
    | None => self
    end in
  (save self w, self).

(** [Booking.mark_expired] *)
Definition mark_expired (self : Booking) (w : World) : World * Booking :=
  let self := set_status Expired self in
  let self := set_payment_status Failed self in
  let self :=
    set_notes
      (if String.eqb (notes self) ""
       then "Expired due to payment timeout"
       else (notes self ++ nl ++ "Expired due to payment timeout")%string)
      self in
  (save self w, self).

(** [Booking.is_payment_expired] *)
Definition is_payment_expired (self : Booking) (w : World) : bool :=
  match expires_at self with
  | Some deadline => clock w >? deadline
  | None => false
  end.

(** [KarateClass.spots_available], [free_trials_available], [is_full] *)
Definition active (b : Booking) : bool :=
  Status_eqb (status b) Confirmed || Status_eqb (status b) Pending.

Definition spots_available (k : KarateClass) (w : World) : nat :=
  Nat.sub (max_students k)
    (List.length
       (filter (fun b => (kc_id (karate_class b) =? kc_id k) && active b)
          (bookings w))).

Definition free_trials_available (k : KarateClass) (w : World) : nat :=
  Nat.sub (free_trial_spots k)
    (List.length
       (filter (fun b => (kc_id (karate_class b) =? kc_id k)
                         && BookingType_eqb (booking_type b) FreeTrial
                         && active b)
          (bookings w))).

Definition is_full (k : KarateClass) (w : World) : bool :=
  Nat.eqb (spots_available k w) 0.

End Models.
Export Models.

(** ** The cache and the network, as the client uses them *)

Module Net.
Section WithEnv.
Variable E : Env.

(** One exchange with the provider: the request joins [sent], the clock
    moves by the time the exchange took, the oracle gives the reply. *)
Definition http (r : Request) (w : World) : World * Reply :=
  (with_clock (clock w + Z.of_nat (latency E (sent w) r))
     (with_sent (sent w ++ [r]) w),
   reply E (sent w) r).

End WithEnv.

(** [time.sleep(seconds)] *)
Definition sleep (seconds : Z) (w : World) : World :=
  with_clock (clock w + seconds) w.

(** [cache.get(key)]: the latest entry under the key, unless it ran out. *)
Definition cache_get (key : string) (w : World) : option CacheVal :=
  match find (fun e => String.eqb (ce_key e) key) (cache w) with
  | Some e => if clock w <? ce_expiry e then Some (ce_value e) else None
  | None => None
  end.

(** [cache.set(key, value, timeout)] *)
Definition cache_set (key : string) (value : CacheVal) (timeout : Z)
    (w : World) : World :=
  with_cache
    ({| ce_key := key; ce_value := value; ce_expiry := clock w + timeout |}
       :: cache w) w.

(** [bool(v)] of what [cache.get] returned. *)
Definition cache_truthy (v : option CacheVal) : bool :=
  match v with
  | None => false
  | Some (CScalar x) => truthy x
  | Some (CDict d) => negb (Nat.eqb (List.length d) 0)
  end.

End Net.
Export Net.

(** ** emails.py

    The Celery import of [emails.py] names a module that does not exist, so
    the three senders are bound to their synchronous versions and have no
    [delay] attribute; the callers therefore take their [else] branch. *)

Module Emails.
Section WithEnv.
Variable E : Env.

(** [email.send(fail_silently=False)] *)
Definition send (m : Mail) (w : World) : World * Outcome unit :=
  if delivers E (outbox w) m
  then (with_outbox (outbox w ++ [m]) w, Returned tt)
  else (w, Raised).

(** [send_booking_confirmation_email_sync] *)
Definition send_booking_confirmation_email_sync (booking_id : Z) (w : World)
    : World * Outcome unit :=
  match find_booking booking_id w with
  | None => (w, Raised)
  | Some booking =>
      if confirmation_email_sent booking then (w, Returned tt)
      else
        match send (BookingConfirmation booking_id) w with
        | (w, Raised) => (w, Raised)
        | (w, Returned _) =>
            (save (set_confirmation_email_sent true booking) w, Returned tt)
        end
  end.

(** [send_payment_confirmation_email_sync] *)
Definition send_payment_confirmation_email_sync (booking_id : Z)
    (receipt_number : PyVal) (w : World) : World * Outcome unit :=
  match find_booking booking_id w with
  | None => (w, Raised)
  | Some booking =>
      if payment_email_sent booking then (w, Returned tt)
      else
        match send (PaymentConfirmation booking_id receipt_number) w with
        | (w, Raised) => (w, Raised)
        | (w, Returned _) =>
            (save (set_payment_email_sent true booking) w, Returned tt)
        end
  end.

(** [send_payment_failed_email_sync] *)
Definition send_payment_failed_email_sync (booking_id : Z) (reason : PyVal)
    (w : World) : World * Outcome unit :=
  match find_booking booking_id w with
  | None => (w, Raised)
  | Some _ =>
      send (PaymentFailed booking_id
              (if truthy reason then py_str reason
               else "Payment could not be processed")) w
  end.

End WithEnv.
End Emails.
Export Emails.

(** ** payments.py *)

Module Payments.

(** [self.max_retries] *)
Definition max_retries : nat := 3.

(** What [stk_push] returns: the success dict or the error dict. *)
Inductive StkResult : Type :=
| StkSuccess (checkout_request_id merchant_request_id : PyVal)
             (message : string) (phone_number : string)
| StkFailure (error_code : PyVal) (message : string).

(** What [process_class_payment] returns. *)
Inductive PayResult : Type :=
| PayFreeTrial (message : string)
| PaySuccess (checkout_request_id : PyVal) (message : string)
| PayFailure (error_code : PyVal) (message : string).

(** [result['success']] of either. *)
Definition pay_success (r : PayResult) : bool :=
  match r with
  | PayFailure _ _ => false
  | _ => true
  end.

(** [MPesaPayment.validate_phone_number] *)
Definition validate_phone_number (phone_number : string) : option string :=
  let phone := digits_only phone_number in
  if Nat.eqb (String.length phone) 12 && startswith phone "254" then Some phone
  else if Nat.eqb (String.length phone) 10 && startswith phone "0"
       then Some ("254" ++ tail phone)%string
  else if Nat.eqb (String.length phone) 9 then Some ("254" ++ phone)%string
  else None.

(** [int(float(amount))] of a two-decimal amount: truncation to whole
    shillings. *)
Definition int_of_amount (amount : Z) : Z := Z.quot amount 100.

Definition error_map : list (string * string) :=
  [ ("insufficient funds", "Insufficient M-Pesa balance. Please top up and try again.");
    ("invalid phone", "Invalid phone number. Please check and try again.");
    ("transaction failed", "Transaction failed. Please try again.");
    ("user cancelled", "Payment was cancelled.");
    ("timeout", "Request timeout. Please try again.");
    ("invalid account", "Invalid M-Pesa account.");
    ("exceeds withdrawal", "Amount exceeds M-Pesa limits.");
    ("request cancelled", "Payment request was cancelled.");
    ("ds timeout", "M-Pesa service timeout. Please try again.") ].

(** [MPesaPayment._get_user_friendly_error] *)
Definition _get_user_friendly_error (error_message : string) : string :=
  let error_lower := lower error_message in
  match find (fun kv => contains (fst kv) error_lower) error_map with
  | Some kv => snd kv
  | None => "Payment failed. Please try again or contact support."
  end.

Section WithEnv.
Variable E : Env.

(** The retry loop of [get_access_token]; [fuel] counts the iterations
    [range(self.max_retries)] still has. A reply without [access_token]
    raises [KeyError], which neither [except] clause catches. *)
Fixpoint token_attempts (fuel attempt : nat) (w : World)
    : World * Outcome (option CacheVal) :=
  match fuel with
  | O => (w, Returned None)
  | S fuel' =>
      let retry (w : World) :=
        if Nat.eqb attempt (max_retries - 1) then (w, Returned None)
        else token_attempts fuel' (S attempt) (sleep 2 w) in
      match http E OAuthGenerate w with
      | (w, Timeout) => retry w
      | (w, RequestException) => retry w
      | (w, Http status_code body) =>
          if is_http_error status_code then retry w
          else if mem body "access_token" then
            let token := CScalar (get body "access_token" PNone) in
            (cache_set "mpesa_access_token" token 3000 w, Returned (Some token))
          else (w, Raised)
      end
  end.

(** [MPesaPayment.get_access_token] *)
Definition get_access_token (w : World) : World * Outcome (option CacheVal) :=
  let token := cache_get "mpesa_access_token" w in
  if cache_truthy token then (w, Returned token)
  else token_attempts max_retries 0 w.

(** The retry loop of [stk_push]. [Returned None] is the loop running out
    without a [return]; [Raised] is an exception that reaches the outer
    [except Exception] ([.lower()] on a description that is no string). *)
Fixpoint stk_attempts (fuel attempt : nat) (phone : string) (amount_int : Z)
    (account_reference transaction_desc : string) (booking_id : Z) (w : World)
    : World * Outcome (option StkResult) :=
  match fuel with
  | O => (w, Returned None)
  | S fuel' =>
      let retry (w : World) (last : StkResult) :=
        if Nat.ltb attempt (max_retries - 1)
        then stk_attempts fuel' (S attempt) phone amount_int
               account_reference transaction_desc booking_id (sleep 2 w)
        else (w, Returned (Some last)) in
      match http E (StkPushProcess phone amount_int
                      (take 20 account_reference) (take 20 transaction_desc)) w with
      | (w, Http status_code result) =>
          if status_code =? 200 then
            if py_eqb (get result "ResponseCode" PNone) (PStr "0") then
              let checkout_request_id := get result "CheckoutRequestID" PNone in
              let merchant_request_id := get result "MerchantRequestID" PNone in
              let w :=
                cache_set ("mpesa_request_" ++ py_str checkout_request_id)%string
                  (CDict [ ("merchant_request_id", merchant_request_id);
                           ("phone", PStr phone);
                           ("amount", PInt amount_int);
                           ("reference", PStr account_reference);
                           ("booking_id", PInt booking_id) ])
                  600 w in
              (w, Returned (Some (StkSuccess checkout_request_id merchant_request_id
                                    "Payment request sent. Check your phone." phone)))
            else
              let error_code := get result "ResponseCode" (PStr "UNKNOWN") in
              match get result "ResponseDescription" (PStr "Payment request failed") with
              | PStr error_msg =>
                  (w, Returned (Some (StkFailure error_code
                                        (_get_user_friendly_error error_msg))))
              | _ => (w, Raised)
              end
          else
            retry w (StkFailure (PStr ("HTTP_" ++ py_str (PInt status_code)))
                       "M-Pesa service temporarily unavailable. Please try again.")
      | (w, Timeout) =>
          retry w (StkFailure (PStr "TIMEOUT") "Request timeout. Please try again.")
      | (w, RequestException) =>
          retry w (StkFailure (PStr "NETWORK_ERROR")
                     "Network error. Please check your connection and try again.")
      end
  end.

(** [MPesaPayment.stk_push]. [None] is Python's implicit [return None]. *)
Definition stk_push (phone_number : string) (amount : Z)
    (account_reference transaction_desc : string) (booking_id : Z) (w : World)
    : World * option StkResult :=
  let system_error :=
    StkFailure (PStr "SYSTEM_ERROR")
      "System error. Please try again or contact support." in
  match validate_phone_number phone_number with
  | None =>
      (w, Some (StkFailure (PStr "INVALID_PHONE")
                  "Invalid phone number. Use format: 254712345678"))
  | Some phone =>
      let amount_int := int_of_amount amount in
      if amount_int <? 1 then
        (w, Some (StkFailure (PStr "INVALID_AMOUNT") "Amount must be at least KES 1"))
      else
        match get_access_token w with
        | (w, Raised) => (w, Some system_error)
        | (w, Returned access_token) =>
            if negb (cache_truthy access_token) then
              (w, Some (StkFailure (PStr "AUTH_FAILED")
                          "Failed to authenticate with M-Pesa. Please try again."))
            else
              match stk_attempts max_retries 0 phone amount_int
                      account_reference transaction_desc booking_id w with
              | (w, Raised) => (w, Some system_error)
              | (w, Returned result) => (w, result)
              end
        end
  end.

(** [MPesaPayment.query_transaction]: the provider's JSON object together
    with the cached context stored under [result['cached_data']], or
    [None]. Every exception ends in [return None]. *)
Definition query_transaction (checkout_request_id : string) (w : World)
    : World * option (Dict * CacheVal) :=
  match cache_get ("mpesa_request_" ++ checkout_request_id)%string w with
  | None => (w, None)
  | Some cached_data =>
      if negb (cache_truthy (Some cached_data)) then (w, None)
      else
        match get_access_token w with
        | (w, Raised) => (w, None)
        | (w, Returned access_token) =>
            if negb (cache_truthy access_token) then (w, None)
            else
              match http E (StkPushQuery checkout_request_id) w with
              | (w, Timeout) => (w, None)
              | (w, RequestException) => (w, None)
              | (w, Http status_code result) =>
                  if is_http_error status_code then (w, None)
                  else (w, Some (result, cached_data))
              end
        end
  end.

(** [process_class_payment]. The instance the caller holds is returned
    with the world, since the caller goes on using it. [Raised] is the
    [TypeError] of subscripting a [None] result. *)
Definition process_class_payment (booking : Booking) (phone_number : string)
    (w : World) : World * Booking * Outcome PayResult :=
  if BookingType_eqb (booking_type booking) FreeTrial then
    let booking := set_payment_status Paid booking in
    let booking := set_status Confirmed booking in
    let booking := set_amount_paid 0 booking in
    let booking := set_payment_date (Some (clock w)) booking in
    let booking := set_confirmed_at (Some (clock w)) booking in
    let w := save booking w in
    let w := PaymentLog_create booking None "free_trial_confirmed"
               (Some "FREE_TRIAL") w in
    let (w, _) := send_booking_confirmation_email_sync E (id booking) w in
    (w, booking, Returned (PayFreeTrial "Free trial confirmed!"))
  else
    let amount := price (karate_class booking) in
    if amount <=? 0 then
      (w, booking, Returned (PayFailure (PStr "INVALID_AMOUNT") "Invalid class price"))
    else
      let account_ref := booking_reference booking in
      let description := take 15 (title (karate_class booking)) in
      let booking := set_payment_attempts (S (payment_attempts booking)) booking in
      let booking := set_last_payment_attempt (Some (clock w)) booking in
      let w := save booking w in
      let w := PaymentLog_create booking None "payment_initiated"
                 (Some "INITIATED") w in
      match stk_push phone_number amount account_ref description (id booking) w with
      | (w, None) => (w, booking, Raised)
      | (w, Some (StkSuccess checkout_request_id _ message phone)) =>
          let booking := set_transaction_id (char_field checkout_request_id) booking in
          let booking := set_phone_number (Some phone) booking in
          let booking := set_amount_paid amount booking in
          let booking := set_payment_status PaymentPending booking in
          let booking := set_status Pending booking in
          let booking := set_expires_at (Some (clock w + 5 * 60)) booking in
          let w := save booking w in
          let w := PaymentLog_create booking (char_field checkout_request_id)
                     "stk_push_sent" (Some "SUCCESS") w in
          (w, booking, Returned (PaySuccess checkout_request_id message))
      | (w, Some (StkFailure error_code message)) =>
          let booking := set_payment_status Failed booking in
          let booking := set_status Cancelled booking in
          let booking := set_notes ("Payment failed: " ++ py_str error_code)%string
                           booking in
          let booking := set_cancelled_at (Some (clock w)) booking in
          let w := save booking w in
          let w := PaymentLog_create booking None "stk_push_failed"
                     (char_field error_code) w in
          (w, booking, Returned (PayFailure error_code message))
      end.

End WithEnv.
End Payments.
Export Payments.

(** ** views.py *)

Module Views.

(** The [stkCallback] object of a callback body, as [process_callback]
    reads it: [ResultCode], [CheckoutRequestID], [ResultDesc] and the
    [Name]/[Value] pairs of [CallbackMetadata.Item]. *)
Record StkCallback : Type := {
  ResultCode : PyVal;
  CheckoutRequestID : PyVal;
  ResultDesc : PyVal;
  CallbackMetadata : list (string * PyVal)
}.

(** The JSON answers of [check_payment_status]. *)
Inductive PollResponse : Type :=
| PollConfirmed (receipt_number : PyVal)
| PollFailed (status : PaymentStatus) (booking_status : Status)
| PollFailedByQuery
| PollExpired
| PollPending
| PollNotFound.

(** Where [BookingCreateView.post] ends. *)
Inductive CreateResponse : Type :=
| FormInvalid
| TooManyAttempts
| AlreadyBooked
| NoFreeTrialLeft
| WaitListed
| FreeTrialBooked
| PaymentRequested
| BookingFailed
| CreationError.

(** Where [payment_pending_view] ends. *)
Inductive PendingResponse : Type :=
| PendingNotFound
| PendingToSuccess
| PendingExpired
| PendingFailed
| PendingPage (timeout_seconds : Z).

Inductive CancelResponse : Type :=
| CancelNotFound
| CancelRefused
| CancelRefundRequested
| CancelDone.

(** [BookingForm.clean_phone_number] *)
Definition clean_phone_number (phone_number : string) : option string :=
  let phone := digits_only phone_number in
  if negb (startswith phone "254") || negb (Nat.eqb (String.length phone) 12)
  then None
  else Some phone.

(** The primary key the database gives the next booking. *)
Definition fresh_id (w : World) : Z :=
  1 + fold_right Z.max 0 (map id (bookings w)).

(** [Booking.objects.get(id=booking_id, user=request.user)] *)
Definition get_own_booking (request_user booking_id : Z) (w : World)
    : option Booking :=
  find (fun b => (id b =? booking_id) && (user b =? request_user)) (bookings w).

(** What leaving a [transaction.atomic()] block by an exception does: the
    tables are as before the block, everything else stays as it became. *)
Definition rollback (before after : World) : World :=
  with_bookings (bookings before)
    (with_payment_logs (payment_logs before)
       (with_waiting_list (waiting_list before) after)).

(** [WaitingList.objects.get_or_create] *)
Definition waiting_list_get_or_create (u : Z) (k : KarateClass) (s : Z)
    (w : World) : World :=
  if existsb (fun e => (wl_user e =? u) && (wl_karate_class e =? kc_id k)
                       && (wl_schedule e =? s)) (waiting_list w)
  then w
  else with_waiting_list
         (waiting_list w ++
            [{| wl_user := u; wl_karate_class := kc_id k; wl_schedule := s |}]) w.

(** [Booking.objects.filter(transaction_id=v)] *)
Definition has_transaction_id (v : PyVal) (b : Booking) : bool :=
  match transaction_id b with
  | Some t => String.eqb t (py_str v)
  | None => false
  end.

Definition bookings_with_transaction_id (v : PyVal) (w : World)
    : list Booking :=
  filter (has_transaction_id v) (bookings w).

(** [next((i['Value'] for i in items if i['Name'] == name), default)] *)
Definition item_value (items : list (string * PyVal)) (name : string)
    (default : PyVal) : PyVal :=
  match find (fun i => String.eqb (fst i) name) items with
  | Some i => snd i
  | None => default
  end.

Section WithEnv.
Variable E : Env.

(** [BookingCreateView.post], for a class that exists and a request whose
    fields pass the form's own checks (the schedule is one of the class,
    the phone field is within its [max_length]); [clean_phone_number] is
    the check the form adds. [reference] is the random reference
    [Booking.save] generates for the new row. The column is [unique]: when
    a stored row carries the same reference the INSERT raises, the
    [transaction.atomic()] block is left with nothing stored and the view
    ends in its [except] branch. *)
Definition BookingCreateView_post (request_user : Z) (karate_class : KarateClass)
    (schedule : Z) (booking_type : BookingType) (phone_number reference : string)
    (w : World) : World * CreateResponse :=
  match clean_phone_number phone_number with
  | None => (w, FormInvalid)
  | Some phone_number =>
      let recent_bookings :=
        List.length
          (filter (fun b => (user b =? request_user)
                            && (booked_at b >=? clock w - 5 * 60))
             (bookings w)) in
      if Nat.leb 3 recent_bookings then (w, TooManyAttempts)
      else if existsb (fun b => (user b =? request_user)
                                && (kc_id (Models.karate_class b) =? kc_id karate_class)
                                && (Models.schedule b =? schedule)
                                && active b) (bookings w)
      then (w, AlreadyBooked)
      else if BookingType_eqb booking_type FreeTrial
              && Nat.leb (free_trials_available karate_class w) 0
      then (w, NoFreeTrialLeft)
      else if is_full karate_class w
      then (waiting_list_get_or_create request_user karate_class schedule w,
            WaitListed)
      else
        let booking :=
          {| id := fresh_id w; user := request_user;
             Models.karate_class := karate_class; Models.schedule := schedule;
             Models.booking_type := booking_type;
             status := Pending; payment_status := Unpaid;
             amount_paid := if BookingType_eqb booking_type FreeTrial then 0
                            else price karate_class;
             transaction_id := None; mpesa_receipt_number := None;
             Models.phone_number := Some phone_number;
             booking_reference := reference;
             payment_attempts := 0; last_payment_attempt := None;
             booked_at := clock w; payment_date := None; confirmed_at := None;
             cancelled_at := None; expires_at := None; notes := "";
             confirmation_email_sent := false; payment_email_sent := false |} in
        if existsb (fun b => String.eqb (booking_reference b) reference)
             (bookings w)
        then (w, CreationError)
        else
        let w1 := save booking w in
        let w1 := PaymentLog_create booking None "booking_created"
                    (Some "CREATED") w1 in
        match process_class_payment E booking phone_number w1 with
        | (w2, _, Raised) => (rollback w w2, CreationError)
        | (w2, booking, Returned result) =>
            if pay_success result then
              match result with
              | PayFreeTrial _ => (w2, FreeTrialBooked)
              | _ => (w2, PaymentRequested)
              end
            else
              let error_code :=
                match result with
                | PayFailure c _ => c
                | _ => PStr "UNKNOWN"
                end in
              let booking := set_status Cancelled booking in
              let booking := set_payment_status Failed booking in
              let booking := set_cancelled_at (Some (clock w2)) booking in
              let booking :=
                set_notes ("Payment initiation failed: " ++ py_str error_code)%string
                  booking in
              (save booking w2, BookingFailed)
        end
  end.

(** [payment_pending_view] *)
Definition payment_pending_view (request_user booking_id : Z) (w : World)
    : World * PendingResponse :=
  match get_own_booking request_user booking_id w with
  | None => (w, PendingNotFound)
  | Some booking =>
      if PaymentStatus_eqb (payment_status booking) Paid
         && Status_eqb (status booking) Confirmed
      then (w, PendingToSuccess)
      else if is_payment_expired booking w
              && PaymentStatus_eqb (payment_status booking) PaymentPending
      then (fst (mark_expired booking w), PendingExpired)
      else if PaymentStatus_eqb (payment_status booking) Failed
              || Status_eqb (status booking) Cancelled
      then (w, PendingFailed)
      else
        (w, PendingPage
              match expires_at booking with
              | Some deadline => Z.max 0 (deadline - clock w)
              | None => 300
              end)
  end.

(** [check_payment_status] *)
Definition check_payment_status (request_user booking_id : Z) (w : World)
    : World * PollResponse :=
  match get_own_booking request_user booking_id w with
  | None => (w, PollNotFound)
  | Some booking =>
      (* 1. already confirmed *)
      if Status_eqb (status booking) Confirmed
         && PaymentStatus_eqb (payment_status booking) Paid
      then (w, PollConfirmed
                 (match mpesa_receipt_number booking with
                  | Some r => PStr r
                  | None => PStr ""
                  end))
      (* 2. failed or cancelled *)
      else if PaymentStatus_eqb (payment_status booking) Failed
              || Status_eqb (status booking) Cancelled
              || Status_eqb (status booking) Expired
      then (w, PollFailed (payment_status booking) (status booking))
      (* 3. timeout *)
      else if is_payment_expired booking w
      then
        if Status_eqb (status booking) Pending
        then (fst (mark_expired booking w), PollExpired)
        else (w, PollExpired)
      (* 4. still pending: ask M-Pesa, if there is a transaction id *)
      else
        match transaction_id booking with
        | Some tid =>
            if PaymentStatus_eqb (payment_status booking) PaymentPending
               && Status_eqb (status booking) Pending
               && negb (String.eqb tid "")
            then
              match query_transaction E tid w with
              | (w, Some (result, _)) =>
                  if mem result "ResultCode" then
                    let result_code := py_str (get result "ResultCode" PNone) in
                    if String.eqb result_code "0" then
                      let receipt := get result "MpesaReceiptNumber" (PStr "") in
                      let (w, booking) :=
                        confirm_payment booking (PStr tid) receipt w in
                      let w := PaymentLog_create booking (transaction_id booking)
                                 "payment_confirmed_via_query" (Some "0") w in
                      (w, PollConfirmed receipt)
                    else if negb (String.eqb result_code "1032"
                                  || String.eqb result_code "1")
                    then
                      let booking := set_payment_status Failed booking in
                      let booking := set_status Cancelled booking in
                      let booking := set_cancelled_at (Some (clock w)) booking in
                      let w := save booking w in
                      let w := PaymentLog_create booking (transaction_id booking)
                                 "payment_failed_via_query" (Some result_code) w in
                      (w, PollFailedByQuery)
                    else (w, PollPending)
                  else (w, PollPending)
              | (w, None) => (w, PollPending)
              end
            else (w, PollPending)
        | None => (w, PollPending)
        end
  end.

(** [process_callback], the body of the thread [mpesa_callback] starts
    after it has answered 200. A lookup that finds no booking is logged
    and dropped; one that finds several raises into the outer [except]. *)
Definition process_callback (stk_callback : StkCallback) (w : World) : World :=
  let result_code := ResultCode stk_callback in
  let checkout_request_id := CheckoutRequestID stk_callback in
  let result_desc := ResultDesc stk_callback in
  if negb (truthy checkout_request_id) then w
  else
    match bookings_with_transaction_id checkout_request_id w with
    | [booking] =>
        let w := PaymentLog_create booking (char_field checkout_request_id)
                   "callback_received" (Some (py_str result_code)) w in
        if py_eqb result_code (PInt 0) then
          let receipt_number :=
            item_value (CallbackMetadata stk_callback) "MpesaReceiptNumber"
              (PStr "N/A") in
          let (w, booking) :=
            confirm_payment booking checkout_request_id receipt_number w in
          let w := PaymentLog_create booking (char_field checkout_request_id)
                     "payment_confirmed" (Some "0") w in
          match send_booking_confirmation_email_sync E (id booking) w with
          | (w, Raised) => w
          | (w, Returned _) =>
              fst (send_payment_confirmation_email_sync E (id booking)
                     receipt_number w)
          end
        else
          let booking := set_payment_status Failed booking in
          let booking := set_status Cancelled booking in
          let booking :=
            set_notes (notes booking ++ nl ++ "Payment failed: "
                       ++ py_str result_desc ++ " (Code: " ++ py_str result_code
                       ++ ")")%string booking in
          let booking := set_cancelled_at (Some (clock w)) booking in
          let w := save booking w in
          let w := PaymentLog_create booking (char_field checkout_request_id)
                     "payment_failed" (Some (py_str result_code)) w in
          fst (send_payment_failed_email_sync E (id booking) result_desc w)
    | _ => w
    end.

(** [cancel_booking_view] *)
Definition cancel_booking_view (request_user booking_id : Z) (w : World)
    : World * CancelResponse :=
  match get_own_booking request_user booking_id w with
  | None => (w, CancelNotFound)
  | Some booking =>
      if negb (Status_eqb (status booking) Confirmed
               || Status_eqb (status booking) Pending)
      then (w, CancelRefused)
      else
        let (w, booking) :=
          cancel_booking booking (Some "User requested cancellation") w in
        let w := PaymentLog_create booking None "booking_cancelled"
                   (Some "USER_CANCEL") w in
        if PaymentStatus_eqb (payment_status booking) Paid then
          let booking := set_payment_status Refunded booking in
          (save booking w, CancelRefundRequested)
        else (w, CancelDone)
  end.

End WithEnv.
End Views.
Export Views.

(** ** views.py, the pages that only read *)

Module Pages.

(** The two keys of [request.META] that [get_client_ip] reads. *)
Record Meta : Type := {
  HTTP_X_FORWARDED_FOR : option string;
  REMOTE_ADDR : option string
}.

(** [s.split(',')[0]]: what stands before the first comma. *)
Fixpoint before_comma (s : string) : string :=
  match s with
  | EmptyString => EmptyString
  | String c s' =>
      if Ascii.eqb c "," then EmptyString else String c (before_comma s')
  end.

(** [get_client_ip] *)
Definition get_client_ip (meta : Meta) : option string :=
  match HTTP_X_FORWARDED_FOR meta with
  | Some x_forwarded_for =>
      if negb (String.eqb x_forwarded_for "")
      then Some (before_comma x_forwarded_for)
      else REMOTE_ADDR meta
  | None => REMOTE_ADDR meta
  end.

Inductive SuccessResponse : Type :=
| SuccessNotFound
| SuccessToPending
| SuccessPage.

(** [booking_success_view] *)
Definition booking_success_view (request_user booking_id : Z) (w : World)
    : SuccessResponse :=
  match get_own_booking request_user booking_id w with
  | None => SuccessNotFound
  | Some booking =>
      if negb (Status_eqb (status booking) Confirmed) then SuccessToPending
      else SuccessPage
  end.

(** [order_by('-booked_at')]: newest first; rows booked in the same second
    come in the order of the table, one of the orders the database may
    give. *)
Fixpoint insert_newest_first (b : Booking) (l : list Booking) : list Booking :=
  match l with
  | [] => [b]
  | x :: l' =>
      if booked_at x <? booked_at b then b :: x :: l'
      else x :: insert_newest_first b l'
  end.

Definition newest_first (l : list Booking) : list Booking :=
  fold_right insert_newest_first [] l.

(** The context [my_bookings_view] hands to its template. *)
Record MyBookings : Type := {
  mb_bookings : list Booking;
  active_bookings : list Booking;
  pending_bookings : list Booking;
  past_bookings : list Booking;
  has_any_booking : bool;
  total_spent : Z
}.

(** [my_bookings_view] *)
Definition my_bookings_view (request_user : Z) (w : World) : MyBookings :=
  let bookings :=
    newest_first (filter (fun b => user b =? request_user) (Models.bookings w)) in
  let active_bookings :=
    filter (fun b => Status_eqb (status b) Confirmed
                     && PaymentStatus_eqb (payment_status b) Paid) bookings in
  let pending_bookings :=
    filter (fun b => negb (PaymentStatus_eqb (payment_status b) Failed))
      (filter (fun b => Status_eqb (status b) Pending) bookings) in
  let past_bookings :=
    filter (fun b => negb (Status_eqb (status b) Confirmed
                           || Status_eqb (status b) Pending)) bookings in
  {| mb_bookings := bookings;
     active_bookings := active_bookings;
     pending_bookings := pending_bookings;
     past_bookings := past_bookings;
     has_any_booking := negb (Nat.eqb (List.length bookings) 0);
     total_spent := fold_right Z.add 0 (map amount_paid active_bookings) |}.

(** The columns of [ClassSchedule] that [ScheduleView] reads. *)
Record ClassSchedule : Type := {
  cs_id : Z;
  day_of_week : string;
  start_time : Z
}.

Definition days_order : list string :=
  ["Monday"; "Tuesday"; "Wednesday"; "Thursday"; "Friday"; "Saturday";
   "Sunday"].

(** The loop of [ScheduleView.get_context_data] over the days it is given:
    a day gets a key only if a schedule falls on it. *)
Fixpoint group_by_day (days : list string) (schedules : list ClassSchedule)
    : list (string * list ClassSchedule) :=
  match days with
  | [] => []
  | day :: days' =>
      let day_schedules :=
        filter (fun s => String.eqb (day_of_week s) day) schedules in
      match day_schedules with
      | [] => group_by_day days' schedules
      | _ => (day, day_schedules) :: group_by_day days' schedules
      end
  end.

(** [ScheduleView.get_context_data]: [schedules_by_day] (a dict, in
    insertion order) and [total_classes], from [context['schedules']]. *)
Definition ScheduleView_get_context_data (schedules : list ClassSchedule)
    : list (string * list ClassSchedule) * nat :=
  (group_by_day days_order schedules, List.length schedules).

End Pages.
Export Pages.

(** ** The booking operations as a transition system *)

Module Machine.

(** What can happen to the system: time passes, or one of the handlers of
    [views.py] runs to its end. *)
Inductive Event : Type :=
| Tick (seconds : nat)
| CreateBooking (request_user : Z) (karate_class : KarateClass) (schedule : Z)
                (booking_type : BookingType) (phone_number reference : string)
| OpenPendingPage (request_user booking_id : Z)
| Poll (request_user booking_id : Z)
| Callback (stk_callback : StkCallback)
| CancelBooking (request_user booking_id : Z).

Definition tick (seconds : nat) (w : World) : World :=
  with_clock (clock w + Z.of_nat seconds) w.

Section WithEnv.
Variable E : Env.

Definition step (ev : Event) (w : World) : World :=
  match ev with
  | Tick seconds => tick seconds w
  | CreateBooking u k s t p r => fst (BookingCreateView_post E u k s t p r w)
  | OpenPendingPage u i => fst (payment_pending_view u i w)
  | Poll u i => fst (check_payment_status E u i w)
  | Callback cb => process_callback E cb w
  | CancelBooking u i => fst (cancel_booking_view u i w)
  end.

Definition run (evs : list Event) (w : World) : World :=
  fold_left (fun w ev => step ev w) evs w.

(** The states the booking operations can bring about, from a database
    without bookings. *)
Inductive reachable : World -> Prop :=
| reachable_fresh (w : World) :
    bookings w = [] -> payment_logs w = [] -> reachable w
| reachable_step (w : World) (ev : Event) :
    reachable w -> reachable (step ev w).

End WithEnv.

(** The audit entries of one booking. *)
Definition logs_of (booking_id : Z) (w : World) : list PaymentLog :=
  filter (fun l => log_booking l =? booking_id) (payment_logs w).

(** The pair ([status], [payment_status]) of one booking, if it exists. *)
Definition state_of (booking_id : Z) (w : World)
    : option (Status * PaymentStatus) :=
  match find_booking booking_id w with
  | Some b => Some (status b, payment_status b)
  | None => None
  end.

(** The number of push requests among the requests sent. *)
Definition pushes (l : list Request) : nat :=
  List.length (filter (fun r => match r with
                                | StkPushProcess _ _ _ _ => true
                                | _ => false
                                end) l).

(** Invariant I1 as the specification words it. *)
Definition I1 (b : Booking) : Prop :=
  (status b = Confirmed <-> payment_status b = Paid) /\
  (payment_status b = Paid <-> confirmed_at b <> None).

(** The part of I1 the operations keep. *)
Definition I1_kept (b : Booking) : Prop :=
  (status b = Confirmed <-> payment_status b = Paid) /\
  (status b = Confirmed -> confirmed_at b <> None).

(** A booking no operation should move any more. *)
Definition terminal (b : Booking) : Prop :=
  status b = Confirmed \/ status b = Cancelled \/ status b = Expired
  \/ payment_status b = Failed.

(** What the poll reports for a terminal booking: its stored state. *)
Definition stored_state (b : Booking) : PollResponse :=
  match status b with
  | Confirmed =>
      PollConfirmed (match mpesa_receipt_number b with
                     | Some r => PStr r
                     | None => PStr ""
                     end)
  | _ => PollFailed (payment_status b) (status b)
  end.

(** A provider that answers every token request with a usable token. *)
Definition issues_token (E : Env) : Prop :=
  forall history,
    match reply E history OAuthGenerate with
    | Http status_code body =>
        is_http_error status_code = false /\
        mem body "access_token" = true /\
        truthy (get body "access_token" PNone) = true
    | _ => False
    end.

(** A provider that lets every push request time out. *)
Definition push_times_out (E : Env) : Prop :=
  forall history phone amount reference description,
    reply E history (StkPushProcess phone amount reference description)
    = Timeout.

(** An audit entry, as [PaymentLog.objects.create] writes it. *)
Definition entry (booking_id : Z) (tid : option string) (action : string)
    (status_code : option string) (created_at : Z) : PaymentLog :=
  {| log_booking := booking_id; log_transaction_id := tid;
     log_action := action; log_status_code := status_code;
     log_created_at := created_at |}.

(** Two worlds with the same tables and the same mail: what the M-Pesa
    client leaves alone. *)
Definition same_tables (w w' : World) : Prop :=
  bookings w' = bookings w /\ payment_logs w' = payment_logs w /\
  waiting_list w' = waiting_list w /\ outbox w' = outbox w.

(** What a mail sender may change: the mail that left and one flag of the
    row it loaded. *)
Definition flags_only (i : Z) (set_flag : Booking -> Booking) (w w' : World)
    : Prop :=
  payment_logs w' = payment_logs w /\ sent w' = sent w /\
  clock w' = clock w /\ cache w' = cache w /\
  waiting_list w' = waiting_list w /\
  (bookings w' = bookings w \/
   exists b, find_booking i w = Some b /\
             bookings w' = bookings (save (set_flag b) w)).

(** What a handler did, seen from the audit log.
    [quiet]: no booking changed state and no entry was written.
    [footprint j n]: only booking [j] may have changed state, and [n]
    entries were written for it. *)
Definition quiet (w w' : World) : Prop :=
  forall i, state_of i w' = state_of i w /\ logs_of i w' = logs_of i w.

Definition footprint (j : Z) (n : nat) (w w' : World) : Prop :=
  (forall i, i <> j -> state_of i w' = state_of i w) /\
  List.length (logs_of j w') = (List.length (logs_of j w) + n)%nat.

(** The three ways a handler can end: nothing happened; a booking was
    marked Expired without an entry; or entries were written for the one
    booking that may have changed. *)
Inductive effect (w w' : World) : Prop :=
| effect_quiet : quiet w w' -> effect w w'
| effect_expired (j : Z) :
    footprint j 0 w w' -> state_of j w' = Some (Expired, Failed) ->
    effect w w'
| effect_audited (j : Z) (n : nat) :
    footprint j (S n) w w' -> effect w w'.





(** The row a callback addresses, when primary keys are unique and exactly
    one row carries the checkout request id. *)
Definition addressed (v : PyVal) (w : World) (x : Booking) : Prop :=
  NoDup (map id (bookings w)) /\ bookings_with_transaction_id v w = [x].

(** What a confirming callback, processed at time [t], leaves in the row. *)
Definition confirmed_by (cb : StkCallback) (t : Z) (b : Booking) : Prop :=
  status b = Confirmed /\ payment_status b = Paid /\
  transaction_id b = char_field (CheckoutRequestID cb) /\
  mpesa_receipt_number b
  = char_field (item_value (CallbackMetadata cb) "MpesaReceiptNumber"
                  (PStr "N/A")) /\
  confirmed_at b = Some t.

End Machine.
Export Machine.

(** ** Concrete scenarios *)

Module Scenario.

Definition karate : KarateClass :=
  {| kc_id := 1; title := "Shotokan Beginners"; price := 150000;
     max_students := 20; free_trial_spots := 5 |}.


(** A class with a single place. *)
Definition private_lesson : KarateClass :=
  {| kc_id := 3; title := "Private Lesson"; price := 250000;
     max_students := 1; free_trial_spots := 1 |}.

Definition empty_world : World :=
  {| clock := 1000; bookings := []; payment_logs := []; waiting_list := [];
     cache := []; sent := []; outbox := [] |}.

(** A provider that issues a token and accepts every push under the request
    id [ws_CO_X]; a status query reports result code 0. *)
Definition accepting : Env :=
  {| reply := fun _ r =>
       match r with
       | OAuthGenerate => Http 200 [("access_token", PStr "tok")]
       | StkPushProcess _ _ _ _ =>
           Http 200 [("ResponseCode", PStr "0");
                     ("CheckoutRequestID", PStr "ws_CO_X");
                     ("MerchantRequestID", PStr "m-1")]
       | StkPushQuery _ =>
           Http 200 [("ResultCode", PStr "0"); ("MpesaReceiptNumber", PStr "ABC123")]
       end;
     latency := fun _ _ => 1%nat;
     delivers := fun _ _ => true |}.

(** A provider that issues a token and lets every push and every query
    time out. *)
Definition timing_out : Env :=
  {| reply := fun _ r =>
       match r with
       | OAuthGenerate => Http 200 [("access_token", PStr "tok")]
       | _ => Timeout
       end;
     latency := fun _ r =>
       match r with
       | OAuthGenerate => 1%nat
       | _ => 30%nat
       end;
     delivers := fun _ _ => true |}.

(** A provider whose status query answers with the given result code. *)
Definition answering (result_code : string) : Env :=
  {| reply := fun _ r =>
       match r with
       | OAuthGenerate => Http 200 [("access_token", PStr "tok")]
       | StkPushProcess _ _ _ _ =>
           Http 200 [("ResponseCode", PStr "0");
                     ("CheckoutRequestID", PStr "ws_CO_X");
                     ("MerchantRequestID", PStr "m-1")]
       | StkPushQuery _ =>
           Http 200 [("ResultCode", PStr result_code);
                     ("MpesaReceiptNumber", PStr "ABC123")]
       end;
     latency := fun _ _ => 1%nat;
     delivers := fun _ _ => true |}.

(** The callback of scenario B: result code 0, receipt ABC123. *)
Definition success_callback : StkCallback :=
  {| ResultCode := PInt 0; CheckoutRequestID := PStr "ws_CO_X";
     ResultDesc := PStr "The service request is processed successfully.";
     CallbackMetadata := [("Amount", PInt 1500);
                          ("MpesaReceiptNumber", PStr "ABC123")] |}.

(** A user books a monthly class and the push is accepted. *)
Definition book_monthly : Event :=
  CreateBooking 7 karate 3 Monthly "254712345678" "BK20240101DEADBEEF".

(** A user books a free trial. *)
Definition book_trial : Event :=
  CreateBooking 7 karate 3 FreeTrial "254712345678" "BK20240101CAFEF00D".

(** An instance as [form.save(commit=False)] leaves it, before the view
    fills it in. *)
Definition blank : Booking :=
  {| id := 0; user := 0; karate_class := karate; schedule := 0;
     booking_type := Monthly; status := Pending; payment_status := Unpaid;
     amount_paid := 0; transaction_id := None; mpesa_receipt_number := None;
     phone_number := None; booking_reference := "";
     payment_attempts := 0; last_payment_attempt := None; booked_at := 0;
     payment_date := None; confirmed_at := None; cancelled_at := None;
     expires_at := None; notes := ""; confirmation_email_sent := false;
     payment_email_sent := false |}.

(** A free-trial and a monthly booking as the view has just created them,
    and the world with that row and its [booking_created] entry. *)
Definition new_trial : Booking :=
  {| id := 1; user := 7; karate_class := karate; schedule := 3;
     booking_type := FreeTrial; status := Pending; payment_status := Unpaid;
     amount_paid := 0; transaction_id := None; mpesa_receipt_number := None;
     phone_number := Some "254712345678";
     booking_reference := "BK20240101CAFEF00D";
     payment_attempts := 0; last_payment_attempt := None; booked_at := 1000;
     payment_date := None; confirmed_at := None; cancelled_at := None;
     expires_at := None; notes := ""; confirmation_email_sent := false;
     payment_email_sent := false |}.

Definition new_monthly : Booking :=
  {| id := 1; user := 7; karate_class := karate; schedule := 3;
     booking_type := Monthly; status := Pending; payment_status := Unpaid;
     amount_paid := 150000; transaction_id := None;
     mpesa_receipt_number := None; phone_number := Some "254712345678";
     booking_reference := "BK20240101DEADBEEF";
     payment_attempts := 0; last_payment_attempt := None; booked_at := 1000;
     payment_date := None; confirmed_at := None; cancelled_at := None;
     expires_at := None; notes := ""; confirmation_email_sent := false;
     payment_email_sent := false |}.

Definition created (b : Booking) : World :=
  PaymentLog_create b None "booking_created" (Some "CREATED")
    (save b empty_world).

(** Scenario A: the push for a monthly booking was accepted. *)
Definition awaiting_payment : World :=
  Eval vm_compute in run accepting [book_monthly] empty_world.

Definition pending_booking : Booking :=
  Eval vm_compute in hd blank (bookings awaiting_payment).

(** Scenario B, first delivery: ten seconds later the callback confirms. *)
Definition paid : World :=
  Eval vm_compute in
    run accepting [Tick 10; Callback success_callback] awaiting_payment.

Definition confirmed_booking : Booking :=
  Eval vm_compute in hd blank (bookings paid).

(** Scenario B, second delivery: twenty seconds later the provider
    delivers the same callback again. *)
Definition redelivered : World :=
  Eval vm_compute in
    run accepting [Tick 20; Callback success_callback] paid.

(** A free trial, booked and then cancelled by the user. *)
Definition trial_cancelled : World :=
  Eval vm_compute in
    run accepting [book_trial; Tick 5; CancelBooking 7 1] empty_world.

Definition cancelled_trial_booking : Booking :=
  Eval vm_compute in hd blank (bookings trial_cancelled).

(** What the cache holds about the accepted push, and a status-query
    result that reports a failure. *)
Definition push_context : CacheVal :=
  CDict [("merchant_request_id", PStr "m-1"); ("phone", PStr "254712345678");
         ("amount", PInt 1500); ("reference", PStr "BK20240101DEADBEEF");
         ("booking_id", PInt 1)].

Definition rejected_result : Dict :=
  [("ResultCode", PStr "1037"); ("MpesaReceiptNumber", PStr "ABC123")].

(** Scenario D: a monthly booking whose push timed out at every attempt. *)
Definition push_timed_out : World :=
  Eval vm_compute in run timing_out [book_monthly] empty_world.

(** Scenario C: the payment window of the pending booking has run out. *)
Definition overdue : World :=
  Eval vm_compute in run accepting [Tick 360] awaiting_payment.

(** A class with a single place: user 7 holds it, and user 8, who asked
    next, is on the waiting list. *)
Definition class_full : World :=
  Eval vm_compute in
    run accepting
      [CreateBooking 7 private_lesson 3 Monthly "254712345678"
         "BK20240101AAAA0001";
       CreateBooking 8 private_lesson 3 Monthly "254712345678"
         "BK20240101AAAA0002"]
      empty_world.

(** User 8 asks again, user 9 asks, and user 7 cancels. *)
Definition more_requests : list Event :=
  [CreateBooking 8 private_lesson 3 Monthly "254712345678"
     "BK20240101AAAA0003";
   CreateBooking 9 private_lesson 3 Monthly "254712345678"
     "BK20240101AAAA0004";
   CancelBooking 7 1].

End Scenario.

(** ** Further vocabulary for statements about the code *)

Module Extra.

(** The push request [stk_push] posts for a validated phone number. *)
Definition push_request (phone : string) (amount : Z)
    (account_reference transaction_desc : string) : Request :=
  StkPushProcess phone (int_of_amount amount)
    (take 20 account_reference) (take 20 transaction_desc).

(** The entry [cache.set(key, value, timeout)] leaves at time [now]. *)
Definition cached (key : string) (value : CacheVal) (timeout now : Z)
    : CacheEntry :=
  {| ce_key := key; ce_value := value; ce_expiry := now + timeout |}.

(** The cache of [w'] is that of [w] with entries put on top of it, none of
    them under [key]. *)
Definition cache_extends (key : string) (w w' : World) : Prop :=
  exists newer,
    cache w' = newer ++ cache w /\
    Forall (fun e => ce_key e <> key) newer.

(** The (status, payment status) pairs a row can be left in, and the
    deadline a row awaiting payment carries. *)
Definition lifecycle_state (b : Booking) : Prop :=
  match status b, payment_status b with
  | Pending, PaymentPending => expires_at b <> None
  | Confirmed, Paid => True
  | Cancelled, Failed => True
  | Cancelled, Refunded => True
  | Cancelled, PaymentPending => True
  | Expired, Failed => True
  | _, _ => False
  end.

(** The bookings that take a place in a class. *)
Definition taking_place (k : KarateClass) (w : World) : list Booking :=
  filter (fun b => (kc_id (karate_class b) =? kc_id k) && active b)
    (bookings w).

(** While [BookingCreateView.post] runs, the row it has just inserted is
    still Pending and Unpaid; every other row is in a life-cycle state. *)
Definition settled_but (i : Z) (b : Booking) : Prop :=
  id b = i \/ lifecycle_state b.

(** The number of booking requests among the events. *)
Definition creations (evs : list Event) : nat :=
  List.length (filter (fun ev => match ev with
                                 | CreateBooking _ _ _ _ _ _ => true
                                 | _ => false
                                 end) evs).

(** [w'] comes after [w]: the clock did not go back, and the audit log of
    [w'] is that of [w] followed by entries written in between. *)
Definition appended (w w' : World) : Prop :=
  clock w <= clock w' /\
  exists newer,
    payment_logs w' = payment_logs w ++ newer /\
    Forall (fun l => clock w <= log_created_at l <= clock w') newer.

(** What a booking is for: the columns no handler assigns after the row
    was created. *)
Definition identity (b : Booking)
    : Z * Z * KarateClass * Z * BookingType * string * Z :=
  (id b, user b, karate_class b, schedule b, booking_type b,
   booking_reference b, booked_at b).

(** Every row of [w] is still in [w'], under its primary key and for the
    same user, class, schedule and booking type. *)
Definition rows_kept (w w' : World) : Prop :=
  forall i b, find_booking i w = Some b ->
    exists b', find_booking i w' = Some b' /\ identity b' = identity b.

(** The free-trial bookings that take one of the free-trial places of a
    class. *)
Definition trial_places (k : KarateClass) (w : World) : list Booking :=
  filter (fun b => (kc_id (karate_class b) =? kc_id k)
                   && BookingType_eqb (booking_type b) FreeTrial
                   && active b)
    (bookings w).

(** The table of [w] is the rows [l] followed by one row for the booking
    [k]. *)
Definition last_row (l : list Booking)
    (k : Z * Z * KarateClass * Z * BookingType * string * Z) (w : World)
    : Prop :=
  exists b, bookings w = l ++ [b] /\ identity b = k.

(** The deadline of a booking, if it has one, is at most five minutes
    after the time [now]. *)
Definition deadline_near (now : Z) (b : Booking) : Prop :=
  forall deadline, expires_at b = Some deadline -> deadline <= now + 5 * 60.

(** The row as a confirming callback leaves it before the mails are sent,
    and the world in which they are sent. *)
Definition confirmed_row (cb : StkCallback) (w : World) (b : Booking)
    : Booking :=
  snd (confirm_payment b (CheckoutRequestID cb)
         (item_value (CallbackMetadata cb) "MpesaReceiptNumber" (PStr "N/A"))
         (PaymentLog_create b (char_field (CheckoutRequestID cb))
            "callback_received" (Some (py_str (ResultCode cb))) w)).

Definition before_mail (cb : StkCallback) (w : World) (b : Booking) : World :=
  PaymentLog_create (confirmed_row cb w b) (char_field (CheckoutRequestID cb))
    "payment_confirmed" (Some "0")
    (save (confirmed_row cb w b)
       (PaymentLog_create b (char_field (CheckoutRequestID cb))
          "callback_received" (Some (py_str (ResultCode cb))) w)).

(** The texts a failed payment request can show to the user. *)
Definition failure_messages : list string :=
  [ "Invalid class price";
    "Invalid phone number. Use format: 254712345678";
    "Amount must be at least KES 1";
    "Failed to authenticate with M-Pesa. Please try again.";
    "System error. Please try again or contact support.";
    "M-Pesa service temporarily unavailable. Please try again.";
    "Request timeout. Please try again.";
    "Network error. Please check your connection and try again.";
    "Insufficient M-Pesa balance. Please top up and try again.";
    "Invalid phone number. Please check and try again.";
    "Transaction failed. Please try again.";
    "Payment was cancelled.";
    "Invalid M-Pesa account.";
    "Amount exceeds M-Pesa limits.";
    "Payment request was cancelled.";
    "Payment failed. Please try again or contact support." ].

(** The newsletter app connects a [post_save] receiver to [Booking]
    (newsletter/signals.py, [handle_booking_confirmation]). When an
    existing row is saved as Paid with [payment_email_sent] unset, the
    receiver sends a payment mail of its own and sets that flag. [save]
    runs no receivers; [receiver_idle b] says that saving the existing row
    [b] is a save at which this receiver does nothing. *)
Definition receiver_idle (b : Booking) : bool :=
  negb (PaymentStatus_eqb (payment_status b) Paid
        && negb (payment_email_sent b)).

End Extra.
Export Extra.

(** * Proofs *)

(** ** Tactics *)

(** Split on the scrutinee of the first [match] (or [if]) of the goal. *)
Ltac split_match :=
  match goal with
  | |- context [match ?x with _ => _ end] => destruct x eqn:?
  end.

(** The same in a hypothesis. *)
Ltac split_match_in H :=
  match type of H with
  | context [match ?x with _ => _ end] => destruct x eqn:?
  end.

(** ** The database under [save] *)

Section SaveFacts.

Lemma save_existing (b : Booking) (w : World) :
  existsb (fun x => id x =? id b) (bookings w) = true ->
  bookings (save b w)
  = map (fun x => if id x =? id b then b else x) (bookings w).
Proof. intros H. unfold save. rewrite H. reflexivity. Qed.

Lemma save_payment_logs (b : Booking) (w : World) :
  payment_logs (save b w) = payment_logs w.
Proof. unfold save. destruct (existsb _ _); reflexivity. Qed.

Lemma save_sent (b : Booking) (w : World) : sent (save b w) = sent w.
Proof. unfold save. destruct (existsb _ _); reflexivity. Qed.

Lemma save_clock (b : Booking) (w : World) : clock (save b w) = clock w.
Proof. unfold save. destruct (existsb _ _); reflexivity. Qed.

Lemma save_cache (b : Booking) (w : World) : cache (save b w) = cache w.
Proof. unfold save. destruct (existsb _ _); reflexivity. Qed.

Lemma save_waiting_list (b : Booking) (w : World) :
  waiting_list (save b w) = waiting_list w.
Proof. unfold save. destruct (existsb _ _); reflexivity. Qed.

(** A property of rows survives [save] when the saved instance has it, even
    if the rows with that primary key did not have it before. *)
Lemma save_Forall_over (P : Booking -> Prop) (b : Booking) (w : World) :
  Forall (fun x => id x = id b \/ P x) (bookings w) ->
  P b ->
  Forall P (bookings (save b w)).
Proof.
  intros Hall Hb. unfold save.
  destruct (existsb _ _) eqn:Hex; cbn.
  - clear Hex. induction Hall as [|x l Hx _ IH]; cbn; constructor; auto.
    destruct (Z.eqb_spec (id x) (id b)); [assumption|].
    destruct Hx; [contradiction | assumption].
  - apply Forall_app. split; [|repeat constructor; assumption].
    induction Hall as [|x l Hx Hl IH]; constructor.
    + cbn in Hex. apply orb_false_iff in Hex. destruct Hex as [Hx' _].
      destruct Hx as [Hx|Hx]; [|assumption].
      apply Z.eqb_neq in Hx'. contradiction.
    + apply IH. cbn in Hex. apply orb_false_iff in Hex. tauto.
Qed.

Lemma save_Forall (P : Booking -> Prop) (b : Booking) (w : World) :
  Forall P (bookings w) -> P b -> Forall P (bookings (save b w)).
Proof.
  intros Hall Hb. apply save_Forall_over; [|assumption].
  eapply Forall_impl; [|exact Hall]. intros; right; assumption.
Qed.

(** After [save], every row that was there before either kept its content
    or carries the saved primary key. *)
Lemma save_Forall_weak (P : Booking -> Prop) (i : Z) (b : Booking) (w : World) :
  id b = i ->
  Forall P (bookings w) ->
  Forall (fun x => id x = i \/ P x) (bookings (save b w)).
Proof.
  intros Hi Hall. apply save_Forall_over; [|left; assumption].
  eapply Forall_impl; [|exact Hall]. intros; right; right; assumption.
Qed.

Lemma find_booking_save_same (b : Booking) (w : World) :
  find_booking (id b) (save b w) = Some b.
Proof.
  unfold find_booking, save.
  destruct (existsb _ _) eqn:Hex; cbn.
  - induction (bookings w) as [|x l IH]; cbn in *; [discriminate|].
    destruct (Z.eqb_spec (id x) (id b)) as [Heq|Hne]; cbn.
    + rewrite Z.eqb_refl. reflexivity.
    + apply Z.eqb_neq in Hne. rewrite Hne. apply IH.
      cbn in Hex. exact Hex.
  - induction (bookings w) as [|x l IH]; cbn in *.
    + rewrite Z.eqb_refl. reflexivity.
    + apply orb_false_iff in Hex. destruct Hex as [Hx Hl].
      rewrite Hx. apply IH. exact Hl.
Qed.

Lemma find_booking_save_other (i : Z) (b : Booking) (w : World) :
  i <> id b -> find_booking i (save b w) = find_booking i w.
Proof.
  intros Hne. unfold find_booking, save.
  destruct (existsb _ _); cbn.
  - induction (bookings w) as [|x l IH]; cbn; [reflexivity|].
    destruct (Z.eqb_spec (id x) (id b)) as [Heq|Hneq].
    + assert ((id b =? i) = false) as -> by (apply Z.eqb_neq; congruence).
      assert ((id x =? i) = false) as -> by (apply Z.eqb_neq; congruence).
      exact IH.
    + destruct (id x =? i); [reflexivity | exact IH].
  - induction (bookings w) as [|x l IH]; cbn.
    + assert ((id b =? i) = false) as -> by (apply Z.eqb_neq; congruence).
      reflexivity.
    + destruct (id x =? i); [reflexivity | exact IH].
Qed.

Lemma find_booking_In (i : Z) (b : Booking) (w : World) :
  find_booking i w = Some b -> In b (bookings w) /\ id b = i.
Proof.
  unfold find_booking. intros H. apply find_some in H.
  destruct H as [Hin Hid]. apply Z.eqb_eq in Hid. auto.
Qed.

End SaveFacts.

(** ** What the M-Pesa client leaves alone

    The client talks to the provider and to the cache; it never writes a
    table and never sends mail. *)

Lemma same_tables_refl (w : World) : same_tables w w.
Proof. repeat split. Qed.

Lemma same_tables_trans (w1 w2 w3 : World) :
  same_tables w1 w2 -> same_tables w2 w3 -> same_tables w1 w3.
Proof.
  unfold same_tables. intros (A & B & C & D) (A' & B' & C' & D').
  repeat split; congruence.
Qed.

Section ClientFrame.
Variable E : Env.

Lemma token_attempts_same_tables (fuel attempt : nat) (w : World) :
  same_tables w (fst (token_attempts E fuel attempt w)).
Proof.
  revert attempt w. induction fuel as [|fuel IH]; intros attempt w; cbn.
  - apply same_tables_refl.
  - destruct (reply E (sent w) OAuthGenerate) as [| |sc body];
      repeat (split_match; cbn);
      try apply same_tables_refl;
      try (eapply same_tables_trans; [|apply IH]; repeat split);
      repeat split.
Qed.

Lemma get_access_token_same_tables (w : World) :
  same_tables w (fst (get_access_token E w)).
Proof.
  unfold get_access_token. split_match.
  - apply same_tables_refl.
  - apply token_attempts_same_tables.
Qed.

Lemma stk_attempts_same_tables (fuel attempt : nat) (phone : string)
    (amount_int : Z) (ref desc : string) (booking_id : Z) (w : World) :
  same_tables w
    (fst (stk_attempts E fuel attempt phone amount_int ref desc booking_id w)).
Proof.
  revert attempt w. induction fuel as [|fuel IH]; intros attempt w; cbn.
  - apply same_tables_refl.
  - destruct (reply E (sent w) _) as [| |sc body];
      repeat (split_match; cbn);
      try apply same_tables_refl;
      try (eapply same_tables_trans; [|apply IH]; repeat split);
      repeat split.
Qed.

Lemma stk_push_same_tables (phone : string) (amount : Z) (ref desc : string)
    (booking_id : Z) (w : World) :
  same_tables w (fst (stk_push E phone amount ref desc booking_id w)).
Proof.
  unfold stk_push.
  destruct (validate_phone_number phone); [|apply same_tables_refl].
  destruct (int_of_amount amount <? 1); [apply same_tables_refl|].
  pose proof (get_access_token_same_tables w) as Ht.
  destruct (get_access_token E w) as [w1 [tok|]]; cbn [fst] in *;
    [|assumption].
  destruct (negb (cache_truthy tok)); [assumption|].
  pose proof (stk_attempts_same_tables max_retries 0 s (int_of_amount amount)
                ref desc booking_id w1) as Hs.
  destruct (stk_attempts _ _ _ _ _ _ _ _ _) as [w2 [r|]]; cbn [fst] in *;
    eapply same_tables_trans; eassumption.
Qed.

Lemma query_transaction_same_tables (tid : string) (w : World) :
  same_tables w (fst (query_transaction E tid w)).
Proof.
  unfold query_transaction.
  destruct (cache_get _ w); [|apply same_tables_refl].
  destruct (negb _); [apply same_tables_refl|].
  pose proof (get_access_token_same_tables w) as Ht.
  destruct (get_access_token E w) as [w1 [tok|]]; cbn [fst] in *;
    [|assumption].
  destruct (negb (cache_truthy tok)); [assumption|].
  unfold http.
  destruct (reply E (sent w1) _) as [| |sc body]; cbn;
    repeat (split_match; cbn);
    (eapply same_tables_trans; [exact Ht|repeat split]).
Qed.

End ClientFrame.

Lemma find_booking_save (j : Z) (b : Booking) (w : World) :
  find_booking j (save b w) = if j =? id b then Some b else find_booking j w.
Proof.
  destruct (Z.eqb_spec j (id b)) as [->|Hne].
  - apply find_booking_save_same.
  - apply find_booking_save_other. assumption.
Qed.

(** ** What the mail senders do to the world *)

Section MailFacts.
Variable E : Env.

Lemma send_booking_confirmation_email_sync_flags (i : Z) (w : World) :
  flags_only i (set_confirmation_email_sent true) w
    (fst (send_booking_confirmation_email_sync E i w)).
Proof.
  unfold send_booking_confirmation_email_sync, send, flags_only.
  destruct (find_booking i w) as [b|] eqn:Hf; cbn; [|tauto].
  destruct (confirmation_email_sent b); cbn; [tauto|].
  destruct (delivers E (outbox w) _); cbn; [|tauto].
  rewrite save_payment_logs, save_sent, save_clock, save_cache,
    save_waiting_list.
  repeat (split; [reflexivity|]).
  right. exists b. split; [reflexivity|].
  unfold save. cbn. destruct (existsb _ _); reflexivity.
Qed.

Lemma send_payment_confirmation_email_sync_flags (i : Z) (r : PyVal)
    (w : World) :
  flags_only i (set_payment_email_sent true) w
    (fst (send_payment_confirmation_email_sync E i r w)).
Proof.
  unfold send_payment_confirmation_email_sync, send, flags_only.
  destruct (find_booking i w) as [b|] eqn:Hf; cbn; [|tauto].
  destruct (payment_email_sent b); cbn; [tauto|].
  destruct (delivers E (outbox w) _); cbn; [|tauto].
  rewrite save_payment_logs, save_sent, save_clock, save_cache,
    save_waiting_list.
  repeat (split; [reflexivity|]).
  right. exists b. split; [reflexivity|].
  unfold save. cbn. destruct (existsb _ _); reflexivity.
Qed.

Lemma send_payment_failed_email_sync_flags (i : Z) (r : PyVal) (w : World) :
  flags_only i (fun b => b) w (fst (send_payment_failed_email_sync E i r w)).
Proof.
  unfold send_payment_failed_email_sync, send, flags_only.
  destruct (find_booking i w) as [b|] eqn:Hf; cbn; [|tauto].
  destruct (delivers E (outbox w) _); cbn; tauto.
Qed.

(** A property of rows that no flag affects survives a sender. *)
Lemma flags_only_Forall (P : Booking -> Prop) (i : Z)
    (set_flag : Booking -> Booking) (w w' : World) :
  (forall b, P b -> P (set_flag b)) ->
  flags_only i set_flag w w' ->
  Forall P (bookings w) -> Forall P (bookings w').
Proof.
  intros Hflag (_ & _ & _ & _ & _ & [Hsame|(b & Hf & Hb)]) Hall.
  - rewrite Hsame. assumption.
  - rewrite Hb. apply save_Forall; [assumption|].
    apply Hflag. apply find_booking_In in Hf. destruct Hf as [Hin _].
    rewrite Forall_forall in Hall. auto.
Qed.

(** The row a sender finds afterwards is the one it found before, up to
    the flag. *)
Lemma flags_only_find (i j : Z) (set_flag : Booking -> Booking)
    (w w' : World) :
  (forall b, id (set_flag b) = id b) ->
  flags_only i set_flag w w' ->
  find_booking j w' = find_booking j w \/
  exists b, find_booking j w = Some b /\ find_booking j w' = Some (set_flag b).
Proof.
  intros Hid (_ & _ & _ & _ & _ & [Hsame|(b & Hf & Hb)]).
  - left. unfold find_booking. rewrite Hsame. reflexivity.
  - assert (find_booking j w' = find_booking j (save (set_flag b) w)) as ->
      by (unfold find_booking; rewrite Hb; reflexivity).
    rewrite find_booking_save, Hid.
    pose proof (find_booking_In _ _ _ Hf) as [_ Hib].
    destruct (Z.eqb_spec j (id b)) as [->|]; [|left; reflexivity].
    right. exists b. rewrite Hib. auto.
Qed.

End MailFacts.

(** ** The kept part of invariant I1 *)

Section Invariant.
Variable E : Env.

Ltac kept := unfold I1_kept in *; cbn in *; intuition (congruence || discriminate).

Lemma process_class_payment_keeps (booking : Booking) (phone : string)
    (w : World) :
  I1_kept booking ->
  Forall I1_kept (bookings w) ->
  Forall I1_kept (bookings (fst (fst (process_class_payment E booking phone w))))
  /\ I1_kept (snd (fst (process_class_payment E booking phone w))).
Proof.
  intros Hb Hw. unfold process_class_payment.
  destruct (BookingType_eqb _ _).
  - match goal with
    | |- context [send_booking_confirmation_email_sync E ?i ?w0] =>
        pose proof (send_booking_confirmation_email_sync_flags E i w0) as Hm;
        destruct (send_booking_confirmation_email_sync E i w0) as [w1 o]
    end.
    cbn [fst snd] in *. split; [|kept].
    eapply flags_only_Forall; [|exact Hm|].
    + intros b Hk. kept.
    + cbn. apply save_Forall; [assumption|kept].
  - destruct (price (karate_class booking) <=? 0); cbn [fst snd]; [auto|].
    match goal with
    | |- context [stk_push E ?p ?a ?r ?d ?i ?w0] =>
        pose proof (stk_push_same_tables E p a r d i w0) as (Hs & _);
        destruct (stk_push E p a r d i w0) as [w1 [[c m msg ph|code msg]|]]
    end; cbn [fst snd] in *.
    + split; [|kept]. apply save_Forall; [|kept].
      rewrite Hs. cbn. apply save_Forall; [assumption|kept].
    + split; [|kept]. apply save_Forall; [|kept].
      rewrite Hs. cbn. apply save_Forall; [assumption|kept].
    + split; [|kept]. rewrite Hs. cbn. apply save_Forall; [assumption|kept].
Qed.

Lemma BookingCreateView_post_keeps (u : Z) (k : KarateClass) (s : Z)
    (t : BookingType) (p r : string) (w : World) :
  Forall I1_kept (bookings w) ->
  Forall I1_kept (bookings (fst (BookingCreateView_post E u k s t p r w))).
Proof.
  intros Hw. unfold BookingCreateView_post.
  destruct (clean_phone_number p) as [phone|]; [|assumption].
  repeat (split_match; [assumption|]).
  split_match.
  { unfold waiting_list_get_or_create. split_match; assumption. }
  split_match; [assumption|].
  match goal with
  | |- context [process_class_payment E ?b ?ph ?w0] =>
      assert (I1_kept b) as Hb by kept;
      assert (Forall I1_kept (bookings w0)) as Hw0
        by (cbn; apply save_Forall; assumption);
      pose proof (process_class_payment_keeps b ph w0 Hb Hw0) as [Hk1 Hk2];
      destruct (process_class_payment E b ph w0) as [[w2 b2] [res|]]
  end; cbn [fst snd] in *.
  - destruct (pay_success res).
    + destruct res; assumption.
    + cbn [fst]. apply save_Forall; [assumption|kept].
  - cbn. assumption.
Qed.

Lemma payment_pending_view_keeps (u i : Z) (w : World) :
  Forall I1_kept (bookings w) ->
  Forall I1_kept (bookings (fst (payment_pending_view u i w))).
Proof.
  intros Hw. unfold payment_pending_view, mark_expired.
  destruct (get_own_booking u i w) as [b|]; [|assumption].
  repeat (split_match; cbn [fst]; try assumption);
    cbn; try assumption; (apply save_Forall; [assumption|kept]).
Qed.

Lemma get_own_booking_In (u i : Z) (b : Booking) (w : World) :
  get_own_booking u i w = Some b ->
  In b (bookings w) /\ id b = i /\ user b = u.
Proof.
  unfold get_own_booking. intros H. apply find_some in H.
  destruct H as [Hin Hc]. apply andb_true_iff in Hc.
  destruct Hc as [H1 H2]. apply Z.eqb_eq in H1, H2. auto.
Qed.

Lemma check_payment_status_keeps (u i : Z) (w : World) :
  Forall I1_kept (bookings w) ->
  Forall I1_kept (bookings (fst (check_payment_status E u i w))).
Proof.
  intros Hw. unfold check_payment_status, confirm_payment, mark_expired.
  destruct (get_own_booking u i w) as [b|] eqn:Hb; [|assumption].
  repeat (split_match; cbn [fst]; try assumption).
  all: try match goal with
    | H : query_transaction E ?t ?w0 = (?w1, _) |- _ =>
        pose proof (query_transaction_same_tables E t w0) as (Hq & _);
        rewrite H in Hq; cbn [fst] in Hq
    end.
  all: cbn; try (rewrite Hq; assumption); try assumption.
  all: apply save_Forall; [try rewrite Hq; assumption|kept].
Qed.

Lemma filter_singleton_In {A : Type} (f : A -> bool) (l : list A) (x : A) :
  filter f l = [x] -> In x l /\ f x = true.
Proof.
  intros H. apply filter_In. rewrite H. left. reflexivity.
Qed.

Lemma process_callback_keeps (cb : StkCallback) (w : World) :
  Forall I1_kept (bookings w) ->
  Forall I1_kept (bookings (process_callback E cb w)).
Proof.
  intros Hw. unfold process_callback, confirm_payment.
  destruct (negb _); [assumption|].
  destruct (bookings_with_transaction_id _ w) as [|b [|]] eqn:Hf;
    try assumption.
  apply filter_singleton_In in Hf. destruct Hf as [Hin _].
  assert (I1_kept b) as Hb by (rewrite Forall_forall in Hw; auto).
  destruct (py_eqb _ _).
  - match goal with
    | |- context [send_booking_confirmation_email_sync E ?i ?w0] =>
        pose proof (send_booking_confirmation_email_sync_flags E i w0) as Hm;
        assert (Forall I1_kept (bookings w0)) as Hw0
          by (cbn; apply save_Forall; [assumption|kept]);
        destruct (send_booking_confirmation_email_sync E i w0) as [w1 [[]|]]
    end; cbn [fst] in Hm.
    + eapply flags_only_Forall;
        [|apply send_payment_confirmation_email_sync_flags|].
      * intros; kept.
      * eapply flags_only_Forall; [|exact Hm|exact Hw0]. intros; kept.
    + eapply flags_only_Forall; [|exact Hm|exact Hw0]. intros; kept.
  - eapply flags_only_Forall; [|apply send_payment_failed_email_sync_flags|].
    + intros; assumption.
    + cbn. apply save_Forall; [assumption|kept].
Qed.

Lemma cancel_booking_view_keeps (u i : Z) (w : World) :
  Forall I1_kept (bookings w) ->
  Forall I1_kept (bookings (fst (cancel_booking_view u i w))).
Proof.
  intros Hw. unfold cancel_booking_view, cancel_booking.
  destruct (get_own_booking u i w) as [b|] eqn:Hb; [|assumption].
  apply get_own_booking_In in Hb. destruct Hb as (Hin & _ & _).
  assert (I1_kept b) as Hk by (rewrite Forall_forall in Hw; auto).
  destruct (negb _); [assumption|]. cbn.
  destruct (PaymentStatus_eqb (payment_status b) Paid) eqn:Hp; cbn.
  - apply save_Forall_over; [|kept].
    cbn. apply save_Forall_weak; [reflexivity|assumption].
  - apply save_Forall; [assumption|].
    unfold I1_kept; cbn.
    destruct (payment_status b); cbn in Hp; try discriminate Hp;
      (split; [split; intros; discriminate | intros; discriminate]).
Qed.

Lemma step_keeps (ev : Event) (w : World) :
  Forall I1_kept (bookings w) ->
  Forall I1_kept (bookings (step E ev w)).
Proof.
  destruct ev; cbn [step].
  - intros H. exact H.
  - apply BookingCreateView_post_keeps.
  - apply payment_pending_view_keeps.
  - apply check_payment_status_keeps.
  - apply process_callback_keeps.
  - apply cancel_booking_view_keeps.
Qed.

(** Every reachable state satisfies the kept part of I1. *)
Lemma reachable_kept (w : World) :
  reachable E w -> Forall I1_kept (bookings w).
Proof.
  induction 1 as [w Hb _|w ev _ IH].
  - rewrite Hb. constructor.
  - apply step_keeps. assumption.
Qed.

Lemma run_reachable (evs : list Event) (w : World) :
  reachable E w -> reachable E (run E evs w).
Proof.
  revert w. induction evs as [|ev evs IH]; intros w Hw; cbn.
  - assumption.
  - apply IH. apply reachable_step. assumption.
Qed.

End Invariant.

(** ** C3: invariant I1 *)

(** C3, as stated, fails: after a user cancels a confirmed free trial the
    booking is Cancelled and Refunded while [confirmed_at] is still set, so
    "paymentStatus=Paid iff confirmedAt set" does not hold in a state the
    operations reach. *)
Lemma I1_broken_by_cancellation :
  reachable Scenario.accepting Scenario.trial_cancelled /\
  In Scenario.cancelled_trial_booking (bookings Scenario.trial_cancelled) /\
  status Scenario.cancelled_trial_booking = Cancelled /\
  payment_status Scenario.cancelled_trial_booking = Refunded /\
  confirmed_at Scenario.cancelled_trial_booking = Some 1000 /\
  ~ I1 Scenario.cancelled_trial_booking.
Proof.
  split.
  { change Scenario.trial_cancelled with
      (run Scenario.accepting
         [Scenario.book_trial; Tick 5; CancelBooking 7 1] Scenario.empty_world).
    apply run_reachable. apply reachable_fresh; reflexivity. }
  split; [left; reflexivity|].
  repeat (split; [reflexivity|]).
  intros [_ [_ H]].
  assert (payment_status Scenario.cancelled_trial_booking = Paid) as Hp
    by (apply H; discriminate).
  discriminate Hp.
Qed.

(** C3, amended: in every state the booking operations reach, a booking is
    Confirmed if and only if it is Paid, and a Confirmed booking has
    [confirmed_at] set. *)
Theorem I1_kept_when_reachable (E : Env) (w : World) (b : Booking) :
  reachable E w ->
  In b (bookings w) ->
  (status b = Confirmed <-> payment_status b = Paid) /\
  (status b = Confirmed -> confirmed_at b <> None).
Proof.
  intros Hr Hin. apply reachable_kept in Hr.
  rewrite Forall_forall in Hr. exact (Hr b Hin).
Qed.

Lemma I1_kept_when_reachable_witness :
  reachable Scenario.accepting Scenario.trial_cancelled /\
  In Scenario.cancelled_trial_booking (bookings Scenario.trial_cancelled) /\
  (status Scenario.cancelled_trial_booking = Confirmed
   <-> payment_status Scenario.cancelled_trial_booking = Paid) /\
  (status Scenario.cancelled_trial_booking = Confirmed
   -> confirmed_at Scenario.cancelled_trial_booking <> None).
Proof.
  assert (reachable Scenario.accepting Scenario.trial_cancelled) as Hr.
  { change Scenario.trial_cancelled with
      (run Scenario.accepting
         [Scenario.book_trial; Tick 5; CancelBooking 7 1] Scenario.empty_world).
    apply run_reachable. apply reachable_fresh; reflexivity. }
  assert (In Scenario.cancelled_trial_booking
            (bookings Scenario.trial_cancelled)) as Hin
    by (left; reflexivity).
  split; [exact Hr|]. split; [exact Hin|].
  exact (I1_kept_when_reachable _ _ _ Hr Hin).
Defined.

(** ** C4: no status query for a terminal booking *)

(** C4: for every booking that is Confirmed, Cancelled or Expired, or whose
    payment has Failed, the poll handler leaves the world as it is, so it
    sends nothing to the provider and issues no status query; and in every
    state the booking operations reach, its answer is the stored state. *)
Theorem poll_of_terminal_booking (E : Env) (u i : Z) (w : World) (b : Booking) :
  get_own_booking u i w = Some b ->
  terminal b ->
  fst (check_payment_status E u i w) = w /\
  sent (fst (check_payment_status E u i w)) = sent w /\
  (reachable E w -> snd (check_payment_status E u i w) = stored_state b).
Proof.
  intros Hb Ht.
  assert (fst (check_payment_status E u i w) = w) as Heq.
  { unfold check_payment_status, terminal in *. rewrite Hb.
    destruct (status b) eqn:Hs, (payment_status b) eqn:Hp; cbn;
      try reflexivity;
      try (destruct (is_payment_expired b w); reflexivity);
      try (destruct (is_payment_expired b w);
           destruct (transaction_id b); reflexivity);
      exfalso; intuition discriminate. }
  split; [exact Heq|]. split; [rewrite Heq; reflexivity|].
  intros Hr.
  assert (I1_kept b) as [Hk _].
  { apply reachable_kept in Hr. rewrite Forall_forall in Hr. apply Hr.
    apply get_own_booking_In in Hb. tauto. }
  unfold check_payment_status, stored_state, terminal in *. rewrite Hb.
  destruct (status b) eqn:Hs, (payment_status b) eqn:Hp; cbn;
    try reflexivity;
    try (destruct Hk as [Hk1 Hk2];
         first [ discriminate (Hk1 eq_refl) | discriminate (Hk2 eq_refl) ]);
    exfalso; intuition discriminate.
Qed.

Lemma poll_of_terminal_booking_witness :
  get_own_booking 7 1 Scenario.paid = Some Scenario.confirmed_booking /\
  terminal Scenario.confirmed_booking /\
  reachable Scenario.accepting Scenario.paid /\
  fst (check_payment_status Scenario.accepting 7 1 Scenario.paid)
  = Scenario.paid /\
  sent (fst (check_payment_status Scenario.accepting 7 1 Scenario.paid))
  = sent Scenario.paid /\
  snd (check_payment_status Scenario.accepting 7 1 Scenario.paid)
  = stored_state Scenario.confirmed_booking.
Proof.
  assert (reachable Scenario.accepting Scenario.paid) as Hr.
  { change Scenario.paid with
      (run Scenario.accepting
         [Scenario.book_monthly; Tick 10; Callback Scenario.success_callback]
         Scenario.empty_world).
    apply run_reachable. apply reachable_fresh; reflexivity. }
  assert (get_own_booking 7 1 Scenario.paid = Some Scenario.confirmed_booking)
    as Hb by reflexivity.
  assert (terminal Scenario.confirmed_booking) as Ht by (left; reflexivity).
  split; [exact Hb|]. split; [exact Ht|]. split; [exact Hr|].
  destruct (poll_of_terminal_booking Scenario.accepting 7 1 Scenario.paid
              Scenario.confirmed_booking Hb Ht) as (H1 & H2 & H3).
  split; [exact H1|]. split; [exact H2|]. exact (H3 Hr).
Defined.

(** ** The poll handler: C5, C10 and C2 *)

Lemma get_own_booking_save (u i : Z) (b b' : Booking) (w : World) :
  get_own_booking u i w = Some b ->
  id b' = id b -> user b' = user b ->
  get_own_booking u i (save b' w) = Some b'.
Proof.
  intros Hb Hid Hu.
  pose proof (get_own_booking_In _ _ _ _ Hb) as (Hin & Hi & Hu').
  unfold get_own_booking in *. rewrite save_existing.
  2:{ apply existsb_exists. exists b. split; [assumption|].
      apply Z.eqb_eq. congruence. }
  clear Hin. induction (bookings w) as [|x l IH]; cbn in *; [discriminate|].
  destruct (Z.eqb_spec (id x) (id b')) as [Hx|Hx]; cbn.
  - assert ((id b' =? i) = true) as -> by (apply Z.eqb_eq; congruence).
    assert ((user b' =? u) = true) as -> by (apply Z.eqb_eq; congruence).
    reflexivity.
  - assert ((id x =? i) = false) as Hxi by (apply Z.eqb_neq; congruence).
    rewrite Hxi in *. cbn in *. apply IH. assumption.
Qed.

Lemma find_booking_of_own (u i : Z) (b b' : Booking) (w : World) :
  get_own_booking u i w = Some b -> id b' = id b ->
  find_booking i (save b' w) = Some b'.
Proof.
  intros Hb Hid. apply get_own_booking_In in Hb. destruct Hb as (_ & Hi & _).
  rewrite <- Hi, <- Hid. apply find_booking_save_same.
Qed.

(** Whenever the provider answers a status query with a timeout, a network
    error or an HTTP error status, [query_transaction] returns [None]. *)
Lemma query_transaction_network_failure (E : Env) (tid : string) (w : World) :
  (forall history,
      match reply E history (StkPushQuery tid) with
      | Http status_code _ => is_http_error status_code = true
      | _ => True
      end) ->
  snd (query_transaction E tid w) = None.
Proof.
  intros Hfail. unfold query_transaction.
  destruct (cache_get _ w); [|reflexivity].
  destruct (negb _); [reflexivity|].
  destruct (get_access_token E w) as [w1 [tok|]]; [|reflexivity].
  destruct (negb _); [reflexivity|].
  unfold http. specialize (Hfail (sent w1)).
  destruct (reply E (sent w1) (StkPushQuery tid)); try reflexivity.
  rewrite Hfail. reflexivity.
Qed.

(** C5: a booking polled while it is Pending, before its deadline, whose
    status query fails ([query_transaction] returns [None]: network error,
    timeout, rate limit, or any exception) gets the answer "still pending";
    the bookings and the audit log are as before. *)
Theorem failed_query_is_still_pending (E : Env) (u i : Z) (w : World)
    (b : Booking) :
  get_own_booking u i w = Some b ->
  status b = Pending ->
  payment_status b = PaymentPending ->
  is_payment_expired b w = false ->
  (forall tid, transaction_id b = Some tid ->
               snd (query_transaction E tid w) = None) ->
  snd (check_payment_status E u i w) = PollPending /\
  bookings (fst (check_payment_status E u i w)) = bookings w /\
  payment_logs (fst (check_payment_status E u i w)) = payment_logs w.
Proof.
  intros Hb Hs Hp Hx Hq. unfold check_payment_status.
  rewrite Hb, Hs, Hp, Hx. cbn.
  destruct (transaction_id b) as [tid|]; [|auto].
  destruct (negb (tid =? "")%string); [|auto].
  specialize (Hq tid eq_refl).
  pose proof (query_transaction_same_tables E tid w) as (Hk & Hl & _).
  destruct (query_transaction E tid w) as [w1 r]. cbn in *. subst r. auto.
Qed.

Lemma failed_query_is_still_pending_witness :
  get_own_booking 7 1 Scenario.awaiting_payment = Some Scenario.pending_booking /\
  status Scenario.pending_booking = Pending /\
  payment_status Scenario.pending_booking = PaymentPending /\
  is_payment_expired Scenario.pending_booking Scenario.awaiting_payment = false /\
  (forall tid, transaction_id Scenario.pending_booking = Some tid ->
               snd (query_transaction Scenario.timing_out tid
                      Scenario.awaiting_payment) = None) /\
  snd (check_payment_status Scenario.timing_out 7 1 Scenario.awaiting_payment)
  = PollPending /\
  bookings (fst (check_payment_status Scenario.timing_out 7 1
                   Scenario.awaiting_payment))
  = bookings Scenario.awaiting_payment /\
  payment_logs (fst (check_payment_status Scenario.timing_out 7 1
                       Scenario.awaiting_payment))
  = payment_logs Scenario.awaiting_payment.
Proof.
  assert (forall tid, transaction_id Scenario.pending_booking = Some tid ->
                      snd (query_transaction Scenario.timing_out tid
                             Scenario.awaiting_payment) = None) as Hq.
  { intros tid _. apply query_transaction_network_failure.
    intros history. exact I. }
  do 4 (split; [reflexivity|]). split; [exact Hq|].
  exact (failed_query_is_still_pending Scenario.timing_out 7 1
           Scenario.awaiting_payment Scenario.pending_booking
           eq_refl eq_refl eq_refl eq_refl Hq).
Defined.

(** After its deadline a booking is never the subject of a status query. *)
Lemma no_query_after_deadline (E : Env) (u i : Z) (w : World) (b : Booking) :
  get_own_booking u i w = Some b ->
  is_payment_expired b w = true ->
  sent (fst (check_payment_status E u i w)) = sent w.
Proof.
  intros Hb Hx. unfold check_payment_status, mark_expired. rewrite Hb, Hx.
  repeat (split_match; cbn [fst]); try reflexivity; apply save_sent.
Qed.

(** C10: for a booking that is Pending/Pending with a stored transaction
    id, polled before its deadline (the only time the query is issued), a
    status query that succeeds with result code '0' confirms the booking
    and records the receipt; codes '1' and '1032' leave the bookings and
    the audit log as they are; every other code makes it Cancelled/Failed
    with [cancelled_at] set. *)
Theorem poll_result_code_policy (E : Env) (u i : Z) (w w' : World)
    (b : Booking) (tid : string) (result : Dict) (cached : CacheVal) :
  get_own_booking u i w = Some b ->
  status b = Pending ->
  payment_status b = PaymentPending ->
  transaction_id b = Some tid ->
  tid <> "" ->
  is_payment_expired b w = false ->
  query_transaction E tid w = (w', Some (result, cached)) ->
  mem result "ResultCode" = true ->
  let code := py_str (get result "ResultCode" PNone) in
  let receipt := get result "MpesaReceiptNumber" (PStr "") in
  let after := fst (check_payment_status E u i w) in
  let answer := snd (check_payment_status E u i w) in
  (code = "0" ->
   answer = PollConfirmed receipt /\
   exists b', find_booking i after = Some b' /\
              status b' = Confirmed /\ payment_status b' = Paid /\
              mpesa_receipt_number b' = char_field receipt /\
              confirmed_at b' = Some (clock w')) /\
  (code = "1" \/ code = "1032" ->
   answer = PollPending /\
   bookings after = bookings w /\ payment_logs after = payment_logs w) /\
  (code <> "0" -> code <> "1" -> code <> "1032" ->
   answer = PollFailedByQuery /\
   exists b', find_booking i after = Some b' /\
              status b' = Cancelled /\ payment_status b' = Failed /\
              cancelled_at b' = Some (clock w')).
Proof.
  intros Hb Hs Hp Ht Hne Hx Hq Hm code receipt after answer.
  pose proof (query_transaction_same_tables E tid w) as (Hk & Hl & _).
  rewrite Hq in Hk, Hl. cbn [fst] in Hk, Hl.
  assert (get_own_booking u i w' = Some b) as Hb'
    by (unfold get_own_booking in *; rewrite Hk; assumption).
  apply String.eqb_neq in Hne.
  subst after answer. unfold check_payment_status, confirm_payment.
  rewrite Hb, Hs, Hp, Hx, Ht, Hne, Hq, Hm. cbn.
  fold code. fold receipt.
  split; [|split].
  - intros Hc. rewrite Hc. cbn. split; [reflexivity|].
    eexists. split.
    { unfold find_booking. cbn. eapply find_booking_of_own; [exact Hb'|].
      reflexivity. }
    cbn. auto.
  - intros [Hc|Hc]; rewrite Hc; cbn; auto.
  - intros H0 H1 H2.
    apply String.eqb_neq in H0, H1, H2. rewrite H0, H1, H2. cbn.
    split; [reflexivity|].
    eexists. split.
    { unfold find_booking. cbn. eapply find_booking_of_own; [exact Hb'|].
      reflexivity. }
    cbn. auto.
Qed.

Lemma poll_result_code_policy_witness :
  get_own_booking 7 1 Scenario.awaiting_payment = Some Scenario.pending_booking /\
  status Scenario.pending_booking = Pending /\
  payment_status Scenario.pending_booking = PaymentPending /\
  transaction_id Scenario.pending_booking = Some "ws_CO_X" /\
  "ws_CO_X" <> "" /\
  is_payment_expired Scenario.pending_booking Scenario.awaiting_payment = false /\
  query_transaction (Scenario.answering "1037") "ws_CO_X" Scenario.awaiting_payment
  = (fst (query_transaction (Scenario.answering "1037") "ws_CO_X"
            Scenario.awaiting_payment),
     Some (Scenario.rejected_result, Scenario.push_context)) /\
  mem Scenario.rejected_result "ResultCode" = true /\
  snd (check_payment_status (Scenario.answering "1037") 7 1
         Scenario.awaiting_payment) = PollFailedByQuery /\
  exists b',
    find_booking 1 (fst (check_payment_status (Scenario.answering "1037") 7 1
                           Scenario.awaiting_payment)) = Some b' /\
    status b' = Cancelled /\ payment_status b' = Failed /\
    cancelled_at b'
    = Some (clock (fst (query_transaction (Scenario.answering "1037") "ws_CO_X"
                          Scenario.awaiting_payment))).
Proof.
  assert ("ws_CO_X" <> "") as Hne by discriminate.
  assert (query_transaction (Scenario.answering "1037") "ws_CO_X"
            Scenario.awaiting_payment
          = (fst (query_transaction (Scenario.answering "1037") "ws_CO_X"
                    Scenario.awaiting_payment),
             Some (Scenario.rejected_result, Scenario.push_context))) as Hq
    by reflexivity.
  do 4 (split; [reflexivity|]). split; [exact Hne|].
  split; [reflexivity|]. split; [exact Hq|]. split; [reflexivity|].
  apply (poll_result_code_policy (Scenario.answering "1037") 7 1
           Scenario.awaiting_payment _ Scenario.pending_booking "ws_CO_X"
           Scenario.rejected_result Scenario.push_context
           eq_refl eq_refl eq_refl eq_refl Hne eq_refl Hq eq_refl);
    discriminate.
Defined.

(** ** C2: what happens after the deadline *)

(** C2, as stated, fails on the callback path: a callback with result code
    0 confirms a booking whose deadline has passed, and it does so even
    after a poll has marked that booking Expired. *)
Lemma callback_confirms_after_deadline :
  is_payment_expired Scenario.pending_booking Scenario.overdue = true /\
  state_of 1 Scenario.overdue = Some (Pending, PaymentPending) /\
  state_of 1 (process_callback Scenario.accepting Scenario.success_callback
                Scenario.overdue) = Some (Confirmed, Paid) /\
  state_of 1 (run Scenario.accepting [Poll 7 1] Scenario.overdue)
  = Some (Expired, Failed) /\
  state_of 1 (run Scenario.accepting
                [Poll 7 1; Callback Scenario.success_callback] Scenario.overdue)
  = Some (Confirmed, Paid).
Proof. repeat split; vm_compute; reflexivity. Qed.

(** Past the deadline, a booking that is not Pending, or whose payment has
    Failed, is left as it is by the poll. *)
Lemma expired_poll_unchanged (E : Env) (u i : Z) (w : World) (b : Booking) :
  get_own_booking u i w = Some b ->
  is_payment_expired b w = true ->
  status b <> Pending \/ payment_status b = Failed ->
  fst (check_payment_status E u i w) = w.
Proof.
  intros Hb Hx Hc. unfold check_payment_status. rewrite Hb, Hx.
  destruct (status b), (payment_status b); cbn; try reflexivity;
    exfalso; destruct Hc; congruence.
Qed.

(** Past the deadline, a Pending booking whose payment has not Failed is
    marked Expired by the poll. *)
Lemma expired_poll_marks (E : Env) (u i : Z) (w : World) (b : Booking) :
  get_own_booking u i w = Some b ->
  is_payment_expired b w = true ->
  status b = Pending -> payment_status b <> Failed ->
  fst (check_payment_status E u i w) = fst (mark_expired b w).
Proof.
  intros Hb Hx Hs Hp. unfold check_payment_status. rewrite Hb, Hx, Hs.
  destruct (payment_status b); cbn; try reflexivity; congruence.
Qed.

(** C2, amended: for every booking whose deadline has passed, the poll
    handler issues no status query and neither confirms nor fails the
    booking: it leaves the world as it is or, when the status is Pending,
    marks the booking Expired; polling again, at any later time and
    whatever the provider would answer, changes nothing. *)
Theorem poll_after_deadline (E : Env) (u i : Z) (w : World) (b : Booking) :
  get_own_booking u i w = Some b ->
  is_payment_expired b w = true ->
  sent (fst (check_payment_status E u i w)) = sent w /\
  payment_logs (fst (check_payment_status E u i w)) = payment_logs w /\
  (fst (check_payment_status E u i w) = w \/
   status b = Pending /\
   fst (check_payment_status E u i w) = fst (mark_expired b w)) /\
  (forall (E' : Env) (seconds : nat),
      fst (check_payment_status E' u i
             (tick seconds (fst (check_payment_status E u i w))))
      = tick seconds (fst (check_payment_status E u i w))).
Proof.
  intros Hb Hx.
  split; [apply no_query_after_deadline with (b := b); assumption|].
  assert (forall b' w' seconds,
             expires_at b' = expires_at b -> clock w' = clock w ->
             is_payment_expired b' (tick seconds w') = true) as Hlater.
  { intros b' w' seconds He Hc. unfold is_payment_expired in *. cbn.
    rewrite He, Hc. destruct (expires_at b); [|discriminate].
    apply Z.gtb_lt in Hx. apply Z.gtb_lt. lia. }
  assert (status b <> Pending \/ payment_status b = Failed \/
          (status b = Pending /\ payment_status b <> Failed)) as [Hc|[Hc|[Hs Hp]]]
    by (destruct (status b), (payment_status b);
        first [ left; discriminate | right; left; reflexivity
              | right; right; split; [reflexivity|discriminate] ]).
  1,2: rewrite (expired_poll_unchanged E u i w b Hb Hx) by tauto;
       (split; [reflexivity|]); (split; [left; reflexivity|]);
       intros E' seconds;
       apply expired_poll_unchanged with (b := b);
       [exact Hb | apply Hlater; reflexivity | tauto].
  rewrite (expired_poll_marks E u i w b Hb Hx Hs Hp).
  unfold mark_expired. cbn [fst].
  split; [apply save_payment_logs|].
  split; [right; split; [assumption|reflexivity]|].
  intros E' seconds.
  match goal with
  | |- context [save ?b' w] =>
      apply expired_poll_unchanged with (b := b');
      [ change (get_own_booking u i (tick seconds (save b' w)))
          with (get_own_booking u i (save b' w));
        apply get_own_booking_save with (b := b);
        [assumption|reflexivity|reflexivity]
      | apply Hlater; [reflexivity|apply save_clock]
      | left; discriminate ]
  end.
Qed.

Lemma poll_after_deadline_witness :
  get_own_booking 7 1 Scenario.overdue = Some Scenario.pending_booking /\
  is_payment_expired Scenario.pending_booking Scenario.overdue = true /\
  sent (fst (check_payment_status Scenario.accepting 7 1 Scenario.overdue))
  = sent Scenario.overdue /\
  payment_logs (fst (check_payment_status Scenario.accepting 7 1 Scenario.overdue))
  = payment_logs Scenario.overdue /\
  (fst (check_payment_status Scenario.accepting 7 1 Scenario.overdue)
   = Scenario.overdue \/
   status Scenario.pending_booking = Pending /\
   fst (check_payment_status Scenario.accepting 7 1 Scenario.overdue)
   = fst (mark_expired Scenario.pending_booking Scenario.overdue)) /\
  (forall (E' : Env) (seconds : nat),
      fst (check_payment_status E' 7 1
             (tick seconds
                (fst (check_payment_status Scenario.accepting 7 1
                        Scenario.overdue))))
      = tick seconds
          (fst (check_payment_status Scenario.accepting 7 1 Scenario.overdue))).
Proof.
  do 2 (split; [reflexivity|]).
  exact (poll_after_deadline Scenario.accepting 7 1 Scenario.overdue
           Scenario.pending_booking eq_refl eq_refl).
Defined.

(** ** Payment processing: C6, C7 and C8 *)

(** C6: processing the payment of a Free Trial booking makes the instance
    and its row Confirmed and Paid with amount 0 and [confirmed_at] now,
    and sends nothing to the provider: the requests sent and the cache
    (token and push context) are as before. *)
Theorem free_trial_bypass (E : Env) (booking : Booking) (phone : string)
    (w : World) :
  booking_type booking = FreeTrial ->
  let after := fst (fst (process_class_payment E booking phone w)) in
  let instance := snd (fst (process_class_payment E booking phone w)) in
  (status instance = Confirmed /\ payment_status instance = Paid /\
   amount_paid instance = 0 /\ confirmed_at instance = Some (clock w)) /\
  (exists row, find_booking (id booking) after = Some row /\
               status row = Confirmed /\ payment_status row = Paid /\
               amount_paid row = 0 /\ confirmed_at row = Some (clock w)) /\
  sent after = sent w /\ cache after = cache w.
Proof.
  intros Ht. cbv zeta. unfold process_class_payment. rewrite Ht.
  cbn [BookingType_eqb].
  set (c := set_confirmed_at (Some (clock w))
              (set_payment_date (Some (clock w))
                 (set_amount_paid 0
                    (set_status Confirmed (set_payment_status Paid booking))))).
  set (w0 := PaymentLog_create c None "free_trial_confirmed"
               (Some "FREE_TRIAL") (save c w)).
  change (id c) with (id booking).
  pose proof (send_booking_confirmation_email_sync_flags E (id booking) w0)
    as Hm.
  pose proof (flags_only_find (id booking) (id booking)
                (set_confirmation_email_sent true) w0 _
                (fun b => eq_refl) Hm) as Hf.
  assert (find_booking (id booking) w0 = Some c) as Hrow
    by (apply (find_booking_save_same c w)).
  destruct (send_booking_confirmation_email_sync E (id booking) w0) as [w1 o].
  cbn [fst snd] in *.
  destruct Hm as (_ & Hs & _ & Hc & _).
  split; [cbn; auto|]. split.
  - destruct Hf as [Hf|(b0 & Hf0 & Hf)]; rewrite Hf.
    + rewrite Hrow. exists c. cbn. auto.
    + rewrite Hrow in Hf0. injection Hf0 as <-.
      eexists. split; [reflexivity|]. cbn. auto.
  - rewrite Hs, Hc. subst w0. cbn. rewrite save_sent, save_cache. auto.
Qed.

Lemma free_trial_bypass_witness :
  booking_type Scenario.new_trial = FreeTrial /\
  (status (snd (fst (process_class_payment Scenario.accepting Scenario.new_trial
                       "254712345678" (Scenario.created Scenario.new_trial))))
   = Confirmed /\
   payment_status
     (snd (fst (process_class_payment Scenario.accepting Scenario.new_trial
                  "254712345678" (Scenario.created Scenario.new_trial))))
   = Paid /\
   amount_paid
     (snd (fst (process_class_payment Scenario.accepting Scenario.new_trial
                  "254712345678" (Scenario.created Scenario.new_trial))))
   = 0 /\
   confirmed_at
     (snd (fst (process_class_payment Scenario.accepting Scenario.new_trial
                  "254712345678" (Scenario.created Scenario.new_trial))))
   = Some (clock (Scenario.created Scenario.new_trial))) /\
  (exists row,
      find_booking (id Scenario.new_trial)
        (fst (fst (process_class_payment Scenario.accepting Scenario.new_trial
                     "254712345678" (Scenario.created Scenario.new_trial))))
      = Some row /\
      status row = Confirmed /\ payment_status row = Paid /\
      amount_paid row = 0 /\
      confirmed_at row = Some (clock (Scenario.created Scenario.new_trial))) /\
  sent (fst (fst (process_class_payment Scenario.accepting Scenario.new_trial
                    "254712345678" (Scenario.created Scenario.new_trial))))
  = sent (Scenario.created Scenario.new_trial) /\
  cache (fst (fst (process_class_payment Scenario.accepting Scenario.new_trial
                     "254712345678" (Scenario.created Scenario.new_trial))))
  = cache (Scenario.created Scenario.new_trial).
Proof.
  split; [reflexivity|].
  exact (free_trial_bypass Scenario.accepting Scenario.new_trial "254712345678"
           (Scenario.created Scenario.new_trial) eq_refl).
Defined.

(** *** Phone numbers *)

Lemma digits_only_length (s : string) :
  (String.length (digits_only s) <= String.length s)%nat.
Proof.
  induction s as [|c s IH]; cbn; [lia|].
  destruct (isdigit c); cbn; lia.
Qed.

Lemma digits_only_idem (s : string) :
  digits_only (digits_only s) = digits_only s.
Proof.
  induction s as [|c s IH]; cbn; [reflexivity|].
  destruct (isdigit c) eqn:Hc; cbn; [rewrite Hc, IH; reflexivity|exact IH].
Qed.

Lemma digits_only_tail (s : string) :
  digits_only s = s -> digits_only (tail s) = tail s.
Proof.
  destruct s as [|c s]; cbn; [reflexivity|].
  destruct (isdigit c).
  - intros H. injection H as H. exact H.
  - intros H. pose proof (digits_only_length s) as Hl.
    rewrite H in Hl. cbn in Hl. lia.
Qed.

Lemma country_code_prefixed (x : string) :
  String.length x = 9%nat -> digits_only x = x ->
  String.length ("254" ++ x) = 12%nat /\
  startswith ("254" ++ x) "254" = true /\
  digits_only ("254" ++ x) = ("254" ++ x)%string.
Proof.
  intros Hl Hd. split; [|split].
  - change (S (S (S (String.length x))) = 12%nat). rewrite Hl. reflexivity.
  - unfold startswith. destruct x; reflexivity.
  - change (String "2" (String "5" (String "4" (digits_only x)))
            = String "2" (String "5" (String "4" x))).
    rewrite Hd. reflexivity.
Qed.

Lemma tail_length (s : string) (n : nat) :
  String.length s = S n -> String.length (tail s) = n.
Proof. destruct s; cbn; [discriminate|]. intros H. injection H as H. exact H. Qed.

(** A validated number is in international format: twelve digits that
    start with the country code 254. *)
Lemma validate_phone_number_format (phone_number phone : string) :
  validate_phone_number phone_number = Some phone ->
  String.length phone = 12%nat /\ startswith phone "254" = true /\
  digits_only phone = phone.
Proof.
  unfold validate_phone_number.
  pose proof (digits_only_idem phone_number) as Hd.
  set (d := digits_only phone_number) in *.
  destruct (Nat.eqb (String.length d) 12 && startswith d "254") eqn:H1.
  { intros H. injection H as <-. apply andb_true_iff in H1.
    destruct H1 as [Hl Hp]. apply Nat.eqb_eq in Hl. auto. }
  clear H1.
  destruct (Nat.eqb (String.length d) 10 && startswith d "0") eqn:H2.
  { intros H. injection H as <-. apply andb_true_iff in H2.
    destruct H2 as [Hl _]. apply Nat.eqb_eq in Hl.
    apply country_code_prefixed.
    - apply tail_length. exact Hl.
    - apply digits_only_tail. exact Hd. }
  clear H2.
  destruct (Nat.eqb (String.length d) 9) eqn:H3; [|discriminate].
  intros H. injection H as <-. apply Nat.eqb_eq in H3.
  apply country_code_prefixed; assumption.
Qed.

(** *** Validation before the network *)

Lemma stk_push_invalid_phone (E : Env) (phone_number : string) (amount : Z)
    (ref desc : string) (booking_id : Z) (w : World) :
  validate_phone_number phone_number = None ->
  stk_push E phone_number amount ref desc booking_id w
  = (w, Some (StkFailure (PStr "INVALID_PHONE")
                "Invalid phone number. Use format: 254712345678")).
Proof. intros H. unfold stk_push. rewrite H. reflexivity. Qed.

Lemma stk_push_invalid_amount (E : Env) (phone_number phone : string)
    (amount : Z) (ref desc : string) (booking_id : Z) (w : World) :
  validate_phone_number phone_number = Some phone ->
  int_of_amount amount < 1 ->
  stk_push E phone_number amount ref desc booking_id w
  = (w, Some (StkFailure (PStr "INVALID_AMOUNT") "Amount must be at least KES 1")).
Proof.
  intros H Ha. unfold stk_push. rewrite H.
  apply Z.ltb_lt in Ha. rewrite Ha. reflexivity.
Qed.

Lemma BookingType_eqb_neq (t : BookingType) :
  t <> FreeTrial -> BookingType_eqb t FreeTrial = false.
Proof. destruct t; intros H; [contradiction H|..]; reflexivity. Qed.

(** A paid booking whose phone number or amount does not pass the local
    checks fails without anything being sent. *)
Lemma process_class_payment_invalid (E : Env) (booking : Booking)
    (phone_number : string) (w : World) :
  booking_type booking <> FreeTrial ->
  validate_phone_number phone_number = None \/
  int_of_amount (price (karate_class booking)) < 1 ->
  sent (fst (fst (process_class_payment E booking phone_number w))) = sent w /\
  cache (fst (fst (process_class_payment E booking phone_number w))) = cache w /\
  exists message,
    snd (process_class_payment E booking phone_number w)
    = Returned (PayFailure (PStr "INVALID_PHONE") message) \/
    snd (process_class_payment E booking phone_number w)
    = Returned (PayFailure (PStr "INVALID_AMOUNT") message).
Proof.
  intros Ht Hbad. unfold process_class_payment.
  rewrite (BookingType_eqb_neq _ Ht).
  destruct (price (karate_class booking) <=? 0); cbn [fst snd].
  { repeat split. eexists. right. reflexivity. }
  destruct (validate_phone_number phone_number) as [phone|] eqn:Hv.
  - destruct Hbad as [Hbad|Hbad]; [discriminate|].
    erewrite stk_push_invalid_amount by eassumption.
    cbn. rewrite save_sent, save_cache. cbn. rewrite save_sent, save_cache.
    repeat split. eexists. right. reflexivity.
  - rewrite stk_push_invalid_phone by assumption.
    cbn. rewrite save_sent, save_cache. cbn. rewrite save_sent, save_cache.
    repeat split. eexists. left. reflexivity.
Qed.

(** When the push was initiated, the instance and its row are
    Pending/Pending and expire five minutes after the moment of the write. *)
Lemma process_class_payment_success (E : Env) (booking b' : Booking)
    (phone_number : string) (w w' : World) (c : PyVal) (m : string) :
  process_class_payment E booking phone_number w
  = (w', b', Returned (PaySuccess c m)) ->
  status b' = Pending /\ payment_status b' = PaymentPending /\
  transaction_id b' = char_field c /\
  expires_at b' = Some (clock w' + 5 * 60) /\
  find_booking (id booking) w' = Some b'.
Proof.
  unfold process_class_payment.
  destruct (BookingType_eqb _ _).
  { destruct (send_booking_confirmation_email_sync _ _ _). discriminate. }
  destruct (_ <=? 0); [discriminate|].
  destruct (stk_push _ _ _ _ _ _ _) as [w1 [[c1 m1 msg ph|code msg]|]];
    try discriminate.
  intros H. injection H as <- <- <- <-.
  cbn. rewrite save_clock. repeat split.
  unfold find_booking. cbn.
  match goal with
  | |- context [save ?b ?w0] => apply (find_booking_save_same b w0)
  end.
Qed.

(** C7: push initiation validates the phone number, normalizing it to the
    international format ("0712345678" becomes "254712345678"), and the
    amount (at least one whole shilling) before any network interaction; on
    a validation failure it returns INVALID_PHONE or INVALID_AMOUNT with the
    world untouched, so nothing was sent to the provider; on a successful
    initiation the booking's payment status is Pending and [expires_at] is
    the time of the write plus five minutes. *)
Theorem local_validation_precedes_network :
  validate_phone_number "0712345678" = Some "254712345678" /\
  (forall phone_number phone,
      validate_phone_number phone_number = Some phone ->
      String.length phone = 12%nat /\ startswith phone "254" = true /\
      digits_only phone = phone) /\
  (forall E phone_number amount ref desc booking_id w,
      validate_phone_number phone_number = None ->
      stk_push E phone_number amount ref desc booking_id w
      = (w, Some (StkFailure (PStr "INVALID_PHONE")
                    "Invalid phone number. Use format: 254712345678"))) /\
  (forall E phone_number phone amount ref desc booking_id w,
      validate_phone_number phone_number = Some phone ->
      int_of_amount amount < 1 ->
      stk_push E phone_number amount ref desc booking_id w
      = (w, Some (StkFailure (PStr "INVALID_AMOUNT")
                    "Amount must be at least KES 1"))) /\
  (forall E booking phone_number w,
      booking_type booking <> FreeTrial ->
      validate_phone_number phone_number = None \/
      int_of_amount (price (karate_class booking)) < 1 ->
      sent (fst (fst (process_class_payment E booking phone_number w))) = sent w /\
      cache (fst (fst (process_class_payment E booking phone_number w))) = cache w /\
      exists message,
        snd (process_class_payment E booking phone_number w)
        = Returned (PayFailure (PStr "INVALID_PHONE") message) \/
        snd (process_class_payment E booking phone_number w)
        = Returned (PayFailure (PStr "INVALID_AMOUNT") message)) /\
  (forall E booking b' phone_number w w' c m,
      process_class_payment E booking phone_number w
      = (w', b', Returned (PaySuccess c m)) ->
      status b' = Pending /\ payment_status b' = PaymentPending /\
      transaction_id b' = char_field c /\
      expires_at b' = Some (clock w' + 5 * 60) /\
      find_booking (id booking) w' = Some b').
Proof.
  split; [reflexivity|].
  split; [exact validate_phone_number_format|].
  split; [exact stk_push_invalid_phone|].
  split; [exact stk_push_invalid_amount|].
  split; [exact process_class_payment_invalid|].
  exact process_class_payment_success.
Qed.

Lemma local_validation_precedes_network_witness :
  (validate_phone_number "12345" = None /\
   stk_push Scenario.accepting "12345" 150000 "BK20240101DEADBEEF"
     "Shotokan Beginn" 1 (Scenario.created Scenario.new_monthly)
   = (Scenario.created Scenario.new_monthly,
      Some (StkFailure (PStr "INVALID_PHONE")
              "Invalid phone number. Use format: 254712345678"))) /\
  (process_class_payment Scenario.accepting Scenario.new_monthly "0712345678"
     (Scenario.created Scenario.new_monthly)
   = (Scenario.awaiting_payment, Scenario.pending_booking,
      Returned (PaySuccess (PStr "ws_CO_X")
                  "Payment request sent. Check your phone.")) /\
   status Scenario.pending_booking = Pending /\
   payment_status Scenario.pending_booking = PaymentPending /\
   transaction_id Scenario.pending_booking = char_field (PStr "ws_CO_X") /\
   expires_at Scenario.pending_booking
   = Some (clock Scenario.awaiting_payment + 5 * 60) /\
   find_booking (id Scenario.new_monthly) Scenario.awaiting_payment
   = Some Scenario.pending_booking).
Proof.
  destruct local_validation_precedes_network
    as (_ & _ & Hphone & _ & _ & Hsuccess).
  split.
  - split; [reflexivity|]. apply Hphone. reflexivity.
  - split; [reflexivity|].
    apply (Hsuccess Scenario.accepting Scenario.new_monthly
             Scenario.pending_booking "0712345678"
             (Scenario.created Scenario.new_monthly) Scenario.awaiting_payment
             (PStr "ws_CO_X") "Payment request sent. Check your phone.").
    reflexivity.
Defined.

(** *** Retries *)

#[local] Arguments pushes : simpl never.

Lemma pushes_app (l1 l2 : list Request) :
  pushes (l1 ++ l2) = (pushes l1 + pushes l2)%nat.
Proof. unfold pushes. rewrite filter_app, length_app. reflexivity. Qed.

(** With a provider that issues tokens, [get_access_token] returns a usable
    token and sends no push. *)
Lemma get_access_token_issued (E : Env) (w : World) :
  cache_truthy (cache_get "mpesa_access_token" w) = true \/ issues_token E ->
  exists w1 tok,
    get_access_token E w = (w1, Returned tok) /\ cache_truthy tok = true /\
    same_tables w w1 /\ pushes (sent w1) = pushes (sent w).
Proof.
  intros Hi. unfold get_access_token.
  destruct (cache_truthy (cache_get "mpesa_access_token" w)) eqn:Hc.
  { exists w, (cache_get "mpesa_access_token" w).
    repeat split; assumption. }
  destruct Hi as [Hi|Hi]; [discriminate|].
  unfold max_retries. cbn [token_attempts]. unfold http.
  specialize (Hi (sent w)).
  destruct (reply E (sent w) OAuthGenerate) as [| |sc body]; try contradiction.
  destruct Hi as (He & Hm & Ht). rewrite He, Hm.
  eexists. eexists. split; [reflexivity|]. split; [exact Ht|].
  split; [repeat split|].
  cbn. rewrite pushes_app. unfold pushes at 2. cbn. lia.
Qed.

(** With a provider that lets every push time out, the retry loop makes
    its three attempts and gives up with TIMEOUT. *)
Lemma stk_attempts_time_out (E : Env) (phone : string) (amount_int : Z)
    (ref desc : string) (booking_id : Z) (w : World) :
  push_times_out E ->
  exists w',
    stk_attempts E max_retries 0 phone amount_int ref desc booking_id w
    = (w', Returned (Some (StkFailure (PStr "TIMEOUT")
                             "Request timeout. Please try again."))) /\
    same_tables w w' /\
    pushes (sent w') = (pushes (sent w) + 3)%nat.
Proof.
  intros Ht. unfold max_retries. cbn [stk_attempts]. unfold http, sleep.
  cbn. rewrite !Ht. cbn.
  eexists. split; [reflexivity|]. split; [repeat split|].
  cbn. rewrite !pushes_app. unfold pushes at 2 3 4. cbn. lia.
Qed.

Lemma whole_shilling_is_positive (amount : Z) :
  1 <= int_of_amount amount -> (amount <=? 0) = false.
Proof.
  unfold int_of_amount. intros H. apply Z.leb_gt.
  destruct (Z.lt_ge_cases 0 amount) as [|Hle]; [assumption|].
  pose proof (Z.quot_le_mono amount 0 100 ltac:(lia) Hle) as Hq.
  rewrite Z.quot_0_l in Hq by lia. lia.
Qed.

(** C8, as stated, fails: when every push attempt of a new booking times
    out, the booking ends Cancelled/Failed after three requests, and its
    audit trail has three entries, two of them written by the payment
    attempt; the retries themselves are not audited, so there are not
    four. *)
Lemma retries_are_not_audited :
  state_of 1 Scenario.push_timed_out = Some (Cancelled, Failed) /\
  pushes (sent Scenario.push_timed_out) = 3%nat /\
  map log_action (payment_logs Scenario.push_timed_out)
  = ["booking_created"; "payment_initiated"; "stk_push_failed"] /\
  map log_status_code (payment_logs Scenario.push_timed_out)
  = [Some "CREATED"; Some "INITIATED"; Some "TIMEOUT"] /\
  List.length (logs_of 1 Scenario.push_timed_out) <> 4%nat.
Proof. repeat split; vm_compute; discriminate. Qed.

(** C8, amended: when a token is at hand (cached, or issued by the
    provider) and each of the three push attempts times out,
    [process_class_payment] fails with
    TIMEOUT after exactly three push requests, the booking ends with
    status Cancelled and payment status Failed, and exactly two audit
    entries are written for the attempt: [payment_initiated] and
    [stk_push_failed] with status code TIMEOUT. *)
Theorem exhausted_push_retries (E : Env) (booking : Booking)
    (phone_number phone : string) (w : World) :
  cache_truthy (cache_get "mpesa_access_token" w) = true \/ issues_token E ->
  push_times_out E ->
  booking_type booking <> FreeTrial ->
  validate_phone_number phone_number = Some phone ->
  1 <= int_of_amount (price (karate_class booking)) ->
  let after := fst (fst (process_class_payment E booking phone_number w)) in
  let instance := snd (fst (process_class_payment E booking phone_number w)) in
  snd (process_class_payment E booking phone_number w)
  = Returned (PayFailure (PStr "TIMEOUT") "Request timeout. Please try again.") /\
  pushes (sent after) = (pushes (sent w) + 3)%nat /\
  status instance = Cancelled /\ payment_status instance = Failed /\
  find_booking (id booking) after = Some instance /\
  payment_logs after
  = payment_logs w ++
    [entry (id booking) None "payment_initiated" (Some "INITIATED") (clock w);
     entry (id booking) None "stk_push_failed" (Some "TIMEOUT") (clock after)].
Proof.
  intros Hi Ht Hty Hv Ha. cbv zeta.
  unfold process_class_payment.
  rewrite (BookingType_eqb_neq _ Hty), (whole_shilling_is_positive _ Ha).
  set (b0 := set_last_payment_attempt (Some (clock w))
               (set_payment_attempts (S (payment_attempts booking)) booking)).
  set (w0 := PaymentLog_create b0 None "payment_initiated" (Some "INITIATED")
               (save b0 w)).
  unfold stk_push. rewrite Hv.
  assert ((int_of_amount (price (karate_class booking)) <? 1) = false) as ->
    by (apply Z.ltb_ge; assumption).
  assert (cache_truthy (cache_get "mpesa_access_token" w0) = true
          \/ issues_token E) as Hi0.
  { destruct Hi as [Hi|Hi]; [left|right; assumption].
    subst w0. unfold cache_get in *. cbn. rewrite save_cache, save_clock.
    exact Hi. }
  destruct (get_access_token_issued E w0 Hi0)
    as (w1 & tok & Hg & Htok & Hs1 & Hp1).
  rewrite Hg, Htok. cbn [negb].
  match goal with
  | |- context [stk_attempts E max_retries 0 ?p ?a ?r ?d ?i w1] =>
      destruct (stk_attempts_time_out E p a r d i w1 Ht)
        as (w2 & Hk & Hs2 & Hp2)
  end.
  rewrite Hk. cbn [fst snd].
  destruct Hs1 as (Hb1 & Hl1 & _). destruct Hs2 as (Hb2 & Hl2 & _).
  split; [reflexivity|].
  split.
  { cbn. rewrite save_sent, Hp2, Hp1. subst w0. cbn. rewrite save_sent.
    reflexivity. }
  split; [reflexivity|]. split; [reflexivity|].
  split.
  { unfold find_booking. cbn.
    match goal with
    | |- context [save ?b ?w0] => apply (find_booking_save_same b w0)
    end. }
  cbn. rewrite !save_payment_logs, Hl2, Hl1. subst w0. cbn.
  rewrite save_payment_logs, save_clock, <- app_assoc. reflexivity.
Qed.

Lemma exhausted_push_retries_witness :
  (cache_truthy (cache_get "mpesa_access_token"
                   (Scenario.created Scenario.new_monthly)) = true
   \/ issues_token Scenario.timing_out) /\
  push_times_out Scenario.timing_out /\
  booking_type Scenario.new_monthly <> FreeTrial /\
  validate_phone_number "0712345678" = Some "254712345678" /\
  1 <= int_of_amount (price (karate_class Scenario.new_monthly)) /\
  snd (process_class_payment Scenario.timing_out Scenario.new_monthly
         "0712345678" (Scenario.created Scenario.new_monthly))
  = Returned (PayFailure (PStr "TIMEOUT") "Request timeout. Please try again.") /\
  pushes (sent (fst (fst (process_class_payment Scenario.timing_out
                            Scenario.new_monthly "0712345678"
                            (Scenario.created Scenario.new_monthly)))))
  = (pushes (sent (Scenario.created Scenario.new_monthly)) + 3)%nat /\
  status (snd (fst (process_class_payment Scenario.timing_out
                      Scenario.new_monthly "0712345678"
                      (Scenario.created Scenario.new_monthly)))) = Cancelled /\
  payment_status (snd (fst (process_class_payment Scenario.timing_out
                              Scenario.new_monthly "0712345678"
                              (Scenario.created Scenario.new_monthly))))
  = Failed /\
  find_booking (id Scenario.new_monthly)
    (fst (fst (process_class_payment Scenario.timing_out Scenario.new_monthly
                 "0712345678" (Scenario.created Scenario.new_monthly))))
  = Some (snd (fst (process_class_payment Scenario.timing_out
                      Scenario.new_monthly "0712345678"
                      (Scenario.created Scenario.new_monthly)))) /\
  payment_logs
    (fst (fst (process_class_payment Scenario.timing_out Scenario.new_monthly
                 "0712345678" (Scenario.created Scenario.new_monthly))))
  = payment_logs (Scenario.created Scenario.new_monthly) ++
    [entry (id Scenario.new_monthly) None "payment_initiated" (Some "INITIATED")
       (clock (Scenario.created Scenario.new_monthly));
     entry (id Scenario.new_monthly) None "stk_push_failed" (Some "TIMEOUT")
       (clock (fst (fst (process_class_payment Scenario.timing_out
                           Scenario.new_monthly "0712345678"
                           (Scenario.created Scenario.new_monthly)))))].
Proof.
  assert (cache_truthy (cache_get "mpesa_access_token"
                          (Scenario.created Scenario.new_monthly)) = true
          \/ issues_token Scenario.timing_out) as Hi
    by (right; intros history; cbn; auto).
  assert (push_times_out Scenario.timing_out) as Ht
    by (intros history p a r d; reflexivity).
  assert (booking_type Scenario.new_monthly <> FreeTrial) as Hty
    by discriminate.
  assert (1 <= int_of_amount (price (karate_class Scenario.new_monthly))) as Ha
    by (vm_compute; discriminate).
  split; [exact Hi|]. split; [exact Ht|]. split; [exact Hty|].
  split; [reflexivity|]. split; [exact Ha|].
  exact (exhausted_push_retries Scenario.timing_out Scenario.new_monthly
           "0712345678" "254712345678" (Scenario.created Scenario.new_monthly)
           Hi Ht Hty eq_refl Ha).
Defined.

(** ** C9: which transitions are audited *)

Section Footprints.
Variable E : Env.

Lemma quiet_of_tables (w w' : World) :
  bookings w' = bookings w -> payment_logs w' = payment_logs w -> quiet w w'.
Proof.
  intros Hb Hl i. unfold state_of, find_booking, logs_of.
  rewrite Hb, Hl. auto.
Qed.

Lemma quiet_refl (w : World) : quiet w w.
Proof. apply quiet_of_tables; reflexivity. Qed.

Lemma quiet_of_same_tables (w w' : World) : same_tables w w' -> quiet w w'.
Proof. intros (Hb & Hl & _). apply quiet_of_tables; assumption. Qed.

Lemma quiet_of_flags (i : Z) (set_flag : Booking -> Booking) (w w' : World) :
  (forall b, id (set_flag b) = id b) ->
  (forall b, status (set_flag b) = status b) ->
  (forall b, payment_status (set_flag b) = payment_status b) ->
  flags_only i set_flag w w' -> quiet w w'.
Proof.
  intros Hid Hs Hp Hf j. split.
  - unfold state_of.
    destruct (flags_only_find i j set_flag w w' Hid Hf) as [->|(b & -> & ->)];
      [reflexivity|].
    rewrite Hs, Hp. reflexivity.
  - destruct Hf as (Hl & _). unfold logs_of. rewrite Hl. reflexivity.
Qed.

Lemma footprint_of_quiet (j : Z) (w w' : World) :
  quiet w w' -> footprint j 0 w w'.
Proof.
  intros Hq. split.
  - intros i _. apply Hq.
  - destruct (Hq j) as [_ ->]. lia.
Qed.

Lemma footprint_trans (j : Z) (n m : nat) (w1 w2 w3 : World) :
  footprint j n w1 w2 -> footprint j m w2 w3 -> footprint j (n + m) w1 w3.
Proof.
  intros [Hs1 Hl1] [Hs2 Hl2]. split.
  - intros i Hi. rewrite Hs2, Hs1 by assumption. reflexivity.
  - rewrite Hl2, Hl1. lia.
Qed.

Lemma footprint_save (b : Booking) (w : World) :
  footprint (id b) 0 w (save b w).
Proof.
  split.
  - intros i Hi. unfold state_of. rewrite find_booking_save_other by assumption.
    reflexivity.
  - unfold logs_of. rewrite save_payment_logs. lia.
Qed.

Lemma footprint_log (b : Booking) (tid : option string) (action : string)
    (code : option string) (w : World) :
  footprint (id b) 1 w (PaymentLog_create b tid action code w).
Proof.
  split.
  - intros i _. reflexivity.
  - unfold logs_of, PaymentLog_create. cbn.
    rewrite filter_app, length_app. cbn. rewrite Z.eqb_refl. reflexivity.
Qed.

Lemma state_of_save_same (b : Booking) (w : World) :
  state_of (id b) (save b w) = Some (status b, payment_status b).
Proof. unfold state_of. rewrite find_booking_save_same. reflexivity. Qed.

Lemma footprint_step (j : Z) (n m k : nat) (w1 w2 w3 : World) :
  footprint j n w1 w2 -> footprint j m w2 w3 -> (n + m = k)%nat ->
  footprint j k w1 w3.
Proof. intros H1 H2 <-. eapply footprint_trans; eassumption. Qed.

Lemma footprint_save_at (j : Z) (b : Booking) (w : World) :
  id b = j -> footprint j 0 w (save b w).
Proof. intros <-. apply footprint_save. Qed.

Lemma footprint_log_at (j : Z) (b : Booking) (tid : option string)
    (action : string) (code : option string) (w : World) :
  id b = j -> footprint j 1 w (PaymentLog_create b tid action code w).
Proof. intros <-. apply footprint_log. Qed.

(** Follow a world built by saves, audit entries and quiet steps back to
    the world it started from, counting the entries. *)
Ltac footprints :=
  lazymatch goal with
  | |- footprint _ _ ?w ?w => apply footprint_of_quiet, quiet_refl
  | |- footprint ?j _ ?w (save ?b ?w0) =>
      eapply (footprint_step j _ _ _ w w0);
      [footprints | apply footprint_save_at; reflexivity | reflexivity]
  | |- footprint ?j _ ?w (PaymentLog_create ?b _ _ _ ?w0) =>
      eapply (footprint_step j _ _ _ w w0);
      [footprints | apply footprint_log_at; reflexivity | reflexivity]
  | Hq : quiet ?w0 ?w1 |- footprint ?j _ ?w ?w1 =>
      eapply (footprint_step j _ _ _ w w0);
      [footprints | apply footprint_of_quiet; exact Hq | reflexivity]
  end.

Lemma payment_pending_view_effect (u i : Z) (w : World) :
  effect w (fst (payment_pending_view u i w)).
Proof.
  unfold payment_pending_view, mark_expired.
  destruct (get_own_booking u i w) as [b|]; [|apply effect_quiet, quiet_refl].
  repeat (split_match; cbn [fst]); try apply effect_quiet, quiet_refl.
  all: apply (effect_expired _ _ (id b)); [footprints|].
  all: match goal with
       | |- context [save ?b' ?w'] => apply (state_of_save_same b' w')
       end.
Qed.

Lemma query_transaction_quiet (tid : string) (w : World) :
  quiet w (fst (query_transaction E tid w)).
Proof. apply quiet_of_same_tables, query_transaction_same_tables. Qed.

Lemma check_payment_status_effect (u i : Z) (w : World) :
  effect w (fst (check_payment_status E u i w)).
Proof.
  unfold check_payment_status, mark_expired, confirm_payment.
  destruct (get_own_booking u i w) as [b|]; [|apply effect_quiet, quiet_refl].
  repeat (split_match; cbn [fst]); try apply effect_quiet, quiet_refl.
  1,2: apply (effect_expired _ _ (id b)); [footprints|];
    match goal with
    | |- context [save ?b' ?w'] => apply (state_of_save_same b' w')
    end.
  all: match goal with
    | H : query_transaction E ?t ?w' = (?w1, _) |- _ =>
        pose proof (query_transaction_quiet t w') as Hq;
        rewrite H in Hq; cbn [fst] in Hq
    end.
  all: try (apply effect_quiet; exact Hq).
  all: apply (effect_audited _ _ (id b) 0); footprints.
Qed.

Lemma send_booking_confirmation_email_sync_quiet (i : Z) (w : World) :
  quiet w (fst (send_booking_confirmation_email_sync E i w)).
Proof.
  eapply quiet_of_flags;
    [| | |apply send_booking_confirmation_email_sync_flags]; reflexivity.
Qed.

Lemma send_payment_confirmation_email_sync_quiet (i : Z) (r : PyVal)
    (w : World) :
  quiet w (fst (send_payment_confirmation_email_sync E i r w)).
Proof.
  eapply quiet_of_flags;
    [| | |apply send_payment_confirmation_email_sync_flags]; reflexivity.
Qed.

Lemma send_payment_failed_email_sync_quiet (i : Z) (r : PyVal) (w : World) :
  quiet w (fst (send_payment_failed_email_sync E i r w)).
Proof.
  eapply quiet_of_flags;
    [| | |apply send_payment_failed_email_sync_flags]; reflexivity.
Qed.

(** A callback that finds its booking writes two entries for it. *)
Lemma process_callback_footprint (cb : StkCallback) (w : World) (b : Booking) :
  truthy (CheckoutRequestID cb) = true ->
  bookings_with_transaction_id (CheckoutRequestID cb) w = [b] ->
  footprint (id b) 2 w (process_callback E cb w).
Proof.
  intros Ht Hf. unfold process_callback, confirm_payment.
  rewrite Ht, Hf. cbn [negb].
  destruct (py_eqb _ _).
  - match goal with
    | |- context [send_booking_confirmation_email_sync E ?i ?w0] =>
        pose proof (send_booking_confirmation_email_sync_quiet i w0) as Hq1;
        destruct (send_booking_confirmation_email_sync E i w0) as [w1 [[]|]]
    end; cbn [fst] in Hq1.
    + match goal with
      | |- context [send_payment_confirmation_email_sync E ?i ?r ?w0] =>
          pose proof (send_payment_confirmation_email_sync_quiet i r w0) as Hq2
      end.
      footprints.
    + footprints.
  - match goal with
    | |- context [send_payment_failed_email_sync E ?i ?r ?w0] =>
        pose proof (send_payment_failed_email_sync_quiet i r w0) as Hq
    end.
    footprints.
Qed.

Lemma process_callback_effect (cb : StkCallback) (w : World) :
  effect w (process_callback E cb w).
Proof.
  destruct (truthy (CheckoutRequestID cb)) eqn:Ht.
  2:{ unfold process_callback. rewrite Ht. apply effect_quiet, quiet_refl. }
  destruct (bookings_with_transaction_id (CheckoutRequestID cb) w)
    as [|b [|]] eqn:Hf.
  - unfold process_callback. rewrite Ht, Hf. apply effect_quiet, quiet_refl.
  - apply (effect_audited _ _ (id b) 1).
    apply process_callback_footprint; assumption.
  - unfold process_callback. rewrite Ht, Hf. apply effect_quiet, quiet_refl.
Qed.

(** A user cancellation writes one entry. *)
Lemma cancel_booking_view_effect (u i : Z) (w : World) :
  effect w (fst (cancel_booking_view u i w)).
Proof.
  unfold cancel_booking_view, cancel_booking.
  destruct (get_own_booking u i w) as [b|]; [|apply effect_quiet, quiet_refl].
  destruct (negb _); [apply effect_quiet, quiet_refl|].
  cbn. destruct (PaymentStatus_eqb (payment_status b) Paid);
    cbn [fst]; apply (effect_audited _ _ (id b) 0); footprints.
Qed.

(** Payment processing touches the one booking it was given. *)
Lemma process_class_payment_footprint (booking : Booking) (phone : string)
    (w : World) :
  exists n,
    footprint (id booking) n w
      (fst (fst (process_class_payment E booking phone w))).
Proof.
  unfold process_class_payment.
  destruct (BookingType_eqb _ _).
  - match goal with
    | |- context [send_booking_confirmation_email_sync E ?i ?w0] =>
        pose proof (send_booking_confirmation_email_sync_quiet i w0) as Hq;
        destruct (send_booking_confirmation_email_sync E i w0) as [w1 o]
    end; cbn [fst] in *.
    eexists. footprints.
  - destruct (_ <=? 0); cbn [fst].
    { exists 0%nat. footprints. }
    match goal with
    | |- context [stk_push E ?p ?a ?r ?d ?i ?w0] =>
        pose proof (quiet_of_same_tables _ _
                      (stk_push_same_tables E p a r d i w0)) as Hq;
        destruct (stk_push E p a r d i w0) as [w1 [[c m msg ph|code msg]|]]
    end; cbn [fst] in *; eexists; footprints.
Qed.

Lemma process_class_payment_id (booking : Booking) (phone : string)
    (w : World) :
  id (snd (fst (process_class_payment E booking phone w))) = id booking.
Proof.
  unfold process_class_payment.
  destruct (BookingType_eqb _ _).
  - destruct (send_booking_confirmation_email_sync _ _ _). reflexivity.
  - destruct (_ <=? 0); [reflexivity|].
    destruct (stk_push _ _ _ _ _ _ _) as [w1 [[c m msg ph|code msg]|]];
      reflexivity.
Qed.

(** Creating a booking writes at least the [booking_created] entry. *)
Lemma BookingCreateView_post_effect (u : Z) (k : KarateClass) (s : Z)
    (t : BookingType) (p r : string) (w : World) :
  effect w (fst (BookingCreateView_post E u k s t p r w)).
Proof.
  unfold BookingCreateView_post.
  destruct (clean_phone_number p) as [phone|];
    [|apply effect_quiet, quiet_refl].
  repeat (split_match; [apply effect_quiet, quiet_refl|]).
  split_match.
  { apply effect_quiet. unfold waiting_list_get_or_create.
    split_match; apply quiet_of_tables; reflexivity. }
  split_match; [apply effect_quiet, quiet_refl|].
  match goal with
  | |- context [process_class_payment E ?b ?ph ?w0] =>
      destruct (process_class_payment_footprint b ph w0) as [n Hn];
      pose proof (process_class_payment_id b ph w0) as Hid;
      assert (footprint (fresh_id w) 1 w w0) as H0 by footprints;
      destruct (process_class_payment E b ph w0) as [[w2 b2] [res|]]
  end; cbn [fst snd id] in *.
  - assert (footprint (fresh_id w) (S n) w w2) as H2
      by (eapply footprint_step; [exact H0|exact Hn|reflexivity]).
    destruct (pay_success res); cbn [fst].
    + destruct res; cbn [fst]; apply (effect_audited _ _ (fresh_id w) n);
        exact H2.
    + apply (effect_audited _ _ (fresh_id w) n).
      eapply footprint_step;
        [exact H2 | apply footprint_save_at; exact Hid | lia].
  - apply effect_quiet, quiet_of_tables; reflexivity.
Qed.

Lemma step_effect (ev : Event) (w : World) : effect w (step E ev w).
Proof.
  destruct ev; cbn [step].
  - apply effect_quiet, quiet_of_tables; reflexivity.
  - apply BookingCreateView_post_effect.
  - apply payment_pending_view_effect.
  - apply check_payment_status_effect.
  - apply process_callback_effect.
  - apply cancel_booking_view_effect.
Qed.

End Footprints.


(** ** C1: a confirmation delivered twice *)

Section Redelivery.
Variable E : Env.

Lemma ids_unique (l : list Booking) (x y : Booking) :
  NoDup (map id l) -> In x l -> In y l -> id x = id y -> x = y.
Proof.
  induction l as [|z l IH]; cbn; [contradiction|].
  intros Hnd Hx Hy Hid. inversion Hnd as [|? ? Hnotin Hnd']; subst.
  destruct Hx as [->|Hx], Hy as [->|Hy]; auto.
  - exfalso. apply Hnotin. rewrite Hid. apply in_map. assumption.
  - exfalso. apply Hnotin. rewrite <- Hid. apply in_map. assumption.
Qed.

Lemma find_booking_unique (w : World) (x : Booking) :
  NoDup (map id (bookings w)) -> In x (bookings w) ->
  find_booking (id x) w = Some x.
Proof.
  intros Hnd Hin. unfold find_booking.
  destruct (find (fun b => id b =? id x) (bookings w)) as [y|] eqn:Hf.
  - apply find_some in Hf. destruct Hf as [Hy Hid]. apply Z.eqb_eq in Hid.
    f_equal. eapply ids_unique; eauto.
  - exfalso. apply (find_none _ _ Hf) in Hin. rewrite Z.eqb_refl in Hin.
    discriminate.
Qed.

Lemma filter_map_stable {A : Type} (m : A -> bool) (g : A -> A) (l : list A) :
  (forall y, In y l -> m (g y) = m y) ->
  filter m (map g l) = map g (filter m l).
Proof.
  induction l as [|y l IH]; cbn; intros H; [reflexivity|].
  rewrite (H y) by (left; reflexivity).
  destruct (m y); cbn; rewrite IH by (intros; apply H; right; assumption);
    reflexivity.
Qed.

Lemma addressed_In (v : PyVal) (w : World) (x : Booking) :
  addressed v w x -> In x (bookings w) /\ has_transaction_id v x = true.
Proof.
  intros [_ Hf]. unfold bookings_with_transaction_id in Hf.
  apply filter_singleton_In in Hf. exact Hf.
Qed.

(** Saving a new version of the addressed row, still under the same
    checkout request id, leaves it the addressed row. *)
Lemma addressed_save (v : PyVal) (w : World) (x x' : Booking) :
  addressed v w x -> id x' = id x -> has_transaction_id v x' = true ->
  addressed v (save x' w) x'.
Proof.
  intros Ha Hid Hm. pose proof (addressed_In _ _ _ Ha) as [Hin Hmx].
  destruct Ha as [Hnd Hf].
  assert (bookings (save x' w)
          = map (fun y => if id y =? id x' then x' else y) (bookings w)) as Hs.
  { apply save_existing. apply existsb_exists. exists x.
    split; [assumption|]. apply Z.eqb_eq. congruence. }
  unfold addressed, bookings_with_transaction_id in *. rewrite Hs.
  split.
  - rewrite map_map.
    erewrite map_ext; [exact Hnd|].
    intros y. cbn. destruct (Z.eqb_spec (id y) (id x')); congruence.
  - assert (forall y, In y (bookings w) -> id y = id x -> y = x) as Huniq
      by (intros y Hy Hyx; eapply ids_unique; eauto).
    rewrite filter_map_stable.
    + rewrite Hf. cbn. rewrite Hid, Z.eqb_refl. reflexivity.
    + intros y Hy. destruct (Z.eqb_spec (id y) (id x')) as [Hyx|]; [|reflexivity].
      rewrite (Huniq y Hy) by congruence. congruence.
Qed.

Lemma addressed_tables (v : PyVal) (w w' : World) (x : Booking) :
  bookings w' = bookings w -> addressed v w x -> addressed v w' x.
Proof.
  unfold addressed, bookings_with_transaction_id. intros ->. auto.
Qed.

(** A mail sender leaves the addressed row addressed, up to its flag. *)
Lemma addressed_flags (v : PyVal) (set_flag : Booking -> Booking)
    (w w' : World) (x : Booking) :
  (forall b, id (set_flag b) = id b) ->
  (forall b, has_transaction_id v (set_flag b) = has_transaction_id v b) ->
  flags_only (id x) set_flag w w' ->
  addressed v w x ->
  addressed v w' x \/ addressed v w' (set_flag x).
Proof.
  intros Hid Hm (_ & _ & _ & _ & _ & [Hsame|(b & Hf & Hb)]) Ha.
  - left. eapply addressed_tables; eassumption.
  - right. pose proof (addressed_In _ _ _ Ha) as [Hin Hmx].
    rewrite (find_booking_unique w x) in Hf by (destruct Ha; assumption).
    injection Hf as <-.
    apply (addressed_tables v (save (set_flag x) w)); [assumption|].
    apply (addressed_save v w x); [assumption|apply Hid|].
    rewrite Hm. assumption.
Qed.

Lemma truthy_char_field (v : PyVal) :
  truthy v = true -> char_field v = Some (py_str v).
Proof. destruct v; [discriminate|reflexivity|reflexivity]. Qed.

(** One delivery of a confirming callback: the addressed row is confirmed
    now and stays the addressed row; two entries are written. *)
Lemma confirming_callback (cb : StkCallback) (w : World) (b : Booking) :
  addressed (CheckoutRequestID cb) w b ->
  ResultCode cb = PInt 0 ->
  truthy (CheckoutRequestID cb) = true ->
  exists b',
    addressed (CheckoutRequestID cb) (process_callback E cb w) b' /\
    id b' = id b /\
    confirmed_by cb (clock w) b' /\
    find_booking (id b) (process_callback E cb w) = Some b' /\
    clock (process_callback E cb w) = clock w /\
    payment_logs (process_callback E cb w)
    = payment_logs w ++
      [entry (id b) (char_field (CheckoutRequestID cb)) "callback_received"
         (Some "0") (clock w);
       entry (id b) (char_field (CheckoutRequestID cb)) "payment_confirmed"
         (Some "0") (clock w)].
Proof.
  intros Ha Hrc Ht.
  assert (forall w' b', addressed (CheckoutRequestID cb) w' b' ->
                        find_booking (id b') w' = Some b') as Hfind.
  { intros w' b' Ha'. apply find_booking_unique.
    - destruct Ha'; assumption.
    - apply (addressed_In _ _ _ Ha'). }
  unfold process_callback, confirm_payment.
  rewrite Ht. destruct Ha as [Hnd Hf]. rewrite Hf, Hrc. cbn [negb py_eqb].
  rewrite Z.eqb_refl.
  set (v := CheckoutRequestID cb) in *.
  set (receipt := item_value (CallbackMetadata cb) "MpesaReceiptNumber"
                    (PStr "N/A")).
  set (w1 := PaymentLog_create b (char_field v) "callback_received"
               (Some (py_str (PInt 0))) w).
  set (c0 := set_expires_at None
               (set_confirmed_at (Some (clock w1))
                  (set_payment_date (Some (clock w1))
                     (set_mpesa_receipt_number (char_field receipt)
                        (set_transaction_id (char_field v)
                           (set_status Confirmed
                              (set_payment_status Paid b))))))).
  set (w2 := PaymentLog_create c0 (char_field v) "payment_confirmed"
               (Some "0") (save c0 w1)).
  assert (addressed v w2 c0) as Ha2.
  { apply (addressed_tables v (save c0 w1)); [reflexivity|].
    apply (addressed_save v w1 b).
    - split; assumption.
    - reflexivity.
    - unfold has_transaction_id. cbn. rewrite truthy_char_field by assumption.
      apply String.eqb_refl. }
  assert (payment_logs w2
          = payment_logs w ++
            [entry (id b) (char_field v) "callback_received" (Some "0") (clock w);
             entry (id b) (char_field v) "payment_confirmed" (Some "0") (clock w)])
    as Hl2.
  { subst w2 w1. cbn. rewrite save_payment_logs, save_clock. cbn.
    rewrite <- app_assoc. reflexivity. }
  assert (clock w2 = clock w) as Hc2
    by (subst w2 w1; cbn; rewrite save_clock; reflexivity).
  assert (confirmed_by cb (clock w) c0) as Hq0 by (repeat split).
  change (id c0) with (id b).
  pose proof (send_booking_confirmation_email_sync_flags E (id b) w2) as Hm1.
  destruct (send_booking_confirmation_email_sync E (id b) w2) as [w3 [[]|]];
    cbn [fst] in Hm1.
  - pose proof (send_payment_confirmation_email_sync_flags E (id b) receipt w3)
      as Hm2.
    set (w4 := fst (send_payment_confirmation_email_sync E (id b) receipt w3))
      in *.
    destruct (addressed_flags v (set_confirmation_email_sent true) w2 w3 c0
                (fun _ => eq_refl) (fun _ => eq_refl) Hm1 Ha2) as [Ha3|Ha3];
      (match type of Ha3 with
       | addressed _ _ ?x =>
           destruct (addressed_flags v (set_payment_email_sent true) w3 w4 x
                       (fun _ => eq_refl) (fun _ => eq_refl) Hm2 Ha3)
             as [Ha4|Ha4]
       end);
      destruct Hm1 as (Hl3 & _ & Hc3 & _), Hm2 as (Hl4 & _ & Hc4 & _);
      eexists; (split; [exact Ha4|]);
      (split; [reflexivity|]); (split; [exact Hq0|]);
      (split; [exact (Hfind _ _ Ha4)|]);
      (split; [congruence|]); rewrite Hl4, Hl3; exact Hl2.
  - destruct (addressed_flags v (set_confirmation_email_sent true) w2 w3 c0
                (fun _ => eq_refl) (fun _ => eq_refl) Hm1 Ha2) as [Ha3|Ha3];
      destruct Hm1 as (Hl3 & _ & Hc3 & _);
      eexists; (split; [exact Ha3|]);
      (split; [reflexivity|]); (split; [exact Hq0|]);
      (split; [exact (Hfind _ _ Ha3)|]);
      (split; [congruence|]); rewrite Hl3; exact Hl2.
Qed.

End Redelivery.

(** C1, as stated, fails: the second delivery of the same confirming
    callback sets [confirmed_at] again, to the time of that delivery, so
    the row is not as the first delivery left it; and the two deliveries
    write four audit entries, two [callback_received] and two
    [payment_confirmed], none of which records a no-op. *)
Lemma redelivery_confirms_again :
  find_booking 1 Scenario.paid = Some Scenario.confirmed_booking /\
  confirmed_at Scenario.confirmed_booking = Some 1012 /\
  (exists b2, find_booking 1 Scenario.redelivered = Some b2 /\
              confirmed_at b2 = Some 1032) /\
  find_booking 1 Scenario.redelivered <> find_booking 1 Scenario.paid /\
  map log_action
    (skipn (List.length (payment_logs Scenario.awaiting_payment))
       (payment_logs Scenario.redelivered))
  = ["callback_received"; "payment_confirmed";
     "callback_received"; "payment_confirmed"].
Proof.
  split; [reflexivity|]. split; [reflexivity|].
  split; [eexists; split; reflexivity|].
  split; [vm_compute; discriminate|reflexivity].
Qed.

(** C1, amended: when a callback with result code 0 has moved the booking
    it addresses to Confirmed/Paid with [confirmed_at] set, a second,
    identical delivery, any time later, leaves the booking Confirmed and
    Paid with the same transaction id and receipt number; each delivery
    writes two audit entries, [callback_received] and [payment_confirmed],
    four in all. *)
Theorem redelivered_confirmation (E : Env) (cb : StkCallback) (w : World)
    (b : Booking) (seconds : nat) :
  NoDup (map id (bookings w)) ->
  bookings_with_transaction_id (CheckoutRequestID cb) w = [b] ->
  ResultCode cb = PInt 0 ->
  truthy (CheckoutRequestID cb) = true ->
  let first := process_callback E cb w in
  let second := process_callback E cb (tick seconds first) in
  exists b1 b2,
    find_booking (id b) first = Some b1 /\
    find_booking (id b) second = Some b2 /\
    (status b1 = Confirmed /\ payment_status b1 = Paid /\
     confirmed_at b1 = Some (clock w)) /\
    (status b2 = Confirmed /\ payment_status b2 = Paid /\
     transaction_id b2 = transaction_id b1 /\
     mpesa_receipt_number b2 = mpesa_receipt_number b1) /\
    payment_logs second
    = payment_logs w ++
      [entry (id b) (char_field (CheckoutRequestID cb)) "callback_received"
         (Some "0") (clock w);
       entry (id b) (char_field (CheckoutRequestID cb)) "payment_confirmed"
         (Some "0") (clock w);
       entry (id b) (char_field (CheckoutRequestID cb)) "callback_received"
         (Some "0") (clock w + Z.of_nat seconds);
       entry (id b) (char_field (CheckoutRequestID cb)) "payment_confirmed"
         (Some "0") (clock w + Z.of_nat seconds)].
Proof.
  intros Hnd Hf Hrc Ht first second.
  destruct (confirming_callback E cb w b (conj Hnd Hf) Hrc Ht)
    as (b1 & Ha1 & Hid1 & Hq1 & Hfind1 & Hc1 & Hl1).
  fold first in Ha1, Hfind1, Hc1, Hl1.
  assert (addressed (CheckoutRequestID cb) (tick seconds first) b1) as Ha1'
    by (eapply addressed_tables; [|exact Ha1]; reflexivity).
  destruct (confirming_callback E cb (tick seconds first) b1 Ha1' Hrc Ht)
    as (b2 & _ & _ & Hq2 & Hfind2 & _ & Hl2).
  fold second in Hfind2, Hl2.
  destruct Hq1 as (Hs1 & Hp1 & Ht1 & Hr1 & Hca1).
  destruct Hq2 as (Hs2 & Hp2 & Ht2 & Hr2 & _).
  rewrite Hid1 in Hfind2, Hl2.
  exists b1, b2.
  split; [exact Hfind1|]. split; [exact Hfind2|].
  split; [auto|]. split; [repeat split; congruence|].
  rewrite Hl2. cbn [payment_logs tick with_clock clock].
  rewrite Hl1, Hc1, <- app_assoc. reflexivity.
Qed.

Lemma redelivered_confirmation_witness :
  NoDup (map id (bookings Scenario.awaiting_payment)) /\
  bookings_with_transaction_id (CheckoutRequestID Scenario.success_callback)
    Scenario.awaiting_payment = [Scenario.pending_booking] /\
  ResultCode Scenario.success_callback = PInt 0 /\
  truthy (CheckoutRequestID Scenario.success_callback) = true /\
  exists b1 b2,
    find_booking (id Scenario.pending_booking)
      (process_callback Scenario.accepting Scenario.success_callback
         Scenario.awaiting_payment) = Some b1 /\
    find_booking (id Scenario.pending_booking)
      (process_callback Scenario.accepting Scenario.success_callback
         (tick 20 (process_callback Scenario.accepting
                     Scenario.success_callback Scenario.awaiting_payment)))
    = Some b2 /\
    (status b1 = Confirmed /\ payment_status b1 = Paid /\
     confirmed_at b1 = Some (clock Scenario.awaiting_payment)) /\
    (status b2 = Confirmed /\ payment_status b2 = Paid /\
     transaction_id b2 = transaction_id b1 /\
     mpesa_receipt_number b2 = mpesa_receipt_number b1) /\
    payment_logs
      (process_callback Scenario.accepting Scenario.success_callback
         (tick 20 (process_callback Scenario.accepting
                     Scenario.success_callback Scenario.awaiting_payment)))
    = payment_logs Scenario.awaiting_payment ++
      [entry (id Scenario.pending_booking)
         (char_field (CheckoutRequestID Scenario.success_callback))
         "callback_received" (Some "0") (clock Scenario.awaiting_payment);
       entry (id Scenario.pending_booking)
         (char_field (CheckoutRequestID Scenario.success_callback))
         "payment_confirmed" (Some "0") (clock Scenario.awaiting_payment);
       entry (id Scenario.pending_booking)
         (char_field (CheckoutRequestID Scenario.success_callback))
         "callback_received" (Some "0")
         (clock Scenario.awaiting_payment + Z.of_nat 20);
       entry (id Scenario.pending_booking)
         (char_field (CheckoutRequestID Scenario.success_callback))
         "payment_confirmed" (Some "0")
         (clock Scenario.awaiting_payment + Z.of_nat 20)].
Proof.
  assert (NoDup (map id (bookings Scenario.awaiting_payment))) as Hnd
    by (repeat constructor; intros []).
  split; [exact Hnd|]. do 3 (split; [reflexivity|]).
  exact (redelivered_confirmation Scenario.accepting Scenario.success_callback
           Scenario.awaiting_payment Scenario.pending_booking 20
           Hnd eq_refl eq_refl eq_refl).
Defined.

(** * Further properties of the code *)

(** ** The requests the M-Pesa client sends *)

Section ClientBudget.
Variable E : Env.

Lemma token_attempts_sent (fuel attempt : nat) (w : World) :
  exists k, (k <= fuel)%nat /\
    sent (fst (token_attempts E fuel attempt w))
    = sent w ++ repeat OAuthGenerate k.
Proof.
  revert attempt w. induction fuel as [|fuel IH]; intros attempt w.
  - exists 0%nat. cbn. rewrite app_nil_r. auto.
  - cbn [token_attempts]. unfold http.
    assert (forall w0 : World,
               sent w0 = sent w ++ [OAuthGenerate] ->
               exists k, (k <= S fuel)%nat /\
                 sent (fst (if Nat.eqb attempt (max_retries - 1)
                            then (w0, Returned None)
                            else token_attempts E fuel (S attempt) (sleep 2 w0)))
                 = sent w ++ repeat OAuthGenerate k) as Hretry.
    { intros w0 Hw0. destruct (Nat.eqb attempt (max_retries - 1)).
      - exists 1%nat. split; [lia|]. exact Hw0.
      - destruct (IH (S attempt) (sleep 2 w0)) as (k & Hk & Hs).
        exists (S k). split; [lia|]. rewrite Hs. cbn [sleep sent with_clock].
        rewrite Hw0, <- app_assoc. reflexivity. }
    destruct (reply E (sent w) OAuthGenerate) as [| |sc body].
    + apply Hretry. reflexivity.
    + apply Hretry. reflexivity.
    + destruct (is_http_error sc); [apply Hretry; reflexivity|].
      destruct (mem body "access_token"); exists 1%nat; (split; [lia|]);
        reflexivity.
Qed.

Lemma stk_attempts_sent (fuel attempt : nat) (phone : string) (amount_int : Z)
    (ref desc : string) (booking_id : Z) (w : World) :
  exists j, (j <= fuel)%nat /\
    sent (fst (stk_attempts E fuel attempt phone amount_int ref desc
                 booking_id w))
    = sent w ++ repeat (StkPushProcess phone amount_int (take 20 ref)
                          (take 20 desc)) j.
Proof.
  revert attempt w. induction fuel as [|fuel IH]; intros attempt w.
  - exists 0%nat. cbn. rewrite app_nil_r. auto.
  - cbn [stk_attempts]. unfold http.
    set (push := StkPushProcess phone amount_int (take 20 ref) (take 20 desc)).
    assert (forall (w0 : World) (last : StkResult),
               sent w0 = sent w ++ [push] ->
               exists j, (j <= S fuel)%nat /\
                 sent (fst (if Nat.ltb attempt (max_retries - 1)
                            then stk_attempts E fuel (S attempt) phone
                                   amount_int ref desc booking_id (sleep 2 w0)
                            else (w0, Returned (Some last))))
                 = sent w ++ repeat push j) as Hretry.
    { intros w0 last Hw0. destruct (Nat.ltb attempt (max_retries - 1)).
      - destruct (IH (S attempt) (sleep 2 w0)) as (j & Hj & Hs).
        exists (S j). split; [lia|]. rewrite Hs. cbn [sleep sent with_clock].
        rewrite Hw0, <- app_assoc. reflexivity.
      - exists 1%nat. split; [lia|]. exact Hw0. }
    destruct (reply E (sent w) push) as [| |sc body].
    + apply Hretry. reflexivity.
    + apply Hretry. reflexivity.
    + destruct (sc =? 200); [|apply Hretry; reflexivity].
      destruct (py_eqb _ _).
      * exists 1%nat. split; [lia|]. reflexivity.
      * destruct (get body "ResponseDescription" _);
          exists 1%nat; (split; [lia|]); reflexivity.
Qed.

(** The loop of [stk_push] never runs out without a [return]. *)
Lemma stk_attempts_returns (fuel attempt : nat) (phone : string)
    (amount_int : Z) (ref desc : string) (booking_id : Z) (w : World) :
  (fuel + attempt = max_retries)%nat -> (1 <= fuel)%nat ->
  snd (stk_attempts E fuel attempt phone amount_int ref desc booking_id w)
  <> Returned None.
Proof.
  revert attempt w. induction fuel as [|fuel IH]; intros attempt w Hsum Hpos;
    [lia|].
  cbn [stk_attempts]. unfold http.
  assert (forall (w0 : World) (last : StkResult),
             snd (if Nat.ltb attempt (max_retries - 1)
                  then stk_attempts E fuel (S attempt) phone amount_int ref
                         desc booking_id (sleep 2 w0)
                  else (w0, Returned (Some last)))
             <> Returned None) as Hretry.
  { intros w0 last. destruct (Nat.ltb attempt (max_retries - 1)) eqn:Hlt.
    - apply Nat.ltb_lt in Hlt. unfold max_retries in *.
      apply IH; lia.
    - discriminate. }
  destruct (reply E (sent w) _) as [| |sc body]; try apply Hretry.
  destruct (sc =? 200); [|apply Hretry].
  destruct (py_eqb _ _); [discriminate|].
  destruct (get body "ResponseDescription" _); discriminate.
Qed.

End ClientBudget.

(** X1: [get_access_token] sends at most three requests, all of them token
    requests, and writes no table; with a usable token in the cache it
    sends nothing and leaves the world as it is. *)
Theorem get_access_token_requests (E : Env) (w : World) :
  exists k, (k <= 3)%nat /\
    sent (fst (get_access_token E w)) = sent w ++ repeat OAuthGenerate k /\
    same_tables w (fst (get_access_token E w)) /\
    (cache_truthy (cache_get "mpesa_access_token" w) = true ->
     get_access_token E w = (w, Returned (cache_get "mpesa_access_token" w))).
Proof.
  unfold get_access_token.
  destruct (cache_truthy (cache_get "mpesa_access_token" w)) eqn:Hc.
  - exists 0%nat. cbn. rewrite app_nil_r.
    repeat split. lia.
  - destruct (token_attempts_sent E max_retries 0 w) as (k & Hk & Hs).
    exists k. split; [exact Hk|]. split; [exact Hs|].
    split; [apply token_attempts_same_tables|discriminate].
Qed.

Lemma get_access_token_sent (E : Env) (w : World) :
  exists k, (k <= 3)%nat /\
    sent (fst (get_access_token E w)) = sent w ++ repeat OAuthGenerate k.
Proof.
  unfold get_access_token.
  destruct (cache_truthy (cache_get "mpesa_access_token" w)).
  - exists 0%nat. cbn. rewrite app_nil_r. split; [lia|reflexivity].
  - apply (token_attempts_sent E max_retries 0 w).
Qed.

(** X2: for a phone number that validates, [stk_push] always returns a
    result (the loop never ends without a [return]); it sends at most
    three token requests followed by at most three push requests, each
    push for the normalized number and the amount in whole shillings, and
    it writes no table. *)
Theorem stk_push_requests (E : Env) (phone_number phone : string) (amount : Z)
    (ref desc : string) (booking_id : Z) (w : World) :
  validate_phone_number phone_number = Some phone ->
  exists result k j,
    snd (stk_push E phone_number amount ref desc booking_id w) = Some result /\
    (k <= 3)%nat /\ (j <= 3)%nat /\
    sent (fst (stk_push E phone_number amount ref desc booking_id w))
    = sent w ++ repeat OAuthGenerate k
             ++ repeat (push_request phone amount ref desc) j /\
    same_tables w (fst (stk_push E phone_number amount ref desc booking_id w)).
Proof.
  intros Hv.
  pose proof (stk_push_same_tables E phone_number amount ref desc booking_id w)
    as Hsame.
  revert Hsame. unfold stk_push. rewrite Hv.
  destruct (int_of_amount amount <? 1).
  { intros Hsame; cbn [fst] in Hsame; destruct Hsame as (?&?&?&?). exists (StkFailure (PStr "INVALID_AMOUNT")
                            "Amount must be at least KES 1"), 0%nat, 0%nat.
    cbn. rewrite app_nil_r. repeat split; auto. }
  destruct (get_access_token_sent E w) as (k & Hk & Hs).
  destruct (get_access_token E w) as [w1 [tok|]]; cbn [fst] in Hs.
  2:{ intros Hsame; cbn [fst] in Hsame; destruct Hsame as (?&?&?&?). eexists. exists k, 0%nat. cbn [fst snd repeat].
      rewrite app_nil_r. repeat split; auto. }
  destruct (negb (cache_truthy tok)).
  { intros Hsame; cbn [fst] in Hsame; destruct Hsame as (?&?&?&?). eexists. exists k, 0%nat. cbn [fst snd repeat].
    rewrite app_nil_r. repeat split; auto. }
  destruct (stk_attempts_sent E max_retries 0 phone (int_of_amount amount)
              ref desc booking_id w1) as (j & Hj & Hs2).
  pose proof (stk_attempts_returns E max_retries 0 phone (int_of_amount amount)
                ref desc booking_id w1 (Nat.add_0_r _)
                ltac:(unfold max_retries; lia)) as Hret.
  destruct (stk_attempts E max_retries 0 phone (int_of_amount amount) ref desc
              booking_id w1) as [w2 [[result|]|]];
    cbn [fst snd] in *; intros Hsame; destruct Hsame as (?&?&?&?).
  - exists result, k, j. unfold push_request.
    rewrite Hs2, Hs, <- app_assoc. repeat split; auto.
  - contradiction Hret. reflexivity.
  - eexists. exists k, j. unfold push_request.
    rewrite Hs2, Hs, <- app_assoc. repeat split; auto.
Qed.

Lemma stk_push_requests_witness :
  validate_phone_number "0712345678" = Some "254712345678" /\
  exists result k j,
    snd (stk_push Scenario.timing_out "0712345678" 150000
           "BK20240101DEADBEEF" "Shotokan Beginn" 1
           (Scenario.created Scenario.new_monthly)) = Some result /\
    (k <= 3)%nat /\ (j <= 3)%nat /\
    sent (fst (stk_push Scenario.timing_out "0712345678" 150000
                 "BK20240101DEADBEEF" "Shotokan Beginn" 1
                 (Scenario.created Scenario.new_monthly)))
    = sent (Scenario.created Scenario.new_monthly)
      ++ repeat OAuthGenerate k
      ++ repeat (push_request "254712345678" 150000 "BK20240101DEADBEEF"
                   "Shotokan Beginn") j /\
    same_tables (Scenario.created Scenario.new_monthly)
      (fst (stk_push Scenario.timing_out "0712345678" 150000
              "BK20240101DEADBEEF" "Shotokan Beginn" 1
              (Scenario.created Scenario.new_monthly))).
Proof.
  split; [reflexivity|].
  exact (stk_push_requests Scenario.timing_out "0712345678" "254712345678"
           150000 "BK20240101DEADBEEF" "Shotokan Beginn" 1
           (Scenario.created Scenario.new_monthly) eq_refl).
Defined.

(** Whatever the phone number, [stk_push] returns a result. *)
Lemma stk_push_returns (E : Env) (phone_number : string) (amount : Z)
    (ref desc : string) (booking_id : Z) (w : World) :
  snd (stk_push E phone_number amount ref desc booking_id w) <> None.
Proof.
  destruct (validate_phone_number phone_number) as [phone|] eqn:Hv.
  - unfold stk_push. rewrite Hv.
    destruct (int_of_amount amount <? 1); [discriminate|].
    destruct (get_access_token E w) as [w1 [tok|]]; [|discriminate].
    destruct (negb (cache_truthy tok)); [discriminate|].
    pose proof (stk_attempts_returns E max_retries 0 phone
                  (int_of_amount amount) ref desc booking_id w1
                  (Nat.add_0_r _) ltac:(unfold max_retries; lia)) as Hret.
    destruct (stk_attempts E max_retries 0 phone (int_of_amount amount) ref
                desc booking_id w1) as [w2 [[result|]|]];
      cbn [fst snd] in *; try discriminate.
    contradiction Hret. reflexivity.
  - rewrite stk_push_invalid_phone by assumption. discriminate.
Qed.

Lemma process_class_payment_returns (E : Env) (booking : Booking)
    (phone_number : string) (w : World) :
  snd (process_class_payment E booking phone_number w) <> Raised.
Proof.
  unfold process_class_payment.
  destruct (BookingType_eqb _ _).
  { destruct (send_booking_confirmation_email_sync _ _ _). discriminate. }
  destruct (_ <=? 0); [discriminate|].
  match goal with
  | |- context [stk_push E ?p ?a ?r ?d ?i ?w0] =>
      pose proof (stk_push_returns E p a r d i w0) as Hret;
      destruct (stk_push E p a r d i w0) as [w1 [[c m msg ph|code msg]|]]
  end; cbn [snd] in *; try discriminate.
  contradiction Hret. reflexivity.
Qed.

(** X3: [BookingCreateView.post] ends in its [except] branch only when the
    reference generated for the new row is already taken. The INSERT then
    violates the unique constraint of [booking_reference], nothing is
    stored, and the user is told that an error occurred. Payment processing
    does not raise: the M-Pesa client catches its own failures and returns
    a result, so a row that was inserted is never rolled back. *)
Theorem creation_error_is_a_reference_collision (E : Env) (u : Z)
    (k : KarateClass) (s : Z) (t : BookingType) (p r : string) (w : World) :
  (snd (BookingCreateView_post E u k s t p r w) = CreationError ->
   existsb (fun b => String.eqb (booking_reference b) r) (bookings w) = true /\
   fst (BookingCreateView_post E u k s t p r w) = w) /\
  forall booking phone w0,
    snd (process_class_payment E booking phone w0) <> Raised.
Proof.
  split; [|intros; apply process_class_payment_returns].
  unfold BookingCreateView_post.
  destruct (clean_phone_number p) as [phone|]; [|discriminate].
  repeat (split_match; [discriminate|]).
  split_match; [intros _; split; reflexivity|].
  match goal with
  | |- context [process_class_payment E ?b ?ph ?w0] =>
      pose proof (process_class_payment_returns E b ph w0) as Hret;
      destruct (process_class_payment E b ph w0) as [[w2 b2] [res|]]
  end; cbn [snd] in *.
  - destruct (pay_success res); [destruct res|]; discriminate.
  - contradiction Hret. reflexivity.
Qed.

Lemma creation_error_is_a_reference_collision_witness :
  snd (BookingCreateView_post Scenario.accepting 8 Scenario.karate 3 Monthly
         "254712345678" "BK20240101DEADBEEF" Scenario.awaiting_payment)
  = CreationError /\
  fst (BookingCreateView_post Scenario.accepting 8 Scenario.karate 3 Monthly
         "254712345678" "BK20240101DEADBEEF" Scenario.awaiting_payment)
  = Scenario.awaiting_payment.
Proof.
  assert (snd (BookingCreateView_post Scenario.accepting 8 Scenario.karate 3
                 Monthly "254712345678" "BK20240101DEADBEEF"
                 Scenario.awaiting_payment) = CreationError) as Herr
    by (vm_compute; reflexivity).
  split; [exact Herr|].
  exact (proj2 (proj1 (creation_error_is_a_reference_collision
                         Scenario.accepting 8 Scenario.karate 3 Monthly
                         "254712345678" "BK20240101DEADBEEF"
                         Scenario.awaiting_payment) Herr)).
Defined.

(** ** What the client keeps in the cache *)

Lemma cache_get_extends (key : string) (v : CacheVal) (timeout : Z)
    (rest : list CacheEntry) (w1 w2 : World) :
  cache w1 = cached key v timeout (clock w1) :: rest ->
  cache_extends key w1 w2 ->
  clock w2 < clock w1 + timeout ->
  cache_get key w2 = Some v.
Proof.
  intros Hc (newer & Hn & Hfresh) Ht. unfold cache_get. rewrite Hn, Hc.
  clear Hn. induction Hfresh as [|e newer He _ IH]; cbn.
  - rewrite String.eqb_refl. cbn.
    apply Z.ltb_lt in Ht. rewrite Ht. reflexivity.
  - apply String.eqb_neq in He. rewrite He. exact IH.
Qed.

Lemma cache_extends_tick (key : string) (w : World) (seconds : nat) :
  cache_extends key w (tick seconds w).
Proof. exists []. split; [reflexivity|constructor]. Qed.

Section CacheFacts.
Variable E : Env.

Lemma token_attempts_caches (fuel attempt : nat) (w w1 : World)
    (tok : CacheVal) :
  token_attempts E fuel attempt w = (w1, Returned (Some tok)) ->
  exists rest,
    cache w1 = cached "mpesa_access_token" tok 3000 (clock w1) :: rest.
Proof.
  revert attempt w. induction fuel as [|fuel IH]; intros attempt w;
    [discriminate|].
  cbn [token_attempts]. unfold http.
  assert (forall w0 : World,
             (if Nat.eqb attempt (max_retries - 1) then (w0, Returned None)
              else token_attempts E fuel (S attempt) (sleep 2 w0))
             = (w1, Returned (Some tok)) ->
             exists rest,
               cache w1 = cached "mpesa_access_token" tok 3000 (clock w1)
                          :: rest) as Hretry.
  { intros w0. destruct (Nat.eqb attempt (max_retries - 1)); [discriminate|].
    apply IH. }
  destruct (reply E (sent w) OAuthGenerate) as [| |sc body]; try apply Hretry.
  destruct (is_http_error sc); [apply Hretry|].
  destruct (mem body "access_token"); [|discriminate].
  intros H. injection H as <- <-. eexists. reflexivity.
Qed.

Lemma stk_attempts_caches (fuel attempt : nat) (phone : string) (amount_int : Z)
    (ref desc : string) (booking_id : Z) (w w1 : World)
    (c m : PyVal) (msg ph : string) :
  stk_attempts E fuel attempt phone amount_int ref desc booking_id w
  = (w1, Returned (Some (StkSuccess c m msg ph))) ->
  exists context rest,
    context <> [] /\
    cache w1 = cached ("mpesa_request_" ++ py_str c) (CDict context) 600
                 (clock w1) :: rest.
Proof.
  revert attempt w. induction fuel as [|fuel IH]; intros attempt w;
    [discriminate|].
  cbn [stk_attempts]. unfold http.
  assert (forall (w0 : World) (last : StkResult),
             (forall c' m' msg' ph', last <> StkSuccess c' m' msg' ph') ->
             (if Nat.ltb attempt (max_retries - 1)
              then stk_attempts E fuel (S attempt) phone amount_int ref desc
                     booking_id (sleep 2 w0)
              else (w0, Returned (Some last)))
             = (w1, Returned (Some (StkSuccess c m msg ph))) ->
             exists context rest,
               context <> [] /\
               cache w1 = cached ("mpesa_request_" ++ py_str c) (CDict context)
                            600 (clock w1) :: rest) as Hretry.
  { intros w0 last Hlast. destruct (Nat.ltb attempt (max_retries - 1)).
    - apply IH.
    - intros H. injection H as _ H. exfalso. exact (Hlast _ _ _ _ H). }
  destruct (reply E (sent w) _) as [| |sc body];
    try (apply Hretry; discriminate).
  destruct (sc =? 200); [|apply Hretry; discriminate].
  destruct (py_eqb _ _).
  - intros H. injection H as <- <- _ _ _. eexists. eexists.
    split; [|reflexivity]. discriminate.
  - destruct (get body "ResponseDescription" _); discriminate.
Qed.

End CacheFacts.

(** X4: a token fetched from the provider is reused: for the next 3000
    seconds, as long as no newer token entry is put in the cache,
    [get_access_token] returns it without sending anything. *)
Theorem fetched_token_is_reused (E E' : Env) (w w1 w2 : World)
    (tok : CacheVal) :
  cache_truthy (cache_get "mpesa_access_token" w) = false ->
  get_access_token E w = (w1, Returned (Some tok)) ->
  cache_truthy (Some tok) = true ->
  cache_extends "mpesa_access_token" w1 w2 ->
  clock w2 < clock w1 + 3000 ->
  get_access_token E' w2 = (w2, Returned (Some tok)).
Proof.
  intros Hmiss Hget Htok Hext Ht.
  unfold get_access_token in Hget. rewrite Hmiss in Hget.
  destruct (token_attempts_caches E _ _ _ _ _ Hget) as [rest Hc].
  unfold get_access_token.
  rewrite (cache_get_extends _ _ _ _ _ _ Hc Hext Ht), Htok. reflexivity.
Qed.

Lemma fetched_token_is_reused_witness :
  cache_truthy (cache_get "mpesa_access_token"
                  (Scenario.created Scenario.new_monthly)) = false /\
  get_access_token Scenario.accepting (Scenario.created Scenario.new_monthly)
  = (fst (get_access_token Scenario.accepting
            (Scenario.created Scenario.new_monthly)),
     Returned (Some (CScalar (PStr "tok")))) /\
  cache_truthy (Some (CScalar (PStr "tok"))) = true /\
  cache_extends "mpesa_access_token"
    (fst (get_access_token Scenario.accepting
            (Scenario.created Scenario.new_monthly)))
    (tick 2999 (fst (get_access_token Scenario.accepting
                       (Scenario.created Scenario.new_monthly)))) /\
  clock (tick 2999 (fst (get_access_token Scenario.accepting
                           (Scenario.created Scenario.new_monthly))))
  < clock (fst (get_access_token Scenario.accepting
                  (Scenario.created Scenario.new_monthly))) + 3000 /\
  get_access_token Scenario.timing_out
    (tick 2999 (fst (get_access_token Scenario.accepting
                       (Scenario.created Scenario.new_monthly))))
  = (tick 2999 (fst (get_access_token Scenario.accepting
                       (Scenario.created Scenario.new_monthly))),
     Returned (Some (CScalar (PStr "tok")))).
Proof.
  assert (clock (tick 2999 (fst (get_access_token Scenario.accepting
                                   (Scenario.created Scenario.new_monthly))))
          < clock (fst (get_access_token Scenario.accepting
                          (Scenario.created Scenario.new_monthly))) + 3000)
    as Ht by (vm_compute; reflexivity).
  split; [reflexivity|]. split; [reflexivity|]. split; [reflexivity|].
  split; [apply cache_extends_tick|]. split; [exact Ht|].
  exact (fetched_token_is_reused Scenario.accepting Scenario.timing_out
           (Scenario.created Scenario.new_monthly) _ _ _
           eq_refl eq_refl eq_refl (cache_extends_tick _ _ _) Ht).
Defined.

(** X5: the context [stk_push] caches for an accepted push outlives the
    payment window: as long as the booking has not passed its deadline (and
    no newer entry was cached under the same key), the lookup with which
    [query_transaction] starts finds a context, so the status query is not
    given up for "no cached data". *)
Theorem push_context_outlives_payment_window (E : Env) (booking b' : Booking)
    (phone_number : string) (w w' w2 : World) (c : PyVal) (m : string) :
  process_class_payment E booking phone_number w
  = (w', b', Returned (PaySuccess c m)) ->
  cache_extends ("mpesa_request_" ++ py_str c) w' w2 ->
  is_payment_expired b' w2 = false ->
  cache_truthy (cache_get ("mpesa_request_" ++ py_str c) w2) = true.
Proof.
  unfold process_class_payment.
  destruct (BookingType_eqb _ _).
  { destruct (send_booking_confirmation_email_sync _ _ _). discriminate. }
  destruct (_ <=? 0); [discriminate|].
  destruct (stk_push _ _ _ _ _ _ _) as [w1 [[c1 m1 msg ph|code msg]|]] eqn:Hpush;
    try discriminate.
  intros H. injection H as <- <- <- <-.
  intros Hext Hx.
  assert (exists context rest,
             context <> [] /\
             cache w1 = cached ("mpesa_request_" ++ py_str c1) (CDict context)
                          600 (clock w1) :: rest) as (context & rest & Hne & Hc).
  { revert Hpush. unfold stk_push.
    destruct (validate_phone_number phone_number); [|discriminate].
    destruct (_ <? 1); [discriminate|].
    destruct (get_access_token E _) as [w0 [tok|]]; [|discriminate].
    destruct (negb _); [discriminate|].
    destruct (stk_attempts _ _ _ _ _ _ _ _ _) as [w3 [r|]] eqn:Hatt;
      [|discriminate].
    intros H. injection H as <- ->.
    eapply stk_attempts_caches. exact Hatt. }
  unfold is_payment_expired in Hx. cbn in Hx.
  rewrite Z.gtb_ltb in Hx. apply Z.ltb_ge in Hx.
  match type of Hext with
  | cache_extends _ ?w0 _ =>
      rewrite (cache_get_extends _ (CDict context) 600 rest w0 w2)
  end.
  - destruct context; [contradiction Hne; reflexivity|reflexivity].
  - cbn. rewrite save_cache, save_clock. exact Hc.
  - exact Hext.
  - cbn. rewrite save_clock. lia.
Qed.

Lemma push_context_outlives_payment_window_witness :
  process_class_payment Scenario.accepting Scenario.new_monthly "0712345678"
    (Scenario.created Scenario.new_monthly)
  = (Scenario.awaiting_payment, Scenario.pending_booking,
     Returned (PaySuccess (PStr "ws_CO_X")
                 "Payment request sent. Check your phone.")) /\
  cache_extends ("mpesa_request_" ++ py_str (PStr "ws_CO_X"))
    Scenario.awaiting_payment (tick 300 Scenario.awaiting_payment) /\
  is_payment_expired Scenario.pending_booking
    (tick 300 Scenario.awaiting_payment) = false /\
  cache_truthy (cache_get ("mpesa_request_" ++ py_str (PStr "ws_CO_X"))
                  (tick 300 Scenario.awaiting_payment)) = true.
Proof.
  split; [reflexivity|]. split; [apply cache_extends_tick|].
  split; [reflexivity|].
  exact (push_context_outlives_payment_window Scenario.accepting
           Scenario.new_monthly Scenario.pending_booking "0712345678"
           (Scenario.created Scenario.new_monthly) Scenario.awaiting_payment
           (tick 300 Scenario.awaiting_payment) (PStr "ws_CO_X")
           "Payment request sent. Check your phone."
           eq_refl (cache_extends_tick _ _ _) eq_refl).
Defined.

(** ** Phone numbers, once more *)

(** X6: normalization is idempotent, and it accepts what the booking form
    accepts: a number [validate_phone_number] returns is returned unchanged
    when validated again, and every number [clean_phone_number] accepts is
    validated to the very string the form cleaned it to, so a booking that
    came through the form cannot fail with INVALID_PHONE. *)
Theorem phone_normalization_is_stable :
  (forall phone_number phone,
      validate_phone_number phone_number = Some phone ->
      validate_phone_number phone = Some phone) /\
  (forall phone_number phone,
      clean_phone_number phone_number = Some phone ->
      validate_phone_number phone_number = Some phone /\
      validate_phone_number phone = Some phone).
Proof.
  assert (forall phone,
             String.length phone = 12%nat -> startswith phone "254" = true ->
             digits_only phone = phone ->
             validate_phone_number phone = Some phone) as Hfix.
  { intros phone Hl Hp Hd. unfold validate_phone_number.
    rewrite Hd, Hl, Hp. reflexivity. }
  split.
  - intros phone_number phone Hv.
    apply validate_phone_number_format in Hv. destruct Hv as (Hl & Hp & Hd).
    apply Hfix; assumption.
  - intros phone_number phone Hc. unfold clean_phone_number in Hc.
    destruct (negb (startswith (digits_only phone_number) "254")
              || negb (Nat.eqb (String.length (digits_only phone_number)) 12))
      eqn:Hbad; [discriminate|].
    injection Hc as <-. apply orb_false_iff in Hbad. destruct Hbad as [Hp Hl].
    apply negb_false_iff in Hp, Hl. apply Nat.eqb_eq in Hl.
    split.
    + unfold validate_phone_number.
      rewrite Hl, Hp. reflexivity.
    + apply Hfix; [assumption|assumption|apply digits_only_idem].
Qed.

Lemma phone_normalization_is_stable_witness :
  (validate_phone_number "0712 345 678" = Some "254712345678" /\
   validate_phone_number "254712345678" = Some "254712345678") /\
  (clean_phone_number "+254 712 345 678" = Some "254712345678" /\
   validate_phone_number "+254 712 345 678" = Some "254712345678" /\
   validate_phone_number "254712345678" = Some "254712345678").
Proof.
  destruct phone_normalization_is_stable as [Hv Hc].
  split.
  - split; [reflexivity|]. apply (Hv "0712 345 678"). reflexivity.
  - split; [reflexivity|]. apply (Hc "+254 712 345 678"). reflexivity.
Defined.

(** ** User-facing error messages *)

Lemma substring_of_empty (n m : nat) : substring n m "" = "".
Proof. destruct n, m; reflexivity. Qed.

Lemma substring_after_prefix (s a b : string) (m : nat) :
  substring m (String.length a + String.length b) s = (a ++ b)%string ->
  substring (m + String.length a) (String.length b) s = b.
Proof.
  revert m a. induction s as [|c s IH]; intros m a H.
  - rewrite substring_of_empty in *. destruct a; [|discriminate].
    cbn in H. rewrite <- H. reflexivity.
  - destruct m as [|m].
    + destruct a as [|x a].
      * exact H.
      * cbn in H. injection H as _ H.
        change (substring (String.length a) (String.length b) s = b).
        apply (IH 0%nat a). exact H.
    + cbn in H. cbn [Nat.add]. cbn [substring]. apply IH. exact H.
Qed.

(** A text that contains [a ++ b] contains [b]. *)
Lemma contains_suffix (a b s : string) :
  b <> "" ->
  contains (a ++ b) s = true -> contains b s = true.
Proof.
  intros Hb. unfold contains.
  destruct (index 0 (a ++ b) s) as [m|] eqn:Hab; [|discriminate].
  intros _. destruct (index 0 b s) eqn:Hbs; [reflexivity|].
  exfalso. apply index_correct1 in Hab.
  assert (String.length (a ++ b) = (String.length a + String.length b)%nat)
    as Hlen by (clear; induction a; cbn; congruence).
  rewrite Hlen in Hab. apply substring_after_prefix in Hab.
  exact (index_correct3 0 (m + String.length a) b s Hbs Hb (Nat.le_0_l _) Hab).
Qed.

(** X7: [_get_user_friendly_error] never shows the provider's text: it
    returns one of eight fixed messages or the fallback. The ninth entry
    of its table is dead: a text that contains "ds timeout" contains
    "timeout", which stands earlier in the table, so "M-Pesa service
    timeout. Please try again." is never returned. *)
Theorem friendly_errors_are_fixed (error_message : string) :
  In (_get_user_friendly_error error_message)
    ["Insufficient M-Pesa balance. Please top up and try again.";
     "Invalid phone number. Please check and try again.";
     "Transaction failed. Please try again.";
     "Payment was cancelled.";
     "Request timeout. Please try again.";
     "Invalid M-Pesa account.";
     "Amount exceeds M-Pesa limits.";
     "Payment request was cancelled.";
     "Payment failed. Please try again or contact support."] /\
  _get_user_friendly_error error_message
  <> "M-Pesa service timeout. Please try again.".
Proof.
  unfold _get_user_friendly_error, error_map. cbn [find fst snd].
  set (l := lower error_message).
  pose proof (contains_suffix "ds " "timeout" l ltac:(discriminate)) as Hdead.
  change ("ds " ++ "timeout")%string with "ds timeout" in Hdead.
  repeat match goal with
         | |- context [if contains ?k l then _ else _] =>
             destruct (contains k l) eqn:?
         end;
    try (split; [cbn; tauto|discriminate]).
  exfalso. specialize (Hdead eq_refl). congruence.
Qed.

(** ** The life cycle of a booking *)

Section Lifecycle.
Variable E : Env.

Ltac lifecycle :=
  unfold settled_but, lifecycle_state in *; cbn in *;
  try tauto; try discriminate; try congruence.

Lemma settled_but_flag (i : Z) (set_flag : Booking -> Booking) :
  (forall b, id (set_flag b) = id b) ->
  (forall b, lifecycle_state b -> lifecycle_state (set_flag b)) ->
  forall b, settled_but i b -> settled_but i (set_flag b).
Proof.
  intros Hid Hl b [H|H]; [left; rewrite Hid; assumption | right; auto].
Qed.

Lemma process_class_payment_settles (booking : Booking) (phone : string)
    (w : World) :
  Forall (settled_but (id booking)) (bookings w) ->
  let r := process_class_payment E booking phone w in
  id (snd (fst r)) = id booking /\
  Forall (settled_but (id booking)) (bookings (fst (fst r))) /\
  (forall result, snd r = Returned result -> pay_success result = true ->
     Forall lifecycle_state (bookings (fst (fst r)))).
Proof.
  intros Hw. unfold process_class_payment.
  destruct (BookingType_eqb _ _).
  - match goal with
    | |- context [send_booking_confirmation_email_sync E ?i ?w0] =>
        pose proof (send_booking_confirmation_email_sync_flags E i w0) as Hm;
        destruct (send_booking_confirmation_email_sync E i w0) as [w1 o]
    end.
    cbn [fst snd] in *. split; [reflexivity|].
    assert (Forall lifecycle_state (bookings w1)) as Hall.
    { eapply flags_only_Forall; [|exact Hm|].
      - intros b Hb. exact Hb.
      - cbn. apply save_Forall_over; [exact Hw|lifecycle]. }
    split; [|intros; exact Hall].
    eapply Forall_impl; [|exact Hall]. intros; right; assumption.
  - destruct (price (karate_class booking) <=? 0); cbn [fst snd].
    { split; [reflexivity|]. split; [assumption|].
      intros result [= <-]. discriminate. }
    match goal with
    | |- context [stk_push E ?p ?a ?r ?d ?i ?w0] =>
        pose proof (stk_push_same_tables E p a r d i w0) as (Hs & _);
        destruct (stk_push E p a r d i w0) as [w1 [[c m msg ph|code msg]|]]
    end; cbn [fst snd] in *.
    + split; [reflexivity|].
      match goal with
      | |- Forall _ (bookings ?w0) /\ _ =>
          assert (Forall lifecycle_state (bookings w0)) as Hall
      end.
      { cbn. apply save_Forall_over; [|lifecycle].
        rewrite Hs. cbn. apply save_Forall; [exact Hw|left; reflexivity]. }
      split; [|intros; exact Hall].
      eapply Forall_impl; [|exact Hall]. intros; right; assumption.
    + split; [reflexivity|]. split.
      * cbn. apply save_Forall; [|left; reflexivity].
        rewrite Hs. cbn. apply save_Forall; [exact Hw|left; reflexivity].
      * intros result [= <-]. discriminate.
    + split; [reflexivity|]. split.
      * rewrite Hs. cbn. apply save_Forall; [exact Hw|left; reflexivity].
      * intros result [=].
Qed.

Lemma BookingCreateView_post_lifecycle (u : Z) (k : KarateClass) (s : Z)
    (t : BookingType) (p r : string) (w : World) :
  Forall lifecycle_state (bookings w) ->
  Forall lifecycle_state (bookings (fst (BookingCreateView_post E u k s t p r w))).
Proof.
  intros Hw. unfold BookingCreateView_post.
  destruct (clean_phone_number p) as [phone|]; [|assumption].
  repeat (split_match; [assumption|]).
  split_match.
  { unfold waiting_list_get_or_create. split_match; assumption. }
  split_match; [assumption|].
  match goal with
  | |- context [process_class_payment E ?b ?ph ?w0] =>
      assert (Forall (settled_but (id b)) (bookings w0)) as Hw0
        by (cbn; apply save_Forall_weak; [reflexivity|assumption]);
      pose proof (process_class_payment_settles b ph w0 Hw0) as (Hid & Hk1 & Hk2);
      destruct (process_class_payment E b ph w0) as [[w2 b2] [res|]]
  end; cbn [fst snd] in *.
  - destruct (pay_success res) eqn:Hres.
    + specialize (Hk2 res eq_refl Hres). destruct res; assumption.
    + cbn [fst]. apply save_Forall_over; [|lifecycle].
      cbn [id set_status set_payment_status set_cancelled_at set_notes].
      rewrite Hid. exact Hk1.
  - cbn. assumption.
Qed.

Lemma payment_pending_view_lifecycle (u i : Z) (w : World) :
  Forall lifecycle_state (bookings w) ->
  Forall lifecycle_state (bookings (fst (payment_pending_view u i w))).
Proof.
  intros Hw. unfold payment_pending_view, mark_expired.
  destruct (get_own_booking u i w) as [b|]; [|assumption].
  repeat (split_match; cbn [fst]; try assumption);
    cbn; try assumption; (apply save_Forall; [assumption|lifecycle]).
Qed.

Lemma check_payment_status_lifecycle (u i : Z) (w : World) :
  Forall lifecycle_state (bookings w) ->
  Forall lifecycle_state (bookings (fst (check_payment_status E u i w))).
Proof.
  intros Hw. unfold check_payment_status, confirm_payment, mark_expired.
  destruct (get_own_booking u i w) as [b|] eqn:Hb; [|assumption].
  repeat (split_match; cbn [fst]; try assumption).
  all: try match goal with
    | H : query_transaction E ?t ?w0 = (?w1, _) |- _ =>
        pose proof (query_transaction_same_tables E t w0) as (Hq & _);
        rewrite H in Hq; cbn [fst] in Hq
    end.
  all: cbn; try (rewrite Hq; assumption); try assumption.
  all: apply save_Forall; [try rewrite Hq; assumption|lifecycle].
Qed.

Lemma process_callback_lifecycle (cb : StkCallback) (w : World) :
  Forall lifecycle_state (bookings w) ->
  Forall lifecycle_state (bookings (process_callback E cb w)).
Proof.
  intros Hw. unfold process_callback, confirm_payment.
  destruct (negb _); [assumption|].
  destruct (bookings_with_transaction_id _ w) as [|b [|]] eqn:Hf;
    try assumption.
  destruct (py_eqb _ _).
  - match goal with
    | |- context [send_booking_confirmation_email_sync E ?i ?w0] =>
        pose proof (send_booking_confirmation_email_sync_flags E i w0) as Hm;
        assert (Forall lifecycle_state (bookings w0)) as Hw0
          by (cbn; apply save_Forall; [assumption|lifecycle]);
        destruct (send_booking_confirmation_email_sync E i w0) as [w1 [[]|]]
    end; cbn [fst] in Hm.
    + eapply flags_only_Forall;
        [|apply send_payment_confirmation_email_sync_flags|].
      * intros b0 Hb0; exact Hb0.
      * eapply flags_only_Forall; [|exact Hm|exact Hw0]. intros b0 Hb0; exact Hb0.
    + eapply flags_only_Forall; [|exact Hm|exact Hw0]. intros b0 Hb0; exact Hb0.
  - eapply flags_only_Forall; [|apply send_payment_failed_email_sync_flags|].
    + intros; assumption.
    + cbn. apply save_Forall; [assumption|lifecycle].
Qed.

Lemma cancel_booking_view_lifecycle (u i : Z) (w : World) :
  Forall lifecycle_state (bookings w) ->
  Forall lifecycle_state (bookings (fst (cancel_booking_view u i w))).
Proof.
  intros Hw. unfold cancel_booking_view, cancel_booking.
  destruct (get_own_booking u i w) as [b|] eqn:Hb; [|assumption].
  apply get_own_booking_In in Hb. destruct Hb as (Hin & _ & _).
  assert (lifecycle_state b) as Hk by (rewrite Forall_forall in Hw; auto).
  destruct (negb _) eqn:Hact; [assumption|]. cbn.
  destruct (PaymentStatus_eqb (payment_status b) Paid) eqn:Hp; cbn.
  - apply save_Forall_over; [|lifecycle].
    cbn. apply save_Forall_weak; [reflexivity|assumption].
  - apply save_Forall; [assumption|].
    unfold lifecycle_state in *; cbn.
    destruct (status b), (payment_status b); cbn in *;
      try discriminate; tauto.
Qed.

Lemma step_lifecycle (ev : Event) (w : World) :
  Forall lifecycle_state (bookings w) ->
  Forall lifecycle_state (bookings (step E ev w)).
Proof.
  destruct ev; cbn [step].
  - intros H. exact H.
  - apply BookingCreateView_post_lifecycle.
  - apply payment_pending_view_lifecycle.
  - apply check_payment_status_lifecycle.
  - apply process_callback_lifecycle.
  - apply cancel_booking_view_lifecycle.
Qed.

Lemma reachable_lifecycle (w : World) :
  reachable E w -> Forall lifecycle_state (bookings w).
Proof.
  induction 1 as [w Hb _|w ev _ IH].
  - rewrite Hb. constructor.
  - apply step_lifecycle. assumption.
Qed.

End Lifecycle.

(** X8: in every state the booking operations reach, a stored booking is
    in one of six states: Pending with payment Pending, Confirmed and Paid,
    Cancelled with payment Failed, Refunded or Pending, or Expired and
    Failed. So no handler leaves a row Unpaid or Completed, an Expired row
    is always Failed, and a row that awaits payment always carries the
    deadline [expires_at]. *)
Theorem stored_bookings_are_in_a_lifecycle_state (E : Env) (w : World)
    (b : Booking) :
  reachable E w ->
  In b (bookings w) ->
  In (status b, payment_status b)
    [ (Pending, PaymentPending); (Confirmed, Paid); (Cancelled, Failed);
      (Cancelled, Refunded); (Cancelled, PaymentPending); (Expired, Failed) ]
  /\ (status b = Pending -> expires_at b <> None)
  /\ (status b = Expired -> payment_status b = Failed).
Proof.
  intros Hr Hin. apply reachable_lifecycle in Hr.
  rewrite Forall_forall in Hr. specialize (Hr b Hin).
  unfold lifecycle_state in Hr.
  destruct (status b), (payment_status b); try contradiction;
    cbn; repeat split; try tauto; try discriminate; try (intros _; exact Hr).
Qed.

Lemma stored_bookings_are_in_a_lifecycle_state_witness :
  reachable Scenario.accepting Scenario.awaiting_payment /\
  In Scenario.pending_booking (bookings Scenario.awaiting_payment) /\
  (In (status Scenario.pending_booking, payment_status Scenario.pending_booking)
     [ (Pending, PaymentPending); (Confirmed, Paid); (Cancelled, Failed);
       (Cancelled, Refunded); (Cancelled, PaymentPending); (Expired, Failed) ]
   /\ (status Scenario.pending_booking = Pending ->
       expires_at Scenario.pending_booking <> None)
   /\ (status Scenario.pending_booking = Expired ->
       payment_status Scenario.pending_booking = Failed)).
Proof.
  assert (reachable Scenario.accepting Scenario.awaiting_payment) as Hr.
  { change Scenario.awaiting_payment with
      (run Scenario.accepting [Scenario.book_monthly] Scenario.empty_world).
    apply run_reachable. apply reachable_fresh; reflexivity. }
  assert (In Scenario.pending_booking (bookings Scenario.awaiting_payment))
    as Hin by (left; reflexivity).
  split; [exact Hr|]. split; [exact Hin|].
  exact (stored_bookings_are_in_a_lifecycle_state Scenario.accepting
           Scenario.awaiting_payment Scenario.pending_booking Hr Hin).
Defined.

(** ** The page "my bookings" *)

Lemma insert_newest_first_In (b x : Booking) (l : list Booking) :
  In x (insert_newest_first b l) <-> x = b \/ In x l.
Proof.
  induction l as [|y l IH]; cbn.
  - intuition congruence.
  - destruct (booked_at y <? booked_at b); cbn; [intuition congruence|].
    rewrite IH. intuition congruence.
Qed.

Lemma newest_first_In (x : Booking) (l : list Booking) :
  In x (newest_first l) <-> In x l.
Proof.
  unfold newest_first. induction l as [|y l IH]; cbn; [tauto|].
  rewrite insert_newest_first_In, IH. intuition congruence.
Qed.

Lemma Status_eqb_eq (a b : Status) : Status_eqb a b = true <-> a = b.
Proof. destruct a, b; cbn; split; congruence. Qed.

Lemma PaymentStatus_eqb_eq (a b : PaymentStatus) :
  PaymentStatus_eqb a b = true <-> a = b.
Proof. destruct a, b; cbn; split; congruence. Qed.

(** X9: in every state the booking operations reach, [my_bookings_view]
    shows each booking of the user under exactly one of its three headings:
    a Confirmed booking under the active ones, a Pending booking under the
    pending ones, a Cancelled or Expired booking under the past ones; and it
    lists no booking of another user. *)
Theorem my_bookings_headings (E : Env) (w : World) (request_user : Z)
    (b : Booking) :
  reachable E w ->
  In b (bookings w) ->
  user b = request_user ->
  let page := my_bookings_view request_user w in
  In b (mb_bookings page) /\
  (In b (active_bookings page) <-> status b = Confirmed) /\
  (In b (pending_bookings page) <-> status b = Pending) /\
  (In b (past_bookings page) <-> status b = Cancelled \/ status b = Expired) /\
  (In b (active_bookings page) \/ In b (pending_bookings page)
   \/ In b (past_bookings page)) /\
  (forall x, In x (mb_bookings page) -> In x (bookings w) /\ user x = request_user).
Proof.
  intros Hr Hin Hu page.
  apply reachable_lifecycle in Hr. rewrite Forall_forall in Hr.
  specialize (Hr b Hin). unfold lifecycle_state in Hr.
  assert (In b (mb_bookings page)) as Hlisted.
  { unfold page, my_bookings_view; cbn [mb_bookings].
    apply newest_first_In, filter_In. split; [assumption|].
    apply Z.eqb_eq. assumption. }
  assert ((In b (active_bookings page) <-> status b = Confirmed) /\
          (In b (pending_bookings page) <-> status b = Pending) /\
          (In b (past_bookings page)
           <-> status b = Cancelled \/ status b = Expired)) as (Ha & Hp & Hq).
  { unfold page, my_bookings_view in *;
      cbn [mb_bookings active_bookings pending_bookings past_bookings] in *.
    rewrite !filter_In.
    destruct (status b), (payment_status b); try contradiction; cbn;
      intuition (discriminate || congruence). }
  split; [exact Hlisted|]. split; [exact Ha|]. split; [exact Hp|].
  split; [exact Hq|]. split.
  - rewrite Ha, Hp, Hq.
    destruct (status b), (payment_status b); try contradiction; tauto.
  - intros x Hx. unfold page, my_bookings_view in Hx; cbn [mb_bookings] in Hx.
    apply newest_first_In, filter_In in Hx. destruct Hx as [Hx Hux].
    apply Z.eqb_eq in Hux. auto.
Qed.

Lemma my_bookings_headings_witness :
  reachable Scenario.accepting Scenario.awaiting_payment /\
  In Scenario.pending_booking (bookings Scenario.awaiting_payment) /\
  user Scenario.pending_booking = 7 /\
  let page := my_bookings_view 7 Scenario.awaiting_payment in
  In Scenario.pending_booking (mb_bookings page) /\
  (In Scenario.pending_booking (active_bookings page)
   <-> status Scenario.pending_booking = Confirmed) /\
  (In Scenario.pending_booking (pending_bookings page)
   <-> status Scenario.pending_booking = Pending) /\
  (In Scenario.pending_booking (past_bookings page)
   <-> status Scenario.pending_booking = Cancelled
       \/ status Scenario.pending_booking = Expired) /\
  (In Scenario.pending_booking (active_bookings page)
   \/ In Scenario.pending_booking (pending_bookings page)
   \/ In Scenario.pending_booking (past_bookings page)) /\
  (forall x, In x (mb_bookings page) ->
             In x (bookings Scenario.awaiting_payment) /\ user x = 7).
Proof.
  assert (reachable Scenario.accepting Scenario.awaiting_payment) as Hr.
  { change Scenario.awaiting_payment with
      (run Scenario.accepting [Scenario.book_monthly] Scenario.empty_world).
    apply run_reachable. apply reachable_fresh; reflexivity. }
  assert (In Scenario.pending_booking (bookings Scenario.awaiting_payment))
    as Hin by (left; reflexivity).
  split; [exact Hr|]. split; [exact Hin|]. split; [reflexivity|].
  exact (my_bookings_headings Scenario.accepting Scenario.awaiting_payment 7
           Scenario.pending_booking Hr Hin eq_refl).
Defined.

(** ** Who sends push requests *)

Lemma pushes_tokens (k : nat) : pushes (repeat OAuthGenerate k) = 0%nat.
Proof. induction k; [reflexivity|exact IHk]. Qed.

Lemma pushes_repeat (phone : string) (amount : Z) (ref desc : string) (j : nat) :
  pushes (repeat (StkPushProcess phone amount ref desc) j) = j.
Proof.
  induction j as [|j IH]; [reflexivity|].
  unfold pushes in *. cbn. rewrite IH. reflexivity.
Qed.

Section PushBudget.
Variable E : Env.

Lemma get_access_token_pushes (w : World) :
  pushes (sent (fst (get_access_token E w))) = pushes (sent w).
Proof.
  destruct (get_access_token_sent E w) as (k & _ & ->).
  rewrite pushes_app, pushes_tokens. lia.
Qed.

Lemma stk_push_pushes (phone_number : string) (amount : Z) (ref desc : string)
    (booking_id : Z) (w : World) :
  (pushes (sent (fst (stk_push E phone_number amount ref desc booking_id w)))
   <= pushes (sent w) + 3)%nat.
Proof.
  unfold stk_push.
  destruct (validate_phone_number phone_number) as [phone|]; cbn [fst]; [|lia].
  destruct (int_of_amount amount <? 1); cbn [fst]; [lia|].
  pose proof (get_access_token_pushes w) as Ht.
  destruct (get_access_token E w) as [w1 [tok|]]; cbn [fst] in *; [|lia].
  destruct (negb (cache_truthy tok)); cbn [fst]; [lia|].
  destruct (stk_attempts_sent E max_retries 0 phone (int_of_amount amount)
              ref desc booking_id w1) as (j & Hj & Hs).
  unfold max_retries in Hj.
  destruct (stk_attempts E max_retries 0 phone (int_of_amount amount) ref desc
              booking_id w1) as [w2 [result|]]; cbn [fst] in *;
    rewrite Hs, pushes_app, pushes_repeat; lia.
Qed.

Lemma query_transaction_pushes (tid : string) (w : World) :
  pushes (sent (fst (query_transaction E tid w))) = pushes (sent w).
Proof.
  unfold query_transaction.
  destruct (cache_get _ w); [|reflexivity].
  destruct (negb _); [reflexivity|].
  pose proof (get_access_token_pushes w) as Ht.
  destruct (get_access_token E w) as [w1 [tok|]]; cbn [fst] in *;
    [|assumption].
  destruct (negb (cache_truthy tok)); [assumption|].
  unfold http.
  destruct (reply E (sent w1) _) as [| |sc body]; cbn [fst];
    try destruct (is_http_error sc); cbn [fst sent with_clock with_sent];
    rewrite pushes_app, Ht; change (pushes [StkPushQuery tid]) with 0%nat; lia.
Qed.

Lemma flags_only_sent (i : Z) (set_flag : Booking -> Booking) (w w' : World) :
  flags_only i set_flag w w' -> sent w' = sent w.
Proof. intros (_ & H & _). exact H. Qed.

Lemma process_class_payment_pushes (booking : Booking) (phone : string)
    (w : World) :
  (pushes (sent (fst (fst (process_class_payment E booking phone w))))
   <= pushes (sent w) + 3)%nat.
Proof.
  unfold process_class_payment.
  destruct (BookingType_eqb _ _).
  - match goal with
    | |- context [send_booking_confirmation_email_sync E ?i ?w0] =>
        pose proof (flags_only_sent _ _ _ _
                      (send_booking_confirmation_email_sync_flags E i w0)) as Hm;
        destruct (send_booking_confirmation_email_sync E i w0) as [w1 o]
    end.
    cbn [fst] in *. rewrite Hm. cbn. rewrite save_sent. lia.
  - destruct (price (karate_class booking) <=? 0); cbn [fst]; [lia|].
    match goal with
    | |- context [stk_push E ?p ?a ?r ?d ?i ?w0] =>
        pose proof (stk_push_pushes p a r d i w0) as Hs;
        destruct (stk_push E p a r d i w0) as [w1 [[c m msg ph|code msg]|]]
    end; cbn [fst] in *; cbn in Hs; rewrite save_sent in Hs; cbn;
      rewrite ?save_sent; exact Hs.
Qed.

Lemma step_pushes (ev : Event) (w : World) :
  (pushes (sent (step E ev w))
   <= pushes (sent w) + 3 * creations [ev])%nat.
Proof.
  destruct ev as [n|u k s t p r|u i|u i|cb|u i]; cbn [step creations filter length].
  - cbn. lia.
  - change (creations [CreateBooking u k s t p r]) with 1%nat.
    unfold BookingCreateView_post.
    destruct (clean_phone_number p) as [phone|]; cbn [fst]; [|lia].
    repeat (split_match; cbn [fst]; [lia|]).
    split_match; cbn [fst].
    { unfold waiting_list_get_or_create. split_match; cbn; lia. }
    split_match; cbn [fst]; [lia|].
    match goal with
    | |- context [process_class_payment E ?b ?ph ?w0] =>
        pose proof (process_class_payment_pushes b ph w0) as Hp;
        destruct (process_class_payment E b ph w0) as [[w2 b2] [res|]]
    end; cbn [fst] in *; cbn in Hp; rewrite save_sent in Hp.
    + destruct (pay_success res); [destruct res|]; cbn [fst];
        rewrite ?save_sent; lia.
    + cbn. lia.
  - unfold payment_pending_view, mark_expired.
    destruct (get_own_booking u i w) as [b|]; cbn [fst]; [|lia].
    repeat (split_match; cbn [fst]); rewrite ?save_sent; lia.
  - unfold check_payment_status, confirm_payment, mark_expired.
    destruct (get_own_booking u i w) as [b|]; cbn [fst]; [|lia].
    repeat (split_match; cbn [fst]); rewrite ?save_sent; try lia.
    all: match goal with
         | H : query_transaction E ?t ?w0 = (?w1, _) |- _ =>
             pose proof (query_transaction_pushes t w0) as Hq;
             rewrite H in Hq; cbn [fst] in Hq
         end.
    all: cbn; rewrite ?save_sent; lia.
  - unfold process_callback, confirm_payment.
    destruct (negb _); [lia|].
    destruct (bookings_with_transaction_id _ w) as [|b [|]]; try lia.
    destruct (py_eqb _ _).
    + match goal with
      | |- context [send_booking_confirmation_email_sync E ?i ?w0] =>
          pose proof (flags_only_sent _ _ _ _
                        (send_booking_confirmation_email_sync_flags E i w0)) as Hm;
          destruct (send_booking_confirmation_email_sync E i w0) as [w1 [[]|]]
      end; cbn [fst] in Hm.
      * rewrite (flags_only_sent _ _ _ _
                   (send_payment_confirmation_email_sync_flags E _ _ w1)), Hm.
        cbn. rewrite save_sent. cbn. lia.
      * rewrite Hm. cbn. rewrite save_sent. cbn. lia.
    + rewrite (flags_only_sent _ _ _ _
                 (send_payment_failed_email_sync_flags E _ _ _)).
      cbn. rewrite save_sent. cbn. lia.
  - unfold cancel_booking_view, cancel_booking.
    destruct (get_own_booking u i w) as [b|]; cbn [fst]; [|lia].
    destruct (negb _); cbn [fst]; [lia|].
    destruct (PaymentStatus_eqb _ _); cbn; rewrite ?save_sent; cbn;
      rewrite ?save_sent; lia.
Qed.

End PushBudget.

Lemma creations_cons (ev : Event) (evs : list Event) :
  creations (ev :: evs) = (creations [ev] + creations evs)%nat.
Proof. unfold creations. cbn. destruct ev; reflexivity. Qed.

(** X10: only the booking form makes the provider prompt a phone: over any
    sequence of events, the number of push requests sent grows by at most
    three per booking request, and polls, callbacks, cancellations, page
    views and the passing of time send none. *)
Theorem pushes_come_from_booking_requests (E : Env) (evs : list Event)
    (w : World) :
  (pushes (sent (run E evs w)) <= pushes (sent w) + 3 * creations evs)%nat.
Proof.
  revert w. induction evs as [|ev evs IH]; intros w.
  - cbn. lia.
  - cbn [run fold_left]. fold (run E evs (step E ev w)).
    rewrite creations_cons.
    pose proof (IH (step E ev w)). pose proof (step_pushes E ev w). lia.
Qed.

(** ** The audit log only grows *)

Lemma appended_refl (w : World) : appended w w.
Proof.
  split; [lia|]. exists []. rewrite app_nil_r. split; [reflexivity|constructor].
Qed.

Lemma appended_trans (w1 w2 w3 : World) :
  appended w1 w2 -> appended w2 w3 -> appended w1 w3.
Proof.
  intros (Hc & l & Hl & Hall) (Hc' & l' & Hl' & Hall').
  split; [lia|]. exists (l ++ l'). split.
  - rewrite Hl', Hl, app_assoc. reflexivity.
  - apply Forall_app. split.
    + eapply Forall_impl; [|exact Hall]. cbn. intros; lia.
    + eapply Forall_impl; [|exact Hall']. cbn. intros; lia.
Qed.

Lemma appended_same_logs (w w' : World) :
  clock w <= clock w' -> payment_logs w' = payment_logs w -> appended w w'.
Proof.
  intros Hc Hl. split; [exact Hc|]. exists []. rewrite app_nil_r.
  split; [exact Hl|constructor].
Qed.

Lemma appended_save (b : Booking) (w : World) : appended w (save b w).
Proof.
  apply appended_same_logs; [rewrite save_clock; lia|apply save_payment_logs].
Qed.

Lemma appended_log (b : Booking) (t : option string) (a : string)
    (s : option string) (w : World) :
  appended w (PaymentLog_create b t a s w).
Proof.
  split; [cbn; lia|]. eexists. split; [reflexivity|].
  repeat constructor; cbn; lia.
Qed.

Lemma appended_flags (i : Z) (set_flag : Booking -> Booking) (w w' : World) :
  flags_only i set_flag w w' -> appended w w'.
Proof.
  intros (Hl & _ & Hc & _). apply appended_same_logs; [lia|exact Hl].
Qed.

Section ClockFacts.
Variable E : Env.

Lemma token_attempts_clock (fuel attempt : nat) (w : World) :
  clock w <= clock (fst (token_attempts E fuel attempt w)).
Proof.
  revert attempt w. induction fuel as [|fuel IH]; intros attempt w.
  - cbn. lia.
  - cbn [token_attempts]. unfold http.
    assert (forall w0 : World, clock w <= clock w0 ->
              clock w <= clock (fst (if Nat.eqb attempt (max_retries - 1)
                                     then (w0, Returned None)
                                     else token_attempts E fuel (S attempt)
                                            (sleep 2 w0)))) as Hretry.
    { intros w0 Hw0. destruct (Nat.eqb attempt (max_retries - 1)); [exact Hw0|].
      pose proof (IH (S attempt) (sleep 2 w0)) as H. cbn in H. lia. }
    destruct (reply E (sent w) OAuthGenerate) as [| |sc body];
      try (apply Hretry; cbn; lia).
    destruct (is_http_error sc); [apply Hretry; cbn; lia|].
    destruct (mem body "access_token"); cbn; lia.
Qed.

Lemma get_access_token_clock (w : World) :
  clock w <= clock (fst (get_access_token E w)).
Proof.
  unfold get_access_token. destruct (cache_truthy _); [cbn; lia|].
  apply token_attempts_clock.
Qed.

Lemma stk_attempts_clock (fuel attempt : nat) (phone : string) (amount_int : Z)
    (ref desc : string) (booking_id : Z) (w : World) :
  clock w
  <= clock (fst (stk_attempts E fuel attempt phone amount_int ref desc
                   booking_id w)).
Proof.
  revert attempt w. induction fuel as [|fuel IH]; intros attempt w.
  - cbn. lia.
  - cbn [stk_attempts]. unfold http.
    assert (forall (w0 : World) (last : StkResult), clock w <= clock w0 ->
              clock w <= clock (fst (if Nat.ltb attempt (max_retries - 1)
                                     then stk_attempts E fuel (S attempt) phone
                                            amount_int ref desc booking_id
                                            (sleep 2 w0)
                                     else (w0, Returned (Some last)))))
      as Hretry.
    { intros w0 last Hw0. destruct (Nat.ltb attempt (max_retries - 1));
        [|exact Hw0].
      pose proof (IH (S attempt) (sleep 2 w0)) as H. cbn in H. lia. }
    destruct (reply E (sent w) _) as [| |sc body];
      try (apply Hretry; cbn; lia).
    destruct (sc =? 200); [|apply Hretry; cbn; lia].
    destruct (py_eqb _ _); [cbn; lia|].
    destruct (get body "ResponseDescription" _); cbn; lia.
Qed.

Lemma stk_push_appended (phone_number : string) (amount : Z)
    (ref desc : string) (booking_id : Z) (w : World) :
  appended w (fst (stk_push E phone_number amount ref desc booking_id w)).
Proof.
  apply appended_same_logs;
    [|apply (stk_push_same_tables E phone_number amount ref desc booking_id w)].
  unfold stk_push.
  destruct (validate_phone_number phone_number) as [phone|]; cbn [fst]; [|lia].
  destruct (int_of_amount amount <? 1); cbn [fst]; [lia|].
  pose proof (get_access_token_clock w) as Ht.
  destruct (get_access_token E w) as [w1 [tok|]]; cbn [fst] in *; [|lia].
  destruct (negb (cache_truthy tok)); cbn [fst]; [lia|].
  pose proof (stk_attempts_clock max_retries 0 phone (int_of_amount amount)
                ref desc booking_id w1) as Hs.
  destruct (stk_attempts E max_retries 0 phone (int_of_amount amount) ref desc
              booking_id w1) as [w2 [result|]]; cbn [fst] in *; lia.
Qed.

Lemma query_transaction_appended (tid : string) (w : World) :
  appended w (fst (query_transaction E tid w)).
Proof.
  apply appended_same_logs; [|apply (query_transaction_same_tables E tid w)].
  unfold query_transaction.
  destruct (cache_get _ w); cbn [fst]; [|lia].
  destruct (negb _); cbn [fst]; [lia|].
  pose proof (get_access_token_clock w) as Ht.
  destruct (get_access_token E w) as [w1 [tok|]]; cbn [fst] in *; [|lia].
  destruct (negb (cache_truthy tok)); cbn [fst]; [lia|].
  unfold http.
  destruct (reply E (sent w1) _) as [| |sc body]; cbn [fst];
    try destruct (is_http_error sc); cbn; lia.
Qed.

(** Chains [appended] through the saves and log entries of a handler. *)
Ltac appends :=
  lazymatch goal with
  | |- appended ?w ?w => apply appended_refl
  | |- appended ?w (PaymentLog_create _ _ _ _ ?w1) =>
      apply (appended_trans w w1); [appends|apply appended_log]
  | |- appended ?w (save _ ?w1) =>
      apply (appended_trans w w1); [appends|apply appended_save]
  | H : appended ?w1 ?w2 |- appended ?w ?w2 =>
      apply (appended_trans w w1); [appends|exact H]
  end.

Lemma process_class_payment_appended (booking : Booking) (phone : string)
    (w : World) :
  appended w (fst (fst (process_class_payment E booking phone w))).
Proof.
  unfold process_class_payment.
  destruct (BookingType_eqb _ _).
  - match goal with
    | |- context [send_booking_confirmation_email_sync E ?i ?w0] =>
        pose proof (appended_flags _ _ _ _
                      (send_booking_confirmation_email_sync_flags E i w0)) as Hm;
        destruct (send_booking_confirmation_email_sync E i w0) as [w1 o]
    end.
    cbn [fst] in *. appends.
  - destruct (price (karate_class booking) <=? 0); cbn [fst];
      [apply appended_refl|].
    match goal with
    | |- context [stk_push E ?p ?a ?r ?d ?i ?w0] =>
        pose proof (stk_push_appended p a r d i w0) as Hs;
        destruct (stk_push E p a r d i w0) as [w1 [[c m msg ph|code msg]|]]
    end; cbn [fst] in *; appends.
Qed.

Lemma step_appended (ev : Event) (w : World) : appended w (step E ev w).
Proof.
  destruct ev as [n|u k s t p r|u i|u i|cb|u i]; cbn [step].
  - apply appended_same_logs; cbn; [lia|reflexivity].
  - unfold BookingCreateView_post.
    destruct (clean_phone_number p) as [phone|]; cbn [fst];
      [|apply appended_refl].
    repeat (split_match; cbn [fst]; [apply appended_refl|]).
    split_match; cbn [fst].
    { unfold waiting_list_get_or_create.
      split_match; apply appended_same_logs; cbn; (lia || reflexivity). }
    split_match; cbn [fst]; [apply appended_refl|].
    match goal with
    | |- context [process_class_payment E ?b ?ph ?w0] =>
        pose proof (process_class_payment_appended b ph w0) as Hp;
        pose proof (process_class_payment_returns E b ph w0) as Hret;
        destruct (process_class_payment E b ph w0) as [[w2 b2] [res|]]
    end; cbn [fst snd] in *; [|contradiction Hret; reflexivity].
    destruct (pay_success res); [destruct res|]; cbn [fst]; appends.
  - unfold payment_pending_view, mark_expired.
    destruct (get_own_booking u i w) as [b|]; cbn [fst]; [|apply appended_refl].
    repeat (split_match; cbn [fst]); appends.
  - unfold check_payment_status, confirm_payment, mark_expired.
    destruct (get_own_booking u i w) as [b|]; cbn [fst]; [|apply appended_refl].
    repeat (split_match; cbn [fst]).
    all: try match goal with
         | H : query_transaction E ?t ?w0 = (?w1, _) |- _ =>
             pose proof (query_transaction_appended t w0) as Hq;
             rewrite H in Hq; cbn [fst] in Hq
         end.
    all: appends.
  - unfold process_callback, confirm_payment.
    destruct (negb _); [apply appended_refl|].
    destruct (bookings_with_transaction_id _ w) as [|b [|]];
      try apply appended_refl.
    destruct (py_eqb _ _).
    + match goal with
      | |- context [send_booking_confirmation_email_sync E ?i ?w0] =>
          pose proof (appended_flags _ _ _ _
                        (send_booking_confirmation_email_sync_flags E i w0)) as Hm;
          destruct (send_booking_confirmation_email_sync E i w0) as [w1 [[]|]]
      end; cbn [fst] in Hm.
      * pose proof (appended_flags _ _ _ _
                      (send_payment_confirmation_email_sync_flags E
                         (id b) (item_value (CallbackMetadata cb)
                                   "MpesaReceiptNumber" (PStr "N/A")) w1)) as Hm2.
        cbn [id set_payment_status set_status set_transaction_id
               set_mpesa_receipt_number set_payment_date set_confirmed_at
               set_expires_at] in *.
        appends.
      * appends.
    + match goal with
      | |- appended _ (fst (send_payment_failed_email_sync E ?i ?r ?w0)) =>
          pose proof (appended_flags _ _ _ _
                        (send_payment_failed_email_sync_flags E i r w0)) as Hm
      end.
      appends.
  - unfold cancel_booking_view, cancel_booking.
    destruct (get_own_booking u i w) as [b|]; cbn [fst]; [|apply appended_refl].
    destruct (negb _); cbn [fst]; [apply appended_refl|].
    cbn zeta. destruct (PaymentStatus_eqb _ _); cbn [fst]; appends.
Qed.

Lemma run_appended (evs : list Event) (w : World) : appended w (run E evs w).
Proof.
  revert w. induction evs as [|ev evs IH]; intros w.
  - apply appended_refl.
  - cbn [run fold_left]. fold (run E evs (step E ev w)).
    eapply appended_trans; [apply step_appended|apply IH].
Qed.

End ClockFacts.

(** X11: the audit log is append-only and in step with the clock. Over any
    sequence of events no handler removes or rewrites an entry: the log
    afterwards is the log before followed by new entries, each stamped
    with a time between the start and the end of the sequence; and the
    clock never goes back. *)
Theorem audit_log_is_append_only (E : Env) (evs : list Event) (w : World) :
  clock w <= clock (run E evs w) /\
  exists newer,
    payment_logs (run E evs w) = payment_logs w ++ newer /\
    Forall (fun l => clock w <= log_created_at l <= clock (run E evs w)) newer.
Proof. exact (run_appended E evs w). Qed.

(** ** Primary keys and the rows behind them *)

Lemma PaymentLog_create_bookings (b : Booking) (t : option string)
    (a : string) (s : option string) (w : World) :
  bookings (PaymentLog_create b t a s w) = bookings w.
Proof. reflexivity. Qed.

Lemma save_ids (b : Booking) (w : World) :
  map id (bookings (save b w))
  = if existsb (fun x => id x =? id b) (bookings w)
    then map id (bookings w)
    else map id (bookings w) ++ [id b].
Proof.
  unfold save. destruct (existsb _ _); cbn.
  - rewrite map_map. apply map_ext. intros x.
    destruct (Z.eqb_spec (id x) (id b)); congruence.
  - rewrite map_app. reflexivity.
Qed.

Lemma existsb_id_In (i : Z) (l : list Booking) :
  existsb (fun x => id x =? i) l = true <-> In i (map id l).
Proof.
  rewrite existsb_exists, in_map_iff. split.
  - intros (x & Hin & Hx). apply Z.eqb_eq in Hx. eauto.
  - intros (x & Hx & Hin). exists x. split; [assumption|].
    apply Z.eqb_eq. assumption.
Qed.

Lemma find_booking_existsb (i : Z) (b : Booking) (w : World) :
  find_booking i w = Some b ->
  existsb (fun x => id x =? i) (bookings w) = true.
Proof.
  intros H. apply find_booking_In in H. destruct H as [Hin Hid].
  apply existsb_exists. exists b. split; [assumption|].
  apply Z.eqb_eq. assumption.
Qed.

Lemma save_ids_known (b : Booking) (w : World) :
  In (id b) (map id (bookings w)) ->
  map id (bookings (save b w)) = map id (bookings w).
Proof.
  intros H. rewrite save_ids. apply existsb_id_In in H. rewrite H. reflexivity.
Qed.

Lemma fresh_id_above (w : World) (i : Z) :
  In i (map id (bookings w)) -> i < fresh_id w.
Proof.
  unfold fresh_id. induction (map id (bookings w)) as [|j l IH];
    cbn [In fold_right].
  - contradiction.
  - intros [->|H]; [lia|]. specialize (IH H). lia.
Qed.

Lemma fresh_id_is_new (w : World) : ~ In (fresh_id w) (map id (bookings w)).
Proof. intros H. apply fresh_id_above in H. lia. Qed.

Lemma flags_only_ids (i : Z) (set_flag : Booking -> Booking) (w w' : World) :
  (forall b, id (set_flag b) = id b) ->
  flags_only i set_flag w w' ->
  map id (bookings w') = map id (bookings w).
Proof.
  intros Hid (_ & _ & _ & _ & _ & [->|(b & Hf & ->)]); [reflexivity|].
  apply save_ids_known. rewrite Hid.
  apply find_booking_In in Hf. destruct Hf as [Hin <-].
  apply in_map. assumption.
Qed.

Section PrimaryKeys.
Variable E : Env.

Lemma booking_mail_ids (i : Z) (w : World) :
  map id (bookings (fst (send_booking_confirmation_email_sync E i w)))
  = map id (bookings w).
Proof.
  apply (flags_only_ids i (set_confirmation_email_sent true));
    [reflexivity|apply send_booking_confirmation_email_sync_flags].
Qed.

Lemma payment_mail_ids (i : Z) (r : PyVal) (w : World) :
  map id (bookings (fst (send_payment_confirmation_email_sync E i r w)))
  = map id (bookings w).
Proof.
  apply (flags_only_ids i (set_payment_email_sent true));
    [reflexivity|apply send_payment_confirmation_email_sync_flags].
Qed.

Lemma failed_mail_ids (i : Z) (r : PyVal) (w : World) :
  map id (bookings (fst (send_payment_failed_email_sync E i r w)))
  = map id (bookings w).
Proof.
  apply (flags_only_ids i (fun b => b));
    [reflexivity|apply send_payment_failed_email_sync_flags].
Qed.

(** Rewrites the primary keys of a nest of saves and log entries to those
    of the world it was built on. *)
Ltac ids Hin :=
  repeat first
    [ rewrite PaymentLog_create_bookings
    | rewrite save_ids_known
    | match goal with
      | H : bookings ?w1 = _ |- context [bookings ?w1] => rewrite H
      | H : map id (bookings ?w1) = _ |- context [map id (bookings ?w1)] =>
          rewrite H
      end ];
  first [reflexivity | exact Hin | idtac].

Lemma process_class_payment_ids (booking : Booking) (phone : string)
    (w : World) :
  In (id booking) (map id (bookings w)) ->
  map id (bookings (fst (fst (process_class_payment E booking phone w))))
  = map id (bookings w) /\
  id (snd (fst (process_class_payment E booking phone w))) = id booking.
Proof.
  intros Hin. unfold process_class_payment.
  destruct (BookingType_eqb _ _).
  - match goal with
    | |- context [send_booking_confirmation_email_sync E ?i ?w0] =>
        pose proof (booking_mail_ids i w0) as Hm;
        destruct (send_booking_confirmation_email_sync E i w0) as [w1 o]
    end.
    cbn [fst snd] in *. split; [|reflexivity]. ids Hin.
  - destruct (price (karate_class booking) <=? 0); cbn [fst snd]; [auto|].
    match goal with
    | |- context [stk_push E ?p ?a ?r ?d ?i ?w0] =>
        pose proof (stk_push_same_tables E p a r d i w0) as (Hs & _);
        destruct (stk_push E p a r d i w0) as [w1 [[c m msg ph|code msg]|]]
    end; cbn [fst snd] in *; (split; [|reflexivity]); ids Hin.
Qed.

Lemma get_own_booking_known (u i : Z) (b : Booking) (w : World) :
  get_own_booking u i w = Some b -> In (id b) (map id (bookings w)).
Proof.
  intros H. apply get_own_booking_In in H. destruct H as (Hin & _).
  apply in_map. assumption.
Qed.

(** A handler inserts at most one row, under a primary key that is new,
    and then the audit log holds the entry of its creation. *)
Lemma step_ids (ev : Event) (w : World) :
  map id (bookings (step E ev w)) = map id (bookings w) \/
  (map id (bookings (step E ev w)) = map id (bookings w) ++ [fresh_id w] /\
   In (entry (fresh_id w) None "booking_created" (Some "CREATED") (clock w))
     (payment_logs (step E ev w)) /\
   exists u k s t p r, ev = CreateBooking u k s t p r).
Proof.
  destruct ev as [n|u k s t p r|u i|u i|cb|u i]; cbn [step].
  - left. reflexivity.
  - unfold BookingCreateView_post.
    destruct (clean_phone_number p) as [phone|]; cbn [fst]; [|auto].
    repeat (split_match; cbn [fst]; [left; reflexivity|]).
    split_match; cbn [fst].
    { left. unfold waiting_list_get_or_create. split_match; reflexivity. }
    split_match; cbn [fst]; [left; reflexivity|].
    right.
    lazymatch goal with
    | |- context [process_class_payment E ?b ?ph ?w0] =>
        assert (map id (bookings w0) = map id (bookings w) ++ [fresh_id w])
          as Hnew;
        [|assert (In (id b) (map id (bookings w0))) as Hin
            by (rewrite Hnew; apply in_or_app; right; left; reflexivity);
          assert (In (entry (fresh_id w) None "booking_created"
                        (Some "CREATED") (clock w)) (payment_logs w0)) as Hlog
            by (unfold PaymentLog_create at 1;
                cbn [payment_logs with_payment_logs];
                rewrite save_payment_logs, save_clock;
                apply in_or_app; right; left; reflexivity);
          pose proof (process_class_payment_ids b ph w0 Hin) as [Hp Hid];
          pose proof (process_class_payment_appended E b ph w0)
            as (_ & newer & Hlogs & _);
          pose proof (process_class_payment_returns E b ph w0) as Hret;
          destruct (process_class_payment E b ph w0) as [[w2 b2] [res|]]]
    end.
    { rewrite PaymentLog_create_bookings, save_ids. cbn [id].
      destruct (existsb (fun x => id x =? fresh_id w) (bookings w)) eqn:Hnew;
        [|reflexivity].
      apply existsb_id_In in Hnew. contradiction (fresh_id_is_new w). }
    + cbn [fst snd] in *.
      assert (In (entry (fresh_id w) None "booking_created" (Some "CREATED")
                    (clock w)) (payment_logs w2)) as Hlog2
        by (rewrite Hlogs; apply in_or_app; left; exact Hlog).
      split; [|split].
      * rewrite <- Hnew, <- Hp.
        destruct (pay_success res); [destruct res; reflexivity|].
        cbn [fst]. apply save_ids_known. cbn. rewrite Hid, Hp. exact Hin.
      * destruct (pay_success res); [destruct res; exact Hlog2|].
        cbn [fst]. rewrite save_payment_logs. exact Hlog2.
      * exists u, k, s, t, p, r. reflexivity.
    + contradiction Hret. reflexivity.
  - left. unfold payment_pending_view, mark_expired.
    destruct (get_own_booking u i w) as [b|] eqn:Hb; cbn [fst]; [|reflexivity].
    apply get_own_booking_known in Hb.
    repeat (split_match; cbn [fst]); ids Hb.
  - left. unfold check_payment_status, confirm_payment, mark_expired.
    destruct (get_own_booking u i w) as [b|] eqn:Hb; cbn [fst]; [|reflexivity].
    apply get_own_booking_known in Hb.
    repeat (split_match; cbn [fst]); try reflexivity.
    all: try match goal with
         | H : query_transaction E ?t ?w0 = (?w1, _) |- _ =>
             pose proof (query_transaction_same_tables E t w0) as (Hq & _);
             rewrite H in Hq; cbn [fst] in Hq
         end.
    all: ids Hb.
  - left. unfold process_callback, confirm_payment.
    destruct (negb _); [reflexivity|].
    destruct (bookings_with_transaction_id _ w) as [|b [|]] eqn:Hf;
      try reflexivity.
    apply filter_singleton_In in Hf. destruct Hf as [Hin _].
    apply (in_map id) in Hin.
    destruct (py_eqb _ _).
    + match goal with
      | |- context [send_booking_confirmation_email_sync E ?i ?w0] =>
          pose proof (booking_mail_ids i w0) as Hm;
          destruct (send_booking_confirmation_email_sync E i w0) as [w1 [[]|]]
      end; cbn [fst] in Hm.
      * rewrite payment_mail_ids. ids Hin.
      * ids Hin.
    + rewrite failed_mail_ids. ids Hin.
  - left. unfold cancel_booking_view, cancel_booking.
    destruct (get_own_booking u i w) as [b|] eqn:Hb; cbn [fst]; [|reflexivity].
    apply get_own_booking_known in Hb.
    destruct (negb _); cbn [fst]; [reflexivity|].
    cbn zeta. destruct (PaymentStatus_eqb _ _); cbn [fst]; ids Hb.
Qed.

Lemma reachable_ids_unique (w : World) :
  reachable E w -> NoDup (map id (bookings w)).
Proof.
  induction 1 as [w Hb _|w ev _ IH].
  - rewrite Hb. constructor.
  - destruct (step_ids ev w) as [->|[-> _]]; [assumption|].
    apply NoDup_app; [assumption|repeat constructor; intros []|].
    intros i Hi [<-|[]]. exact (fresh_id_is_new w Hi).
Qed.

End PrimaryKeys.

Lemma rows_kept_refl (w : World) : rows_kept w w.
Proof. intros i b H. eauto. Qed.

Lemma rows_kept_trans (w1 w2 w3 : World) :
  rows_kept w1 w2 -> rows_kept w2 w3 -> rows_kept w1 w3.
Proof.
  intros H12 H23 i b Hb.
  destruct (H12 i b Hb) as (b2 & Hb2 & Hi2).
  destruct (H23 i b2 Hb2) as (b3 & Hb3 & Hi3).
  exists b3. split; [assumption|congruence].
Qed.

Lemma find_booking_tables (i : Z) (w w' : World) :
  bookings w' = bookings w -> find_booking i w' = find_booking i w.
Proof. intros H. unfold find_booking. rewrite H. reflexivity. Qed.

Lemma rows_kept_tables (w w' : World) :
  bookings w' = bookings w -> rows_kept w w'.
Proof.
  intros H i b Hb. exists b. split; [|reflexivity].
  rewrite (find_booking_tables i w w' H). exact Hb.
Qed.

Lemma find_booking_save_at (i : Z) (b : Booking) (w : World) :
  id b = i -> find_booking i (save b w) = Some b.
Proof. intros <-. apply find_booking_save_same. Qed.

(** Saving an instance keeps the rows when the row it overwrites, if there
    is one, is for the same booking. *)
Lemma rows_kept_save (b : Booking) (w : World) :
  (forall b0, find_booking (id b) w = Some b0 -> identity b = identity b0) ->
  rows_kept w (save b w).
Proof.
  intros H i x Hx. rewrite find_booking_save.
  destruct (Z.eqb_spec i (id b)) as [->|_].
  - exists b. split; [reflexivity|]. apply H. exact Hx.
  - exists x. split; [exact Hx|reflexivity].
Qed.

Lemma rows_kept_flags (i : Z) (set_flag : Booking -> Booking) (w w' : World) :
  (forall b, identity (set_flag b) = identity b) ->
  flags_only i set_flag w w' -> rows_kept w w'.
Proof.
  intros Hid (_ & _ & _ & _ & _ & [Hsame|(b & Hf & Hb)]).
  - apply rows_kept_tables. exact Hsame.
  - apply (rows_kept_trans w (save (set_flag b) w));
      [|apply rows_kept_tables; exact Hb].
    apply rows_kept_save. intros b0 Hb0.
    assert (id (set_flag b) = id b) as Hi
      by (pose proof (Hid b) as Hk; unfold identity in Hk; congruence).
    pose proof (find_booking_In _ _ _ Hf) as [_ Hib].
    rewrite Hi, Hib, Hf in Hb0. injection Hb0 as <-. apply Hid.
Qed.

Section Rows.
Variable E : Env.

(** Solves the side condition of [rows_kept_save] for an instance that is
    the loaded row [b] with columns assigned. *)
Ltac same_row Hfind :=
  let b0 := fresh "b0" in
  let Hf := fresh "Hf" in
  intros b0 Hf;
  repeat first
    [ rewrite find_booking_save_at in Hf by reflexivity
    | match type of Hf with
      | find_booking ?i (PaymentLog_create ?b ?t ?a ?s ?w0) = _ =>
          change (find_booking i (PaymentLog_create b t a s w0))
            with (find_booking i w0) in Hf
      | find_booking ?i ?w1 = _ =>
          match goal with
          | H : bookings w1 = _ |- _ =>
              rewrite (find_booking_tables i _ w1 H) in Hf
          end
      end ];
  first [ injection Hf as <-; reflexivity
        | match type of Hf with
          | find_booking ?i ?w0 = _ =>
              match type of Hfind with
              | find_booking ?j w0 = _ => change i with j in Hf
              end
          end;
          rewrite Hfind in Hf; injection Hf as <-; reflexivity ].

(** Chains [rows_kept] through the saves and log entries of a handler. *)
Ltac rows Hfind :=
  lazymatch goal with
  | |- rows_kept ?w ?w => apply rows_kept_refl
  | |- rows_kept ?w (PaymentLog_create _ _ _ _ ?w1) =>
      apply (rows_kept_trans w w1);
      [rows Hfind|apply rows_kept_tables; reflexivity]
  | |- rows_kept ?w (save _ ?w1) =>
      apply (rows_kept_trans w w1);
      [rows Hfind|apply rows_kept_save; same_row Hfind]
  | H : rows_kept ?w1 ?w2 |- rows_kept ?w ?w2 =>
      apply (rows_kept_trans w w1); [rows Hfind|exact H]
  end.

Lemma process_class_payment_rows (booking : Booking) (phone : string)
    (w : World) :
  find_booking (id booking) w = Some booking ->
  rows_kept w (fst (fst (process_class_payment E booking phone w))) /\
  identity (snd (fst (process_class_payment E booking phone w)))
  = identity booking.
Proof.
  intros Hfind. unfold process_class_payment.
  destruct (BookingType_eqb _ _).
  - match goal with
    | |- context [send_booking_confirmation_email_sync E ?i ?w0] =>
        pose proof (rows_kept_flags i (set_confirmation_email_sent true) w0 _
                      (fun b => eq_refl)
                      (send_booking_confirmation_email_sync_flags E i w0)) as Hm;
        destruct (send_booking_confirmation_email_sync E i w0) as [w1 o]
    end.
    cbn [fst snd] in *. split; [|reflexivity]. rows Hfind.
  - destruct (price (karate_class booking) <=? 0); cbn [fst snd].
    { split; [apply rows_kept_refl|reflexivity]. }
    match goal with
    | |- context [stk_push E ?p ?a ?r ?d ?i ?w0] =>
        pose proof (stk_push_same_tables E p a r d i w0) as (Hs & _);
        pose proof (rows_kept_tables _ _ Hs) as Hr;
        destruct (stk_push E p a r d i w0) as [w1 [[c m msg ph|code msg]|]]
    end; cbn [fst snd] in *; (split; [|reflexivity]); rows Hfind.
Qed.

Lemma get_own_booking_find (u i : Z) (b : Booking) (w : World) :
  NoDup (map id (bookings w)) ->
  get_own_booking u i w = Some b -> find_booking (id b) w = Some b.
Proof.
  intros Hnd H. apply get_own_booking_In in H. destruct H as (Hin & _).
  apply find_booking_unique; assumption.
Qed.

Lemma step_rows (ev : Event) (w : World) :
  NoDup (map id (bookings w)) -> rows_kept w (step E ev w).
Proof.
  intros Hnd.
  destruct ev as [n|u k s t p r|u i|u i|cb|u i]; cbn [step].
  - apply rows_kept_tables. reflexivity.
  - unfold BookingCreateView_post.
    destruct (clean_phone_number p) as [phone|]; cbn [fst];
      [|apply rows_kept_refl].
    repeat (split_match; cbn [fst]; [apply rows_kept_refl|]).
    split_match; cbn [fst].
    { unfold waiting_list_get_or_create.
      split_match; apply rows_kept_tables; reflexivity. }
    split_match; cbn [fst]; [apply rows_kept_refl|].
    lazymatch goal with
    | |- context [process_class_payment E ?b ?ph ?w0] =>
        assert (rows_kept w w0) as Hnew;
        [apply (rows_kept_trans w (save b w));
           [|apply rows_kept_tables; reflexivity]
        |assert (find_booking (id b) w0 = Some b) as Hfind
            by (apply find_booking_save_same);
          pose proof (process_class_payment_rows b ph w0 Hfind) as [Hp Hid];
          pose proof (process_class_payment_returns E b ph w0) as Hret;
          destruct (process_class_payment E b ph w0) as [[w2 b2] [res|]]]
    end.
    { apply rows_kept_save. cbn [id]. intros b0 Hb0. exfalso.
      apply find_booking_In in Hb0. destruct Hb0 as [Hin Hb0].
      apply (fresh_id_is_new w). rewrite <- Hb0. apply in_map. exact Hin. }
    + cbn [fst snd] in *.
      destruct (pay_success res);
        [destruct res; eapply rows_kept_trans; eassumption|].
      cbn [fst]. apply (rows_kept_trans w w2);
        [eapply rows_kept_trans; eassumption|].
      apply rows_kept_save. intros b0 Hb0.
      assert (id b2 = fresh_id w) as Hi2
        by (unfold identity in Hid; cbn [id] in Hid; injection Hid; intros;
            assumption).
      destruct (Hp _ _ Hfind) as (b3 & Hb3 & Hi3).
      cbn [id set_status set_payment_status set_cancelled_at set_notes] in Hb0.
      cbn [id] in Hb3. rewrite Hi2, Hb3 in Hb0. injection Hb0 as <-.
      transitivity (identity b2); [reflexivity|]. congruence.
    + contradiction Hret. reflexivity.
  - unfold payment_pending_view, mark_expired.
    destruct (get_own_booking u i w) as [b|] eqn:Hb; cbn [fst];
      [|apply rows_kept_refl].
    apply (get_own_booking_find _ _ _ _ Hnd) in Hb.
    repeat (split_match; cbn [fst]); rows Hb.
  - unfold check_payment_status, confirm_payment, mark_expired.
    destruct (get_own_booking u i w) as [b|] eqn:Hb; cbn [fst];
      [|apply rows_kept_refl].
    apply (get_own_booking_find _ _ _ _ Hnd) in Hb.
    repeat (split_match; cbn [fst]).
    all: try match goal with
         | H : query_transaction E ?t ?w0 = (?w1, _) |- _ =>
             pose proof (query_transaction_same_tables E t w0) as (Hq & _);
             rewrite H in Hq; cbn [fst] in Hq;
             pose proof (rows_kept_tables _ _ Hq) as Hr
         end.
    all: rows Hb.
  - unfold process_callback, confirm_payment.
    destruct (negb _); [apply rows_kept_refl|].
    destruct (bookings_with_transaction_id _ w) as [|b [|]] eqn:Hf;
      try apply rows_kept_refl.
    apply filter_singleton_In in Hf. destruct Hf as [Hin _].
    pose proof (find_booking_unique w b Hnd Hin) as Hb.
    destruct (py_eqb _ _).
    + match goal with
      | |- context [send_booking_confirmation_email_sync E ?i ?w0] =>
          pose proof (rows_kept_flags i (set_confirmation_email_sent true) w0 _
                        (fun b => eq_refl)
                        (send_booking_confirmation_email_sync_flags E i w0)) as Hm;
          destruct (send_booking_confirmation_email_sync E i w0) as [w1 [[]|]]
      end; cbn [fst] in Hm.
      * match goal with
        | |- rows_kept _ (fst (send_payment_confirmation_email_sync E ?i ?r ?w0)) =>
            pose proof (rows_kept_flags i (set_payment_email_sent true) w0 _
                          (fun b => eq_refl)
                          (send_payment_confirmation_email_sync_flags E i r w0))
              as Hm2
        end.
        rows Hb.
      * rows Hb.
    + match goal with
      | |- rows_kept _ (fst (send_payment_failed_email_sync E ?i ?r ?w0)) =>
          pose proof (rows_kept_flags i (fun b => b) w0 _ (fun b => eq_refl)
                        (send_payment_failed_email_sync_flags E i r w0)) as Hm
      end.
      rows Hb.
  - unfold cancel_booking_view, cancel_booking.
    destruct (get_own_booking u i w) as [b|] eqn:Hb; cbn [fst];
      [|apply rows_kept_refl].
    apply (get_own_booking_find _ _ _ _ Hnd) in Hb.
    destruct (negb _); cbn [fst]; [apply rows_kept_refl|].
    cbn zeta. destruct (PaymentStatus_eqb _ _); cbn [fst]; rows Hb.
Qed.

Lemma run_rows (evs : list Event) (w : World) :
  reachable E w -> rows_kept w (run E evs w).
Proof.
  revert w. induction evs as [|ev evs IH]; intros w Hr.
  - apply rows_kept_refl.
  - cbn [run fold_left]. fold (run E evs (step E ev w)).
    eapply rows_kept_trans.
    + apply step_rows. apply reachable_ids_unique with (E := E). exact Hr.
    + apply IH. apply reachable_step. exact Hr.
Qed.

End Rows.

(** X12: bookings are never deleted and never change hands. In every state
    the booking operations reach, primary keys are unique; and whatever
    happens afterwards, a booking is still stored under its primary key,
    for the same user, class, schedule and booking type, with the same
    reference and booking time. *)
Theorem bookings_are_never_deleted (E : Env) (w : World) (evs : list Event)
    (b : Booking) :
  reachable E w ->
  In b (bookings w) ->
  NoDup (map id (bookings w)) /\
  exists b',
    In b' (bookings (run E evs w)) /\
    id b' = id b /\ user b' = user b /\ karate_class b' = karate_class b /\
    schedule b' = schedule b /\ booking_type b' = booking_type b /\
    booking_reference b' = booking_reference b /\ booked_at b' = booked_at b.
Proof.
  intros Hr Hin.
  pose proof (reachable_ids_unique E w Hr) as Hnd.
  split; [exact Hnd|].
  pose proof (find_booking_unique w b Hnd Hin) as Hf.
  destruct (run_rows E evs w Hr _ _ Hf) as (b' & Hb' & Hi).
  exists b'. apply find_booking_In in Hb'. destruct Hb' as [Hin' _].
  unfold identity in Hi. injection Hi as H1 H2 H3 H4 H5 H6 H7.
  repeat (split; [assumption|]). assumption.
Qed.

Lemma bookings_are_never_deleted_witness :
  reachable Scenario.accepting Scenario.awaiting_payment /\
  In Scenario.pending_booking (bookings Scenario.awaiting_payment) /\
  (NoDup (map id (bookings Scenario.awaiting_payment)) /\
   exists b',
     In b' (bookings (run Scenario.accepting
                        [Tick 10; Callback Scenario.success_callback]
                        Scenario.awaiting_payment)) /\
     id b' = id Scenario.pending_booking /\
     user b' = user Scenario.pending_booking /\
     karate_class b' = karate_class Scenario.pending_booking /\
     schedule b' = schedule Scenario.pending_booking /\
     booking_type b' = booking_type Scenario.pending_booking /\
     booking_reference b' = booking_reference Scenario.pending_booking /\
     booked_at b' = booked_at Scenario.pending_booking).
Proof.
  assert (reachable Scenario.accepting Scenario.awaiting_payment) as Hr.
  { change Scenario.awaiting_payment with
      (run Scenario.accepting [Scenario.book_monthly] Scenario.empty_world).
    apply run_reachable. apply reachable_fresh; reflexivity. }
  assert (In Scenario.pending_booking (bookings Scenario.awaiting_payment))
    as Hin by (left; reflexivity).
  split; [exact Hr|]. split; [exact Hin|].
  exact (bookings_are_never_deleted Scenario.accepting
           Scenario.awaiting_payment
           [Tick 10; Callback Scenario.success_callback]
           Scenario.pending_booking Hr Hin).
Defined.

(** ** Whose booking a handler touches *)

Lemma get_own_booking_of_other (u : Z) (b : Booking) (w : World) :
  NoDup (map id (bookings w)) -> In b (bookings w) -> user b <> u ->
  get_own_booking u (id b) w = None.
Proof.
  intros Hnd Hin Hu.
  destruct (get_own_booking u (id b) w) as [x|] eqn:Hx; [|reflexivity].
  apply get_own_booking_In in Hx. destruct Hx as (Hxin & Hid & Hux).
  assert (x = b) by (eapply ids_unique; eassumption).
  subst x. contradiction.
Qed.

(** X13: a user reaches only bookings of their own. In every state the
    booking operations reach, the pending page, the poll, the success page
    and the cancellation, asked by a user for a booking of somebody else,
    answer "not found" and leave the world as it is, whatever the provider
    would answer. *)
Theorem bookings_of_others_are_out_of_reach (E : Env) (w : World)
    (request_user : Z) (b : Booking) :
  reachable E w ->
  In b (bookings w) ->
  user b <> request_user ->
  payment_pending_view request_user (id b) w = (w, PendingNotFound) /\
  check_payment_status E request_user (id b) w = (w, PollNotFound) /\
  booking_success_view request_user (id b) w = SuccessNotFound /\
  cancel_booking_view request_user (id b) w = (w, CancelNotFound).
Proof.
  intros Hr Hin Hu.
  pose proof (get_own_booking_of_other request_user b w
                (reachable_ids_unique E w Hr) Hin Hu) as Hnone.
  unfold payment_pending_view, check_payment_status, booking_success_view,
    cancel_booking_view.
  rewrite Hnone. repeat split.
Qed.

Lemma bookings_of_others_are_out_of_reach_witness :
  reachable Scenario.accepting Scenario.awaiting_payment /\
  In Scenario.pending_booking (bookings Scenario.awaiting_payment) /\
  user Scenario.pending_booking <> 8 /\
  payment_pending_view 8 (id Scenario.pending_booking)
    Scenario.awaiting_payment
  = (Scenario.awaiting_payment, PendingNotFound) /\
  check_payment_status Scenario.accepting 8 (id Scenario.pending_booking)
    Scenario.awaiting_payment
  = (Scenario.awaiting_payment, PollNotFound) /\
  booking_success_view 8 (id Scenario.pending_booking)
    Scenario.awaiting_payment
  = SuccessNotFound /\
  cancel_booking_view 8 (id Scenario.pending_booking)
    Scenario.awaiting_payment
  = (Scenario.awaiting_payment, CancelNotFound).
Proof.
  assert (reachable Scenario.accepting Scenario.awaiting_payment) as Hr.
  { change Scenario.awaiting_payment with
      (run Scenario.accepting [Scenario.book_monthly] Scenario.empty_world).
    apply run_reachable. apply reachable_fresh; reflexivity. }
  assert (In Scenario.pending_booking (bookings Scenario.awaiting_payment))
    as Hin by (left; reflexivity).
  assert (user Scenario.pending_booking <> 8) as Hu by discriminate.
  split; [exact Hr|]. split; [exact Hin|]. split; [exact Hu|].
  exact (bookings_of_others_are_out_of_reach Scenario.accepting
           Scenario.awaiting_payment 8 Scenario.pending_booking Hr Hin Hu).
Defined.

(** ** Cancelling *)

Lemma get_own_booking_log (u i : Z) (b : Booking) (t : option string)
    (a : string) (s : option string) (w : World) :
  get_own_booking u i (PaymentLog_create b t a s w) = get_own_booking u i w.
Proof. reflexivity. Qed.

Lemma cancel_again (u i : Z) (b : Booking) (w : World) :
  get_own_booking u i w = Some b -> status b = Cancelled ->
  cancel_booking_view u i w = (w, CancelRefused).
Proof.
  intros Hb Hs. unfold cancel_booking_view. rewrite Hb, Hs. reflexivity.
Qed.

Lemma cancel_booking_view_active (u i : Z) (b : Booking) (w : World) :
  get_own_booking u i w = Some b ->
  status b = Confirmed \/ status b = Pending ->
  cancel_booking_view u i w
  = let b1 := snd (cancel_booking b (Some "User requested cancellation") w) in
    let w1 := PaymentLog_create b1 None "booking_cancelled"
                (Some "USER_CANCEL") (save b1 w) in
    if PaymentStatus_eqb (payment_status b) Paid
    then (save (set_payment_status Refunded b1) w1, CancelRefundRequested)
    else (w1, CancelDone).
Proof.
  intros Hb Hs. unfold cancel_booking_view. rewrite Hb.
  assert (negb (Status_eqb (status b) Confirmed
                || Status_eqb (status b) Pending) = false) as ->
    by (destruct Hs as [-> | ->]; reflexivity).
  reflexivity.
Qed.

(** X14: what a cancellation does. In every state the booking operations
    reach, cancelling an own booking that is Confirmed leaves it Cancelled
    and Refunded and answers that a refund will be processed (also for a
    free trial, for which nothing was paid); cancelling one that is
    Pending leaves it Cancelled with its payment still Pending; any other
    booking is refused and nothing changes. Cancelling the same booking
    once more is always refused and changes nothing. *)
Theorem cancellation_outcome (E : Env) (w : World) (request_user booking_id : Z)
    (b : Booking) :
  reachable E w ->
  get_own_booking request_user booking_id w = Some b ->
  let r := cancel_booking_view request_user booking_id w in
  (status b = Confirmed ->
     snd r = CancelRefundRequested /\
     state_of booking_id (fst r) = Some (Cancelled, Refunded)) /\
  (status b = Pending ->
     snd r = CancelDone /\
     state_of booking_id (fst r) = Some (Cancelled, PaymentPending)) /\
  (status b <> Confirmed -> status b <> Pending ->
     r = (w, CancelRefused)) /\
  cancel_booking_view request_user booking_id (fst r)
  = (fst r, CancelRefused).
Proof.
  intros Hr Hb r.
  pose proof (get_own_booking_In _ _ _ _ Hb) as (Hin & Hid & Hu).
  pose proof (reachable_lifecycle E w Hr) as Hl.
  rewrite Forall_forall in Hl. specialize (Hl b Hin).
  unfold lifecycle_state in Hl.
  set (b1 := snd (cancel_booking b (Some "User requested cancellation") w)).
  assert (get_own_booking request_user booking_id (save b1 w) = Some b1)
    as Hb1 by (apply (get_own_booking_save _ _ b); [assumption|reflexivity..]).
  set (w1 := PaymentLog_create b1 None "booking_cancelled"
               (Some "USER_CANCEL") (save b1 w)).
  set (b2 := set_payment_status Refunded b1).
  assert (get_own_booking request_user booking_id (save b2 w1) = Some b2)
    as Hb2 by (apply (get_own_booking_save _ _ b1); [exact Hb1|reflexivity..]).
  assert (find_booking booking_id (save b1 w) = Some b1) as Hf1
    by (apply find_booking_save_at; exact Hid).
  assert (find_booking booking_id (save b2 w1) = Some b2) as Hf2
    by (apply find_booking_save_at; exact Hid).
  destruct (status b) eqn:Hs, (payment_status b) eqn:Hp; try contradiction.
  - (* Pending, payment Pending *)
    assert (r = (w1, CancelDone)) as ->.
    { unfold r. rewrite (cancel_booking_view_active _ _ b) by auto.
      rewrite Hp. reflexivity. }
    cbn [fst snd]. split; [discriminate|]. split.
    + intros _. split; [reflexivity|].
      unfold state_of.
      change (find_booking booking_id w1)
        with (find_booking booking_id (save b1 w)).
      rewrite Hf1. cbn. rewrite Hp. reflexivity.
    + split; [congruence|]. apply (cancel_again _ _ b1); [exact Hb1|reflexivity].
  - (* Confirmed and Paid *)
    assert (r = (save b2 w1, CancelRefundRequested)) as ->.
    { unfold r. rewrite (cancel_booking_view_active _ _ b) by auto.
      rewrite Hp. reflexivity. }
    cbn [fst snd]. split.
    + intros _. split; [reflexivity|].
      unfold state_of. rewrite Hf2. reflexivity.
    + split; [discriminate|]. split; [congruence|].
      apply (cancel_again _ _ b2); [exact Hb2|reflexivity].
  - (* Cancelled, payment Pending *)
    assert (r = (w, CancelRefused)) as ->
      by (apply (cancel_again _ _ b); assumption).
    cbn [fst snd]. repeat split; try discriminate.
    apply (cancel_again _ _ b); assumption.
  - (* Cancelled and Refunded *)
    assert (r = (w, CancelRefused)) as ->
      by (apply (cancel_again _ _ b); assumption).
    cbn [fst snd]. repeat split; try discriminate.
    apply (cancel_again _ _ b); assumption.
  - (* Cancelled and Failed *)
    assert (r = (w, CancelRefused)) as ->
      by (apply (cancel_again _ _ b); assumption).
    cbn [fst snd]. repeat split; try discriminate.
    apply (cancel_again _ _ b); assumption.
  - (* Expired and Failed *)
    assert (r = (w, CancelRefused)) as Hr'
      by (unfold r, cancel_booking_view; rewrite Hb, Hs; reflexivity).
    rewrite Hr'. cbn [fst snd]. repeat split; try discriminate.
    exact Hr'.
Qed.

Lemma cancellation_outcome_witness :
  reachable Scenario.accepting Scenario.awaiting_payment /\
  get_own_booking 7 1 Scenario.awaiting_payment = Some Scenario.pending_booking /\
  let r := cancel_booking_view 7 1 Scenario.awaiting_payment in
  (status Scenario.pending_booking = Confirmed ->
     snd r = CancelRefundRequested /\
     state_of 1 (fst r) = Some (Cancelled, Refunded)) /\
  (status Scenario.pending_booking = Pending ->
     snd r = CancelDone /\
     state_of 1 (fst r) = Some (Cancelled, PaymentPending)) /\
  (status Scenario.pending_booking <> Confirmed ->
   status Scenario.pending_booking <> Pending ->
     r = (Scenario.awaiting_payment, CancelRefused)) /\
  cancel_booking_view 7 1 (fst r) = (fst r, CancelRefused).
Proof.
  assert (reachable Scenario.accepting Scenario.awaiting_payment) as Hr.
  { change Scenario.awaiting_payment with
      (run Scenario.accepting [Scenario.book_monthly] Scenario.empty_world).
    apply run_reachable. apply reachable_fresh; reflexivity. }
  split; [exact Hr|]. split; [reflexivity|].
  exact (cancellation_outcome Scenario.accepting Scenario.awaiting_payment 7 1
           Scenario.pending_booking Hr eq_refl).
Defined.

(** ** After the callback *)

Lemma get_own_booking_of_find (u i : Z) (b : Booking) (w : World) :
  NoDup (map id (bookings w)) ->
  find_booking i w = Some b -> user b = u ->
  get_own_booking u i w = Some b.
Proof.
  intros Hnd Hf Hu. apply find_booking_In in Hf. destruct Hf as [Hin Hid].
  unfold get_own_booking.
  destruct (find _ (bookings w)) as [x|] eqn:Hx.
  - apply find_some in Hx. destruct Hx as [Hxin Hc].
    apply andb_true_iff in Hc. destruct Hc as [Hxi _].
    apply Z.eqb_eq in Hxi. f_equal.
    eapply ids_unique; try eassumption. congruence.
  - exfalso. apply (find_none _ _ Hx) in Hin. cbn in Hin.
    apply andb_false_iff in Hin.
    destruct Hin as [H|H]; apply Z.eqb_neq in H; contradiction.
Qed.

(** X15: once the callback has confirmed a booking, every page agrees, at
    any later time and without asking the provider: the poll answers
    "confirmed" with the receipt number the callback carried, the pending
    page redirects to the success page, the success page is shown, and none
    of them changes anything. *)
Theorem confirmation_is_seen_by_every_page (E E' : Env) (cb : StkCallback)
    (w : World) (b : Booking) (seconds : nat) :
  reachable E w ->
  bookings_with_transaction_id (CheckoutRequestID cb) w = [b] ->
  ResultCode cb = PInt 0 ->
  truthy (CheckoutRequestID cb) = true ->
  let w' := tick seconds (process_callback E cb w) in
  let receipt :=
    item_value (CallbackMetadata cb) "MpesaReceiptNumber" (PStr "N/A") in
  check_payment_status E' (user b) (id b) w'
  = (w', PollConfirmed match char_field receipt with
                       | Some r => PStr r
                       | None => PStr ""
                       end) /\
  payment_pending_view (user b) (id b) w' = (w', PendingToSuccess) /\
  booking_success_view (user b) (id b) w' = SuccessPage.
Proof.
  intros Hr Hf Hrc Ht w' receipt.
  pose proof (reachable_ids_unique E w Hr) as Hnd.
  destruct (confirming_callback E cb w b (conj Hnd Hf) Hrc Ht)
    as (b1 & [Hnd1 _] & Hid1 & (Hs1 & Hp1 & _ & Hr1 & _) & Hfind1 & _).
  assert (user b1 = user b) as Hu1.
  { apply filter_singleton_In in Hf. destruct Hf as [Hin _].
    destruct (step_rows E (Callback cb) w Hnd (id b) b
                (find_booking_unique w b Hnd Hin)) as (x & Hx & Hi).
    cbn [step] in Hx. rewrite Hfind1 in Hx. injection Hx as <-.
    unfold identity in Hi. congruence. }
  assert (get_own_booking (user b) (id b) w' = Some b1) as Hown.
  { change (get_own_booking (user b) (id b) (process_callback E cb w)
            = Some b1).
    apply get_own_booking_of_find; assumption. }
  unfold check_payment_status, payment_pending_view, booking_success_view.
  rewrite Hown, Hs1, Hp1, Hr1. repeat split.
Qed.

Lemma confirmation_is_seen_by_every_page_witness :
  reachable Scenario.accepting Scenario.awaiting_payment /\
  bookings_with_transaction_id (CheckoutRequestID Scenario.success_callback)
    Scenario.awaiting_payment = [Scenario.pending_booking] /\
  ResultCode Scenario.success_callback = PInt 0 /\
  truthy (CheckoutRequestID Scenario.success_callback) = true /\
  let w' := tick 400 (process_callback Scenario.accepting
                        Scenario.success_callback Scenario.awaiting_payment) in
  let receipt :=
    item_value (CallbackMetadata Scenario.success_callback)
      "MpesaReceiptNumber" (PStr "N/A") in
  check_payment_status Scenario.timing_out (user Scenario.pending_booking)
    (id Scenario.pending_booking) w'
  = (w', PollConfirmed match char_field receipt with
                       | Some r => PStr r
                       | None => PStr ""
                       end) /\
  payment_pending_view (user Scenario.pending_booking)
    (id Scenario.pending_booking) w' = (w', PendingToSuccess) /\
  booking_success_view (user Scenario.pending_booking)
    (id Scenario.pending_booking) w' = SuccessPage.
Proof.
  assert (reachable Scenario.accepting Scenario.awaiting_payment) as Hr.
  { change Scenario.awaiting_payment with
      (run Scenario.accepting [Scenario.book_monthly] Scenario.empty_world).
    apply run_reachable. apply reachable_fresh; reflexivity. }
  split; [exact Hr|]. do 3 (split; [reflexivity|]).
  exact (confirmation_is_seen_by_every_page Scenario.accepting
           Scenario.timing_out Scenario.success_callback
           Scenario.awaiting_payment Scenario.pending_booking 400
           Hr eq_refl eq_refl eq_refl).
Defined.

(** ** Places in a class *)

Lemma identity_id (b b' : Booking) : identity b = identity b' -> id b = id b'.
Proof. unfold identity. congruence. Qed.

Lemma save_new (b : Booking) (w : World) :
  (forall x, In x (bookings w) -> id x <> id b) ->
  bookings (save b w) = bookings w ++ [b].
Proof.
  intros Hnew. unfold save.
  destruct (existsb (fun x => id x =? id b) (bookings w)) eqn:Hex;
    [|reflexivity].
  exfalso. apply existsb_exists in Hex. destruct Hex as (x & Hx & Hid).
  apply Z.eqb_eq in Hid. exact (Hnew x Hx Hid).
Qed.

Lemma find_over_app {A : Type} (f : A -> bool) (l1 l2 : list A) :
  find f (l1 ++ l2)
  = match find f l1 with
    | Some x => Some x
    | None => find f l2
    end.
Proof.
  induction l1 as [|x l1 IH]; cbn; [reflexivity|].
  destruct (f x); [reflexivity|exact IH].
Qed.

Section Places.
Variable E : Env.
Variable l : list Booking.
Variable booking : Booking.
Hypothesis Hnew : forall x, In x l -> id x <> id booking.

Lemma save_last (b : Booking) (w : World) :
  last_row l (identity booking) w ->
  identity b = identity booking ->
  last_row l (identity booking) (save b w).
Proof.
  intros (b0 & Hw & Hb0) Hb. exists b. split; [|exact Hb].
  apply identity_id in Hb0, Hb.
  rewrite save_existing.
  - rewrite Hw, map_app. cbn. f_equal.
    + rewrite <- (map_id l) at 2. apply map_ext_in. intros x Hx.
      destruct (Z.eqb_spec (id x) (id b)) as [Heq|]; [|reflexivity].
      exfalso. apply (Hnew x Hx). congruence.
    + assert ((id b0 =? id b) = true) as -> by (apply Z.eqb_eq; congruence).
      reflexivity.
  - rewrite Hw, existsb_app. cbn.
    assert ((id b0 =? id b) = true) as -> by (apply Z.eqb_eq; congruence).
    rewrite orb_true_r. reflexivity.
Qed.

Lemma last_row_tables (w w' : World) :
  bookings w' = bookings w ->
  last_row l (identity booking) w -> last_row l (identity booking) w'.
Proof. intros H (b & Hb & Hi). exists b. rewrite H. auto. Qed.

Lemma last_row_find (w : World) (b : Booking) :
  last_row l (identity booking) w ->
  find_booking (id booking) w = Some b ->
  identity b = identity booking.
Proof.
  intros (b0 & Hw & Hb0) Hf. unfold find_booking in Hf. rewrite Hw in Hf.
  rewrite find_over_app in Hf.
  destruct (find _ l) as [x|] eqn:Hx.
  - apply find_some in Hx. destruct Hx as [Hin Hid]. apply Z.eqb_eq in Hid.
    contradiction (Hnew x Hin).
  - cbn in Hf. destruct (id b0 =? id booking); [|discriminate].
    injection Hf as <-. exact Hb0.
Qed.

Lemma last_row_flags (set_flag : Booking -> Booking) (w w' : World) :
  (forall b, identity (set_flag b) = identity b) ->
  flags_only (id booking) set_flag w w' ->
  last_row l (identity booking) w -> last_row l (identity booking) w'.
Proof.
  intros Hid (_ & _ & _ & _ & _ & [Hsame|(b & Hf & Hb)]) Hw.
  - apply (last_row_tables w); assumption.
  - apply (last_row_tables (save (set_flag b) w)); [exact Hb|].
    apply save_last; [exact Hw|].
    rewrite Hid. apply (last_row_find w); assumption.
Qed.

(** Chains [last_row] through the saves and log entries of a handler. *)
Ltac last_rows :=
  lazymatch goal with
  | H : last_row l _ ?w |- last_row l _ ?w => exact H
  | |- last_row l _ (PaymentLog_create _ _ _ _ ?w1) =>
      apply (last_row_tables w1); [reflexivity|last_rows]
  | |- last_row l _ (save _ ?w1) =>
      apply save_last; [last_rows|reflexivity]
  | H : bookings ?w2 = bookings ?w1 |- last_row l _ ?w2 =>
      apply (last_row_tables w1); [exact H|last_rows]
  end.

Lemma process_class_payment_last_row (phone : string) (w : World) :
  last_row l (identity booking) w ->
  last_row l (identity booking)
    (fst (fst (process_class_payment E booking phone w))) /\
  identity (snd (fst (process_class_payment E booking phone w)))
  = identity booking.
Proof.
  intros Hw. unfold process_class_payment.
  destruct (BookingType_eqb _ _).
  - match goal with
    | |- context [send_booking_confirmation_email_sync E ?i ?w0] =>
        pose proof (send_booking_confirmation_email_sync_flags E i w0) as Hm;
        destruct (send_booking_confirmation_email_sync E i w0) as [w1 o]
    end.
    cbn [fst snd] in *. split; [|reflexivity].
    eapply (last_row_flags (set_confirmation_email_sent true));
      [reflexivity|exact Hm|].
    last_rows.
  - destruct (price (karate_class booking) <=? 0); cbn [fst snd]; [auto|].
    match goal with
    | |- context [stk_push E ?p ?a ?r ?d ?i ?w0] =>
        pose proof (stk_push_same_tables E p a r d i w0) as (Hs & _);
        destruct (stk_push E p a r d i w0) as [w1 [[c m msg ph|code msg]|]]
    end; cbn [fst snd] in *; (split; [|reflexivity]); last_rows.
Qed.

End Places.

Lemma filter_last {A : Type} (f : A -> bool) (l : list A) (x : A) :
  (List.length (filter f (l ++ [x])) <= S (List.length (filter f l)))%nat /\
  (f x = false -> filter f (l ++ [x]) = filter f l).
Proof.
  rewrite filter_app. cbn. destruct (f x); cbn.
  - rewrite length_app. cbn. split; [lia|discriminate].
  - rewrite app_nil_r. split; [lia|reflexivity].
Qed.

(** What [BookingCreateView.post] does to the table: nothing, or one row
    more, at the end, for the user, class, schedule and type asked for. *)
Lemma BookingCreateView_post_bookings (E : Env) (u : Z) (k : KarateClass)
    (s : Z) (t : BookingType) (p r : string) (w : World) :
  let w' := fst (BookingCreateView_post E u k s t p r w) in
  bookings w' = bookings w \/
  (is_full k w = false /\
   (BookingType_eqb t FreeTrial && Nat.leb (free_trials_available k w) 0
    = false) /\
   exists b, bookings w' = bookings w ++ [b] /\
             user b = u /\ karate_class b = k /\ schedule b = s /\
             booking_type b = t).
Proof.
  cbn zeta. unfold BookingCreateView_post.
  destruct (clean_phone_number p) as [phone|]; cbn [fst]; [|auto].
  repeat (split_match; cbn [fst]; [left; reflexivity|]).
  split_match; cbn [fst].
  { left. unfold waiting_list_get_or_create. split_match; reflexivity. }
  split_match; cbn [fst]; [left; reflexivity|].
  right. split; [reflexivity|]. split; [reflexivity|].
  lazymatch goal with
  | |- context [process_class_payment E ?b ?ph ?w0] =>
      assert (forall x, In x (bookings w) -> id x <> id b) as Hnew;
      [|assert (last_row (bookings w) (identity b) w0) as Hw0;
        [|pose proof (process_class_payment_last_row E (bookings w) b Hnew
                        ph w0 Hw0) as [Hp Hid];
          pose proof (process_class_payment_returns E b ph w0) as Hret;
          destruct (process_class_payment E b ph w0) as [[w2 b2] [res|]]]]
  end.
  - intros x Hx Heq. apply (fresh_id_is_new w). cbn [id] in Heq.
    rewrite <- Heq. apply in_map. exact Hx.
  - eexists. split; [|reflexivity].
    rewrite PaymentLog_create_bookings. apply save_new. exact Hnew.
  - cbn [fst snd] in *.
    destruct (pay_success res).
    + assert (last_row (bookings w) (identity b2) w2) as (b & Hb & Hi)
        by (rewrite Hid; destruct res; exact Hp).
      destruct res; cbn [fst]; exists b; rewrite Hid in Hi;
        unfold identity in Hi; cbn in Hi;
        (split; [exact Hb|]); repeat split; congruence.
    + cbn [fst].
      match goal with
      | |- context [save ?b3 w2] =>
          destruct (save_last (bookings w) _ Hnew b3 w2 Hp
                      ltac:(transitivity (identity b2); [reflexivity|exact Hid]))
            as (b & Hb & Hi)
      end.
      exists b. unfold identity in Hi; cbn in Hi.
      split; [exact Hb|]. repeat split; congruence.
  - contradiction Hret. reflexivity.
Qed.

(** X16: a booking request never takes a class over its capacity. After
    [BookingCreateView.post] the class holds at most [max_students] active
    bookings, and at most [free_trial_spots] active free trials, unless it
    held more before, in which case it holds no more than before; for a
    class that is full no booking is stored; and the places taken in other
    classes stay as they are. *)
Theorem booking_requests_respect_capacity (E : Env) (u : Z) (k : KarateClass)
    (s : Z) (t : BookingType) (p r : string) (w : World) :
  let w' := fst (BookingCreateView_post E u k s t p r w) in
  (List.length (taking_place k w')
   <= Nat.max (List.length (taking_place k w)) (max_students k))%nat /\
  (List.length (trial_places k w')
   <= Nat.max (List.length (trial_places k w)) (free_trial_spots k))%nat /\
  (is_full k w = true -> bookings w' = bookings w) /\
  (forall k', kc_id k' <> kc_id k -> taking_place k' w' = taking_place k' w).
Proof.
  cbn zeta.
  destruct (BookingCreateView_post_bookings E u k s t p r w)
    as [Hsame|(Hfull & Htrial & b & Hb & Hu & Hk & Hs & Ht)].
  - unfold taking_place, trial_places. rewrite Hsame.
    repeat split; try lia; auto.
  - unfold is_full, spots_available in Hfull. apply Nat.eqb_neq in Hfull.
    fold (taking_place k w) in Hfull.
    unfold free_trials_available in Htrial. fold (trial_places k w) in Htrial.
    unfold taking_place, trial_places in *. rewrite Hb.
    split; [|split; [|split]].
    + match goal with
      | |- context [filter ?f (bookings w ++ [b])] =>
          pose proof (filter_last f (bookings w) b) as [Hlen _]
      end.
      lia.
    + match goal with
      | |- context [filter ?f (bookings w ++ [b])] =>
          pose proof (filter_last f (bookings w) b) as [Hlen Hnot]
      end.
      destruct (BookingType_eqb t FreeTrial) eqn:Hft.
      * cbn [andb] in Htrial. apply Nat.leb_gt in Htrial. lia.
      * rewrite Hnot; [lia|]. rewrite Ht, Hft, andb_false_r. reflexivity.
    + intros Hf. unfold is_full, spots_available in Hf.
      apply Nat.eqb_eq in Hf. contradiction.
    + intros k' Hk'.
      match goal with
      | |- filter ?f (bookings w ++ [b]) = _ =>
          apply (filter_last f (bookings w) b)
      end.
      rewrite Hk.
      assert ((kc_id k =? kc_id k') = false) as ->
        by (apply Z.eqb_neq; congruence).
      reflexivity.
Qed.

(** ** The waiting list *)

Lemma flags_only_waiting_list (i : Z) (set_flag : Booking -> Booking)
    (w w' : World) :
  flags_only i set_flag w w' -> waiting_list w' = waiting_list w.
Proof. intros (_ & _ & _ & _ & H & _). exact H. Qed.

Lemma same_tables_waiting_list (w w' : World) :
  same_tables w w' -> waiting_list w' = waiting_list w.
Proof. intros (_ & _ & H & _). exact H. Qed.

Section WaitingListFacts.
Variable E : Env.

(** Rewrites the waiting list of a nest of saves and log entries to that of
    the world it was built on. *)
Ltac waiting :=
  repeat first
    [ rewrite save_waiting_list
    | match goal with
      | |- context [waiting_list (PaymentLog_create ?b ?t ?a ?s ?w0)] =>
          change (waiting_list (PaymentLog_create b t a s w0))
            with (waiting_list w0)
      | H : waiting_list ?w1 = _ |- context [waiting_list ?w1] => rewrite H
      end ];
  try reflexivity.

Lemma process_class_payment_waiting_list (booking : Booking) (phone : string)
    (w : World) :
  waiting_list (fst (fst (process_class_payment E booking phone w)))
  = waiting_list w.
Proof.
  unfold process_class_payment.
  destruct (BookingType_eqb _ _).
  - match goal with
    | |- context [send_booking_confirmation_email_sync E ?i ?w0] =>
        pose proof (flags_only_waiting_list _ _ _ _
                      (send_booking_confirmation_email_sync_flags E i w0)) as Hm;
        destruct (send_booking_confirmation_email_sync E i w0) as [w1 o]
    end.
    cbn [fst] in *. waiting.
  - destruct (price (karate_class booking) <=? 0); cbn [fst]; [reflexivity|].
    match goal with
    | |- context [stk_push E ?p ?a ?r ?d ?i ?w0] =>
        pose proof (same_tables_waiting_list _ _
                      (stk_push_same_tables E p a r d i w0)) as Hs;
        destruct (stk_push E p a r d i w0) as [w1 [[c m msg ph|code msg]|]]
    end; cbn [fst] in *; waiting.
Qed.

(** Only a booking request for a full class writes the waiting list, and
    it adds an entry only if the same entry is not there yet. *)
Lemma step_waiting_list (ev : Event) (w : World) :
  waiting_list (step E ev w) = waiting_list w \/
  exists u k s,
    is_full k w = true /\
    ~ In {| wl_user := u; wl_karate_class := kc_id k; wl_schedule := s |}
        (waiting_list w) /\
    waiting_list (step E ev w)
    = waiting_list w
      ++ [{| wl_user := u; wl_karate_class := kc_id k; wl_schedule := s |}].
Proof.
  destruct ev as [n|u k s t p r|u i|u i|cb|u i]; cbn [step].
  - left. reflexivity.
  - unfold BookingCreateView_post.
    destruct (clean_phone_number p) as [phone|]; cbn [fst]; [|auto].
    repeat (split_match; cbn [fst]; [left; reflexivity|]).
    destruct (is_full k w) eqn:Hfull; cbn [fst].
    { unfold waiting_list_get_or_create.
      destruct (existsb _ (waiting_list w)) eqn:Hex; [left; reflexivity|].
      right. exists u, k, s. split; [exact Hfull|].
      split; [|reflexivity].
      intros Hin.
      assert (existsb (fun e => (wl_user e =? u)
                                && (wl_karate_class e =? kc_id k)
                                && (wl_schedule e =? s)) (waiting_list w)
              = true) as Htrue.
      { apply existsb_exists. eexists. split; [exact Hin|].
        cbn. rewrite !Z.eqb_refl. reflexivity. }
      congruence. }
    split_match; cbn [fst]; [left; reflexivity|].
    left.
    match goal with
    | |- context [process_class_payment E ?b ?ph ?w0] =>
        pose proof (process_class_payment_waiting_list b ph w0) as Hp;
        destruct (process_class_payment E b ph w0) as [[w2 b2] [res|]]
    end; cbn [fst] in *.
    + destruct (pay_success res); [destruct res|]; cbn [fst]; waiting.
    + cbn. reflexivity.
  - left. unfold payment_pending_view, mark_expired.
    destruct (get_own_booking u i w) as [b|]; cbn [fst]; [|reflexivity].
    repeat (split_match; cbn [fst]); waiting.
  - left. unfold check_payment_status, confirm_payment, mark_expired.
    destruct (get_own_booking u i w) as [b|]; cbn [fst]; [|reflexivity].
    repeat (split_match; cbn [fst]); try reflexivity.
    all: try match goal with
         | H : query_transaction E ?t ?w0 = (?w1, _) |- _ =>
             pose proof (same_tables_waiting_list _ _
                           (query_transaction_same_tables E t w0)) as Hq;
             rewrite H in Hq; cbn [fst] in Hq
         end.
    all: waiting.
  - left. unfold process_callback, confirm_payment.
    destruct (negb _); [reflexivity|].
    destruct (bookings_with_transaction_id _ w) as [|b [|]]; try reflexivity.
    destruct (py_eqb _ _).
    + match goal with
      | |- context [send_booking_confirmation_email_sync E ?i ?w0] =>
          pose proof (flags_only_waiting_list _ _ _ _
                        (send_booking_confirmation_email_sync_flags E i w0)) as Hm;
          destruct (send_booking_confirmation_email_sync E i w0) as [w1 [[]|]]
      end; cbn [fst] in Hm.
      * rewrite (flags_only_waiting_list _ _ _ _
                   (send_payment_confirmation_email_sync_flags E _ _ w1)).
        waiting.
      * waiting.
    + rewrite (flags_only_waiting_list _ _ _ _
                 (send_payment_failed_email_sync_flags E _ _ _)).
      waiting.
  - left. unfold cancel_booking_view, cancel_booking.
    destruct (get_own_booking u i w) as [b|]; cbn [fst]; [|reflexivity].
    destruct (negb _); cbn [fst]; [reflexivity|].
    cbn zeta. destruct (PaymentStatus_eqb _ _); cbn [fst]; waiting.
Qed.

End WaitingListFacts.

(** X17: the waiting list only grows, and never holds an entry twice. Over
    any sequence of events the waiting list afterwards is the list before
    followed by new entries, and if it had no duplicates before it has none
    afterwards; cancellations, callbacks and polls never take anyone off
    it. *)
Theorem waiting_list_only_grows (E : Env) (evs : list Event) (w : World) :
  (exists newer, waiting_list (run E evs w) = waiting_list w ++ newer) /\
  (NoDup (waiting_list w) -> NoDup (waiting_list (run E evs w))).
Proof.
  revert w. induction evs as [|ev evs IH]; intros w.
  - cbn. split; [exists []; rewrite app_nil_r; reflexivity|auto].
  - cbn [run fold_left]. fold (run E evs (step E ev w)).
    destruct (IH (step E ev w)) as [(newer & Hn) Hnd].
    destruct (step_waiting_list E ev w)
      as [Hsame|(u & k & s & _ & Hnot & Hadd)].
    + rewrite Hsame in *. split; [exists newer; exact Hn|exact Hnd].
    + rewrite Hadd in *. split.
      * eexists. rewrite Hn, <- app_assoc. reflexivity.
      * intros Hw. apply Hnd. apply NoDup_app; [exact Hw| |].
        -- repeat constructor. intros [].
        -- intros e He [<-|[]]. contradiction.
Qed.

Lemma waiting_list_only_grows_witness :
  waiting_list Scenario.class_full
  = [{| wl_user := 8; wl_karate_class := 3; wl_schedule := 3 |}] /\
  NoDup (waiting_list Scenario.class_full) /\
  waiting_list (run Scenario.accepting Scenario.more_requests
                  Scenario.class_full)
  = [{| wl_user := 8; wl_karate_class := 3; wl_schedule := 3 |};
     {| wl_user := 9; wl_karate_class := 3; wl_schedule := 3 |}] /\
  NoDup (waiting_list (run Scenario.accepting Scenario.more_requests
                         Scenario.class_full)).
Proof.
  assert (NoDup (waiting_list Scenario.class_full)) as Hnd
    by (repeat constructor; intros []).
  split; [reflexivity|]. split; [exact Hnd|].
  split; [vm_compute; reflexivity|].
  exact (proj2 (waiting_list_only_grows Scenario.accepting
                  Scenario.more_requests Scenario.class_full) Hnd).
Defined.

(** ** The amount asked for and the amount recorded *)

Section Amounts.
Variable E : Env.

(** An accepted push was sent at least once and at most three times. *)
Lemma stk_attempts_accepted (attempt : nat) (phone : string) (amount_int : Z)
    (ref desc : string) (booking_id : Z) (w : World) :
  exists j, (1 <= j <= max_retries)%nat /\
    sent (fst (stk_attempts E max_retries attempt phone amount_int ref desc
                 booking_id w))
    = sent w ++ repeat (StkPushProcess phone amount_int (take 20 ref)
                          (take 20 desc)) j.
Proof.
  unfold max_retries at 2. cbn [stk_attempts]. unfold http.
  set (push := StkPushProcess phone amount_int (take 20 ref) (take 20 desc)).
  assert (forall (w0 : World) (last : StkResult),
             sent w0 = sent w ++ [push] ->
             exists j, (1 <= j <= max_retries)%nat /\
               sent (fst (if Nat.ltb attempt (max_retries - 1)
                          then stk_attempts E 2 (S attempt) phone amount_int
                                 ref desc booking_id (sleep 2 w0)
                          else (w0, Returned (Some last))))
               = sent w ++ repeat push j) as Hretry.
  { intros w0 last Hw0. destruct (Nat.ltb attempt (max_retries - 1)).
    - destruct (stk_attempts_sent E 2 (S attempt) phone amount_int ref desc
                  booking_id (sleep 2 w0)) as (j & Hj & Hs).
      exists (S j). split; [unfold max_retries; lia|]. rewrite Hs.
      cbn [sleep sent with_clock]. rewrite Hw0, <- app_assoc. reflexivity.
    - exists 1%nat. split; [unfold max_retries; lia|]. exact Hw0. }
  destruct (reply E (sent w) push) as [| |sc body].
  - apply Hretry. reflexivity.
  - apply Hretry. reflexivity.
  - destruct (sc =? 200); [|apply Hretry; reflexivity].
    destruct (py_eqb _ _).
    + exists 1%nat. split; [unfold max_retries; lia|]. reflexivity.
    + destruct (get body "ResponseDescription" _);
        exists 1%nat; (split; [unfold max_retries; lia|]); reflexivity.
Qed.

Lemma stk_push_accepted (phone_number : string) (amount : Z)
    (ref desc : string) (booking_id : Z) (w w1 : World) (c m : PyVal)
    (msg ph : string) :
  stk_push E phone_number amount ref desc booking_id w
  = (w1, Some (StkSuccess c m msg ph)) ->
  validate_phone_number phone_number = Some ph /\
  1 <= int_of_amount amount /\
  exists k j, (k <= 3)%nat /\ (1 <= j <= 3)%nat /\
    sent w1 = sent w ++ repeat OAuthGenerate k
                     ++ repeat (push_request ph amount ref desc) j.
Proof.
  unfold stk_push.
  destruct (validate_phone_number phone_number) as [phone|]; [|discriminate].
  destruct (int_of_amount amount <? 1) eqn:Ha; [discriminate|].
  apply Z.ltb_ge in Ha.
  destruct (get_access_token_sent E w) as (k & Hk & Hs).
  destruct (get_access_token E w) as [w0 [tok|]]; cbn [fst] in Hs;
    [|discriminate].
  destruct (negb (cache_truthy tok)); [discriminate|].
  destruct (stk_attempts_accepted 0 phone (int_of_amount amount) ref desc
              booking_id w0) as (j & Hj & Hs2).
  assert (forall w2 r,
            stk_attempts E max_retries 0 phone (int_of_amount amount) ref desc
              booking_id w0 = (w2, Returned (Some (StkSuccess c m msg ph))) ->
            r = ph -> phone = r) as Hph.
  { intros w2 r Hr ->. clear - Hr. revert Hr.
    generalize 0%nat at 1. generalize w0. unfold max_retries at 1.
    generalize 3%nat. intros fuel. induction fuel as [|fuel IH];
      intros w attempt; [discriminate|].
    cbn [stk_attempts]. unfold http.
    assert (forall (w3 : World) (last : StkResult),
               (forall c' m' msg' ph', last <> StkSuccess c' m' msg' ph') ->
               (if Nat.ltb attempt (max_retries - 1)
                then stk_attempts E fuel (S attempt) phone
                       (int_of_amount amount) ref desc booking_id (sleep 2 w3)
                else (w3, Returned (Some last)))
               = (w2, Returned (Some (StkSuccess c m msg ph))) ->
               phone = ph) as Hretry.
    { intros w3 last Hlast. destruct (Nat.ltb attempt (max_retries - 1)).
      - apply IH.
      - intros H. injection H as _ H. exfalso. exact (Hlast _ _ _ _ H). }
    destruct (reply E (sent w) _) as [| |sc body];
      try (apply Hretry; discriminate).
    destruct (sc =? 200); [|apply Hretry; discriminate].
    destruct (py_eqb _ _).
    - intros H. injection H as _ _ _ _ H. exact H.
    - destruct (get body "ResponseDescription" _); discriminate. }
  destruct (stk_attempts E max_retries 0 phone (int_of_amount amount) ref desc
              booking_id w0) as [w2 [[result|]|]]; cbn [fst] in *;
    try discriminate.
  intros H. injection H as <- ->.
  rewrite (Hph w2 ph eq_refl eq_refl) in *.
  split; [reflexivity|]. split; [exact Ha|].
  exists k, j. unfold max_retries in Hj. split; [exact Hk|]. split; [exact Hj|].
  unfold push_request. rewrite Hs2, Hs, <- app_assoc. reflexivity.
Qed.

End Amounts.

(** X18: what is asked for and what is recorded. When
    [process_class_payment] reports that the push was sent, the phone was
    prompted (once to three times) for the class price cut down to whole
    shillings, which is at least one shilling, while the booking records
    the full price as [amount_paid]: the two differ by the cents of the
    price. *)
Theorem recorded_amount_and_prompted_amount (E : Env) (booking b' : Booking)
    (phone_number : string) (w w' : World) (c : PyVal) (m : string) :
  process_class_payment E booking phone_number w
  = (w', b', Returned (PaySuccess c m)) ->
  let amount := price (karate_class booking) in
  amount_paid b' = amount /\
  1 <= int_of_amount amount /\
  0 <= amount - 100 * int_of_amount amount < 100 /\
  exists phone k j,
    validate_phone_number phone_number = Some phone /\
    (k <= 3)%nat /\ (1 <= j <= 3)%nat /\
    sent w' = sent w ++ repeat OAuthGenerate k
                     ++ repeat (push_request phone amount
                                  (booking_reference booking)
                                  (take 15 (title (karate_class booking)))) j.
Proof.
  unfold process_class_payment.
  destruct (BookingType_eqb _ _).
  { destruct (send_booking_confirmation_email_sync _ _ _). discriminate. }
  destruct (price (karate_class booking) <=? 0) eqn:Hpos; [discriminate|].
  apply Z.leb_gt in Hpos.
  match goal with
  | |- context [stk_push E ?p ?a ?r ?d ?i ?w0] =>
      pose proof (stk_push_accepted E p a r d i w0) as Hacc;
      destruct (stk_push E p a r d i w0) as [w1 [[c1 m1 msg ph|code msg]|]]
  end; try discriminate.
  destruct (Hacc w1 c1 m1 msg ph eq_refl) as (Hv & Hone & k & j & Hk & Hj & Hs).
  intros H. injection H as <- <- <- <-.
  cbn zeta. split; [reflexivity|]. split; [exact Hone|]. split.
  - unfold int_of_amount.
    pose proof (Z.quot_rem' (price (karate_class booking)) 100) as Hq.
    pose proof (Z.rem_bound_pos (price (karate_class booking)) 100
                  ltac:(lia) ltac:(lia)) as Hr.
    lia.
  - exists ph, k, j. split; [exact Hv|]. split; [exact Hk|]. split; [exact Hj|].
    cbn. rewrite save_sent. rewrite Hs. cbn. rewrite save_sent. reflexivity.
Qed.

Lemma recorded_amount_and_prompted_amount_witness :
  process_class_payment Scenario.accepting Scenario.new_monthly "254712345678"
    (Scenario.created Scenario.new_monthly)
  = (Scenario.awaiting_payment, Scenario.pending_booking,
     Returned (PaySuccess (PStr "ws_CO_X")
                 "Payment request sent. Check your phone.")) /\
  let amount := price (karate_class Scenario.new_monthly) in
  amount_paid Scenario.pending_booking = amount /\
  1 <= int_of_amount amount /\
  0 <= amount - 100 * int_of_amount amount < 100 /\
  exists phone k j,
    validate_phone_number "254712345678" = Some phone /\
    (k <= 3)%nat /\ (1 <= j <= 3)%nat /\
    sent Scenario.awaiting_payment
    = sent (Scenario.created Scenario.new_monthly)
      ++ repeat OAuthGenerate k
      ++ repeat (push_request phone amount
                   (booking_reference Scenario.new_monthly)
                   (take 15 (title (karate_class Scenario.new_monthly)))) j.
Proof.
  split; [reflexivity|].
  exact (recorded_amount_and_prompted_amount Scenario.accepting
           Scenario.new_monthly Scenario.pending_booking "254712345678"
           (Scenario.created Scenario.new_monthly) Scenario.awaiting_payment
           (PStr "ws_CO_X") "Payment request sent. Check your phone." eq_refl).
Defined.

(** ** The weekly schedule *)

Lemma group_by_day_In (days : list string) (schedules : list ClassSchedule)
    (day : string) (g : list ClassSchedule) :
  In (day, g) (group_by_day days schedules) <->
  In day days /\ g <> [] /\
  g = filter (fun s => String.eqb (day_of_week s) day) schedules.
Proof.
  induction days as [|d days IH]; cbn [group_by_day In].
  - tauto.
  - destruct (filter (fun s => String.eqb (day_of_week s) d) schedules)
      as [|x l] eqn:Hd.
    + rewrite IH. split.
      * intros (H1 & H2 & H3). auto.
      * intros ([->|H1] & H2 & H3); [|auto].
        rewrite Hd in H3. contradiction.
    + cbn [In]. rewrite IH. split.
      * intros [H|(H1 & H2 & H3)]; [|auto].
        injection H as <- <-. rewrite Hd. repeat split; auto. discriminate.
      * intros ([->|H1] & H2 & H3); [|auto].
        left. rewrite H3, Hd. reflexivity.
Qed.

Lemma group_by_day_keys (days : list string) (schedules : list ClassSchedule) :
  NoDup days -> NoDup (map fst (group_by_day days schedules)).
Proof.
  induction 1 as [|d days Hd Hnd IH]; cbn [group_by_day]; [constructor|].
  destruct (filter _ schedules); [exact IH|].
  cbn. constructor; [|exact IH].
  intros Hin. apply in_map_iff in Hin. destruct Hin as ([d' g] & Hfst & Hin).
  cbn in Hfst. subst d'. apply group_by_day_In in Hin. tauto.
Qed.

(** X19: the schedule page groups the schedules by weekday. Each group
    stands under a weekday name, listed once; it is not empty and holds
    exactly the schedules of that day, in their order; every schedule that
    falls on a weekday is in the group of its day; and [total_classes]
    counts all schedules. *)
Theorem schedules_are_grouped_by_day (schedules : list ClassSchedule) :
  let schedules_by_day := fst (ScheduleView_get_context_data schedules) in
  let total_classes := snd (ScheduleView_get_context_data schedules) in
  total_classes = List.length schedules /\
  NoDup (map fst schedules_by_day) /\
  (forall day g, In (day, g) schedules_by_day ->
     In day days_order /\ g <> [] /\
     forall s, In s g <-> In s schedules /\ day_of_week s = day) /\
  (forall s, In s schedules -> In (day_of_week s) days_order ->
     exists g, In (day_of_week s, g) schedules_by_day /\ In s g).
Proof.
  cbn zeta. unfold ScheduleView_get_context_data. cbn [fst snd].
  split; [reflexivity|]. split.
  { apply group_by_day_keys. unfold days_order.
    repeat (constructor; [cbn; intuition discriminate|]). constructor. }
  split.
  - intros day g Hin. apply group_by_day_In in Hin.
    destruct Hin as (Hday & Hne & ->). split; [exact Hday|].
    split; [exact Hne|]. intros s. rewrite filter_In, String.eqb_eq. tauto.
  - intros s Hs Hday.
    exists (filter (fun x => String.eqb (day_of_week x) (day_of_week s))
              schedules).
    assert (In s (filter (fun x => String.eqb (day_of_week x) (day_of_week s))
                    schedules)) as Hin
      by (apply filter_In; split; [exact Hs|apply String.eqb_refl]).
    split; [|exact Hin].
    apply group_by_day_In. split; [exact Hday|]. split; [|reflexivity].
    intros Hnil. rewrite Hnil in Hin. contradiction.
Qed.

(** ** Mail is sent once *)

(** X20: the two confirmation mails are sent at most once per booking. A
    call of [send_booking_confirmation_email_sync] or
    [send_payment_confirmation_email_sync] adds at most one mail to the
    outbox; once a call has returned, every later call for the same
    booking returns without sending anything and without changing
    anything, whatever the mail server would do; and a call that raises
    leaves everything as it was. The payment sender saves a row with
    [payment_email_sent] set, at which the newsletter receiver is idle;
    for the booking sender the statement is about the rows at which that
    receiver is idle: those not Paid, or with [payment_email_sent] set. *)
Theorem confirmation_mails_are_sent_once (E E' : Env) (booking_id : Z)
    (receipt_number receipt_number' : PyVal) (w w1 : World) (o : Outcome unit) :
  ((forall b, find_booking booking_id w = Some b -> receiver_idle b = true) ->
   send_booking_confirmation_email_sync E booking_id w = (w1, o) ->
   (outbox w1 = outbox w \/
    outbox w1 = outbox w ++ [BookingConfirmation booking_id]) /\
   (o = Raised -> w1 = w) /\
   (o = Returned tt ->
    send_booking_confirmation_email_sync E' booking_id w1
    = (w1, Returned tt))) /\
  (send_payment_confirmation_email_sync E booking_id receipt_number w
   = (w1, o) ->
   (outbox w1 = outbox w \/
    outbox w1 = outbox w ++ [PaymentConfirmation booking_id receipt_number]) /\
   (o = Raised -> w1 = w) /\
   (o = Returned tt ->
    send_payment_confirmation_email_sync E' booking_id receipt_number' w1
    = (w1, Returned tt))) /\
  (forall b, receiver_idle (set_payment_email_sent true b) = true).
Proof.
  assert (forall b w0, outbox (save b w0) = outbox w0) as Hout
    by (intros b w0; unfold save; destruct (existsb _ _); reflexivity).
  split; [|split].
  - intros _.
    unfold send_booking_confirmation_email_sync, send.
    destruct (find_booking booking_id w) as [b|] eqn:Hf.
    + pose proof (find_booking_In _ _ _ Hf) as [_ Hid].
      destruct (confirmation_email_sent b) eqn:Hsent.
      * intros H. injection H as <- <-.
        split; [left; reflexivity|]. split; [discriminate|].
        intros _. rewrite Hf, Hsent. reflexivity.
      * destruct (delivers E (outbox w) _); intros H; injection H as <- <-.
        -- split; [right; rewrite Hout; reflexivity|].
           split; [discriminate|]. intros _.
           rewrite find_booking_save_at by exact Hid. reflexivity.
        -- split; [left; reflexivity|]. split; [reflexivity|discriminate].
    + intros H. injection H as <- <-.
      split; [left; reflexivity|]. split; [reflexivity|discriminate].
  - unfold send_payment_confirmation_email_sync, send.
    destruct (find_booking booking_id w) as [b|] eqn:Hf.
    + pose proof (find_booking_In _ _ _ Hf) as [_ Hid].
      destruct (payment_email_sent b) eqn:Hsent.
      * intros H. injection H as <- <-.
        split; [left; reflexivity|]. split; [discriminate|].
        intros _. rewrite Hf, Hsent. reflexivity.
      * destruct (delivers E (outbox w) _); intros H; injection H as <- <-.
        -- split; [right; rewrite Hout; reflexivity|].
           split; [discriminate|]. intros _.
           rewrite find_booking_save_at by exact Hid. reflexivity.
        -- split; [left; reflexivity|]. split; [reflexivity|discriminate].
    + intros H. injection H as <- <-.
      split; [left; reflexivity|]. split; [reflexivity|discriminate].
  - intros b. unfold receiver_idle. cbn [payment_email_sent set_payment_email_sent].
    rewrite andb_false_r. reflexivity.
Qed.

Lemma confirmation_mails_are_sent_once_witness :
  (forall b, find_booking 1 Scenario.awaiting_payment = Some b ->
             receiver_idle b = true) /\
  outbox (fst (send_booking_confirmation_email_sync Scenario.accepting 1
                 Scenario.awaiting_payment))
  = outbox Scenario.awaiting_payment ++ [BookingConfirmation 1] /\
  send_booking_confirmation_email_sync Scenario.timing_out 1
    (fst (send_booking_confirmation_email_sync Scenario.accepting 1
            Scenario.awaiting_payment))
  = (fst (send_booking_confirmation_email_sync Scenario.accepting 1
            Scenario.awaiting_payment), Returned tt).
Proof.
  assert (forall b, find_booking 1 Scenario.awaiting_payment = Some b ->
                    receiver_idle b = true) as Hidle
    by (intros b H; vm_compute in H; injection H as <-; reflexivity).
  assert (send_booking_confirmation_email_sync Scenario.accepting 1
            Scenario.awaiting_payment
          = (fst (send_booking_confirmation_email_sync Scenario.accepting 1
                    Scenario.awaiting_payment), Returned tt)) as Hfirst
    by (vm_compute; reflexivity).
  split; [exact Hidle|]. split; [vm_compute; reflexivity|].
  exact (proj2 (proj2 (proj1 (confirmation_mails_are_sent_once
                                Scenario.accepting Scenario.timing_out 1
                                PNone PNone Scenario.awaiting_payment _ _)
                         Hidle Hfirst))
           eq_refl).
Defined.

(** ** Deadlines *)

Lemma deadline_near_later (c c' : Z) (b : Booking) :
  c <= c' -> deadline_near c b -> deadline_near c' b.
Proof. intros Hc H d Hd. specialize (H d Hd). lia. Qed.

Section Deadlines.
Variable E : Env.
Variable c : Z.

(** A row without a deadline. *)
Ltac near Hb :=
  let d := fresh "d" in
  let Hd := fresh "Hd" in
  unfold deadline_near; intros d Hd; cbn in Hd;
  first [discriminate Hd | rewrite Hb in Hd; discriminate Hd].

Lemma flags_only_clock (i : Z) (set_flag : Booking -> Booking) (w w' : World) :
  flags_only i set_flag w w' -> clock w' = clock w.
Proof. intros (_ & _ & H & _). exact H. Qed.

Lemma process_class_payment_deadlines (booking : Booking) (phone : string)
    (w : World) :
  clock (fst (fst (process_class_payment E booking phone w))) <= c ->
  expires_at booking = None ->
  Forall (deadline_near c) (bookings w) ->
  Forall (deadline_near c)
    (bookings (fst (fst (process_class_payment E booking phone w)))) /\
  deadline_near c (snd (fst (process_class_payment E booking phone w))).
Proof.
  intros Hc Hb Hw. revert Hc. unfold process_class_payment.
  destruct (BookingType_eqb _ _).
  - match goal with
    | |- context [send_booking_confirmation_email_sync E ?i ?w0] =>
        pose proof (send_booking_confirmation_email_sync_flags E i w0) as Hm;
        destruct (send_booking_confirmation_email_sync E i w0) as [w1 o]
    end.
    cbn [fst snd] in *. intros Hc. split; [|near Hb].
    eapply flags_only_Forall; [|exact Hm|].
    + intros b Hk. exact Hk.
    + cbn. apply save_Forall; [assumption|near Hb].
  - destruct (price (karate_class booking) <=? 0); cbn [fst snd].
    { intros _. split; [assumption|]. near Hb. }
    match goal with
    | |- context [stk_push E ?p ?a ?r ?d ?i ?w0] =>
        pose proof (stk_push_same_tables E p a r d i w0) as (Hs & _);
        destruct (stk_push E p a r d i w0) as [w1 [[c1 m msg ph|code msg]|]]
    end; cbn [fst snd] in *.
    + cbn. rewrite save_clock. intros Hc.
      assert (deadline_near c
                (set_expires_at (Some (clock w1 + 5 * 60)) booking)) as Hnew
        by (intros d [= <-]; lia).
      split; [|exact Hnew]. apply save_Forall; [|exact Hnew].
      rewrite Hs. cbn. apply save_Forall; [assumption|].
      near Hb.
    + intros _. split; [|near Hb].
      apply save_Forall; [|near Hb].
      rewrite Hs. cbn. apply save_Forall; [assumption|].
      near Hb.
    + intros _. split; [|near Hb].
      rewrite Hs. cbn. apply save_Forall; [assumption|].
      near Hb.
Qed.

Lemma step_deadlines (ev : Event) (w : World) :
  clock (step E ev w) <= c ->
  Forall (deadline_near c) (bookings w) ->
  Forall (deadline_near c) (bookings (step E ev w)).
Proof.
  intros Hc Hw. revert Hc.
  destruct ev as [n|u k s t p r|u i|u i|cb|u i]; cbn [step].
  - intros _. exact Hw.
  - unfold BookingCreateView_post.
    destruct (clean_phone_number p) as [phone|]; cbn [fst]; [|auto].
    repeat (split_match; cbn [fst]; [intros _; exact Hw|]).
    split_match; cbn [fst].
    { intros _. unfold waiting_list_get_or_create. split_match; exact Hw. }
    split_match; cbn [fst]; [intros _; exact Hw|].
    match goal with
    | |- context [process_class_payment E ?b ?ph ?w0] =>
        assert (Forall (deadline_near c) (bookings w0)) as Hw0
          by (cbn; apply save_Forall;
              [assumption|unfold deadline_near; intros ? ?; discriminate]);
        pose proof (fun H => process_class_payment_deadlines b ph w0 H
                               eq_refl Hw0) as Hp;
        destruct (process_class_payment E b ph w0) as [[w2 b2] [res|]]
    end; cbn [fst snd] in *.
    + destruct (pay_success res).
      * destruct res; intros Hc; apply Hp; exact Hc.
      * cbn [fst]. rewrite save_clock. intros Hc.
        destruct (Hp Hc) as [H1 H2].
        apply save_Forall; [exact H1|]. exact H2.
    + intros _. cbn. exact Hw.
  - unfold payment_pending_view, mark_expired.
    destruct (get_own_booking u i w) as [b|] eqn:Hb; cbn [fst];
      [|intros _; exact Hw].
    apply get_own_booking_In in Hb. destruct Hb as (Hin & _).
    assert (deadline_near c b) as Hk by (rewrite Forall_forall in Hw; auto).
    intros _.
    repeat (split_match; cbn [fst]; try assumption);
      cbn; try assumption; (apply save_Forall; [assumption|exact Hk]).
  - unfold check_payment_status, confirm_payment, mark_expired.
    destruct (get_own_booking u i w) as [b|] eqn:Hb; cbn [fst];
      [|intros _; exact Hw].
    apply get_own_booking_In in Hb. destruct Hb as (Hin & _).
    assert (deadline_near c b) as Hk by (rewrite Forall_forall in Hw; auto).
    intros _.
    repeat (split_match; cbn [fst]; try assumption).
    all: try match goal with
      | H : query_transaction E ?t ?w0 = (?w1, _) |- _ =>
          pose proof (query_transaction_same_tables E t w0) as (Hq & _);
          rewrite H in Hq; cbn [fst] in Hq
      end.
    all: cbn; try (rewrite Hq; assumption); try assumption.
    all: apply save_Forall; [try rewrite Hq; assumption|].
    all: first [exact Hk | unfold deadline_near; intros ? ?; discriminate].
  - intros _. unfold process_callback, confirm_payment.
    destruct (negb _); [assumption|].
    destruct (bookings_with_transaction_id _ w) as [|b [|]] eqn:Hf;
      try assumption.
    apply filter_singleton_In in Hf. destruct Hf as [Hin _].
    assert (deadline_near c b) as Hk by (rewrite Forall_forall in Hw; auto).
    destruct (py_eqb _ _).
    + match goal with
      | |- context [send_booking_confirmation_email_sync E ?i ?w0] =>
          pose proof (send_booking_confirmation_email_sync_flags E i w0) as Hm;
          assert (Forall (deadline_near c) (bookings w0)) as Hw0
            by (cbn; apply save_Forall;
                [assumption|unfold deadline_near; intros ? ?; discriminate]);
          destruct (send_booking_confirmation_email_sync E i w0) as [w1 [[]|]]
      end; cbn [fst] in Hm.
      * eapply flags_only_Forall;
          [|apply send_payment_confirmation_email_sync_flags|].
        -- intros b0 Hb0; exact Hb0.
        -- eapply flags_only_Forall; [|exact Hm|exact Hw0].
           intros b0 Hb0; exact Hb0.
      * eapply flags_only_Forall; [|exact Hm|exact Hw0].
        intros b0 Hb0; exact Hb0.
    + eapply flags_only_Forall; [|apply send_payment_failed_email_sync_flags|].
      * intros; assumption.
      * cbn. apply save_Forall; [assumption|exact Hk].
  - intros _. unfold cancel_booking_view, cancel_booking.
    destruct (get_own_booking u i w) as [b|] eqn:Hb; cbn [fst]; [|exact Hw].
    apply get_own_booking_In in Hb. destruct Hb as (Hin & _).
    assert (deadline_near c b) as Hk by (rewrite Forall_forall in Hw; auto).
    destruct (negb _); cbn [fst]; [exact Hw|].
    cbn zeta. destruct (PaymentStatus_eqb _ _); cbn [fst]; cbn.
    + apply save_Forall; [|exact Hk]. cbn. apply save_Forall; [exact Hw|exact Hk].
    + apply save_Forall; [exact Hw|exact Hk].
Qed.

End Deadlines.

Lemma reachable_deadlines (E : Env) (w : World) :
  reachable E w -> Forall (deadline_near (clock w)) (bookings w).
Proof.
  induction 1 as [w Hb _|w ev _ IH].
  - rewrite Hb. constructor.
  - apply step_deadlines; [lia|].
    eapply Forall_impl; [|exact IH].
    intros b. apply deadline_near_later.
    apply (step_appended E ev w).
Qed.

(** X21: the countdown of the pending page. In every state the booking
    operations reach, when [payment_pending_view] shows the page, the
    booking awaits payment (Pending, payment Pending), its deadline has not
    passed, nothing was changed, and [timeout_seconds] is the time left to
    the deadline, between 0 and 300 seconds: the default of 300 seconds for
    a booking without deadline is never used. *)
Theorem pending_page_countdown (E : Env) (w w' : World)
    (request_user booking_id : Z) (timeout_seconds : Z) :
  reachable E w ->
  payment_pending_view request_user booking_id w
  = (w', PendingPage timeout_seconds) ->
  w' = w /\
  exists b deadline,
    get_own_booking request_user booking_id w = Some b /\
    status b = Pending /\ payment_status b = PaymentPending /\
    expires_at b = Some deadline /\
    timeout_seconds = deadline - clock w /\
    0 <= timeout_seconds <= 300.
Proof.
  intros Hr. unfold payment_pending_view.
  destruct (get_own_booking request_user booking_id w) as [b|] eqn:Hb;
    [|discriminate].
  pose proof (get_own_booking_In _ _ _ _ Hb) as (Hin & _).
  pose proof (reachable_lifecycle E w Hr) as Hl.
  pose proof (reachable_deadlines E w Hr) as Hd.
  rewrite Forall_forall in Hl, Hd. specialize (Hl b Hin).
  specialize (Hd b Hin). unfold lifecycle_state in Hl.
  unfold is_payment_expired.
  destruct (expires_at b) as [deadline|] eqn:He;
    [destruct (clock w >? deadline) eqn:Hx|];
    destruct (status b) eqn:Hs, (payment_status b) eqn:Hp;
    try contradiction;
    cbn [PaymentStatus_eqb Status_eqb andb orb]; try discriminate.
  - intros H. injection H as <- <-. split; [reflexivity|].
    exists b, deadline. split; [reflexivity|]. split; [exact Hs|].
    split; [exact Hp|]. split; [exact He|].
    rewrite Z.gtb_ltb in Hx. apply Z.ltb_ge in Hx.
    specialize (Hd deadline He). lia.
Qed.

Lemma pending_page_countdown_witness :
  reachable Scenario.accepting Scenario.awaiting_payment /\
  payment_pending_view 7 1 Scenario.awaiting_payment
  = (Scenario.awaiting_payment, PendingPage 300) /\
  Scenario.awaiting_payment = Scenario.awaiting_payment /\
  exists b deadline,
    get_own_booking 7 1 Scenario.awaiting_payment = Some b /\
    status b = Pending /\ payment_status b = PaymentPending /\
    expires_at b = Some deadline /\
    300 = deadline - clock Scenario.awaiting_payment /\
    0 <= 300 <= 300.
Proof.
  assert (reachable Scenario.accepting Scenario.awaiting_payment) as Hr.
  { change Scenario.awaiting_payment with
      (run Scenario.accepting [Scenario.book_monthly] Scenario.empty_world).
    apply run_reachable. apply reachable_fresh; reflexivity. }
  split; [exact Hr|]. split; [reflexivity|].
  exact (pending_page_countdown Scenario.accepting Scenario.awaiting_payment
           Scenario.awaiting_payment 7 1 300 Hr eq_refl).
Defined.

(** ** Mail after a callback *)

Lemma save_outbox (b : Booking) (w : World) : outbox (save b w) = outbox w.
Proof. unfold save. destruct (existsb _ _); reflexivity. Qed.

Lemma find_booking_log (i : Z) (b : Booking) (t : option string) (a : string)
    (s : option string) (w : World) :
  find_booking i (PaymentLog_create b t a s w) = find_booking i w.
Proof. reflexivity. Qed.

Lemma confirm_payment_saves (b : Booking) (t r : PyVal) (w : World) :
  confirm_payment b t r w
  = (save (snd (confirm_payment b t r w)) w, snd (confirm_payment b t r w)).
Proof. reflexivity. Qed.

Lemma payment_flag_after_confirmation_flag (x : Booking) (v : bool) :
  payment_email_sent (set_confirmation_email_sent v x) = payment_email_sent x.
Proof. reflexivity. Qed.

Lemma confirmation_flag_after_payment_flag (x : Booking) (v : bool) :
  confirmation_email_sent (set_payment_email_sent v x)
  = confirmation_email_sent x.
Proof. reflexivity. Qed.

Section CallbackMail.
Variable E : Env.
Variable cb : StkCallback.
Variable w : World.
Variable b : Booking.
Hypothesis Hfound : bookings_with_transaction_id (CheckoutRequestID cb) w = [b].
Hypothesis Hid : truthy (CheckoutRequestID cb) = true.
Hypothesis Hcode : ResultCode cb = PInt 0.

Lemma process_callback_confirming :
  process_callback E cb w
  = match send_booking_confirmation_email_sync E (id b) (before_mail cb w b) with
    | (w1, Raised) => w1
    | (w1, Returned _) =>
        fst (send_payment_confirmation_email_sync E (id b)
               (item_value (CallbackMetadata cb) "MpesaReceiptNumber"
                  (PStr "N/A")) w1)
    end.
Proof.
  unfold process_callback. rewrite Hid, Hfound. cbn [negb].
  destruct (py_eqb (ResultCode cb) (PInt 0)) eqn:Hpy;
    [|rewrite Hcode in Hpy; discriminate Hpy].
  rewrite confirm_payment_saves. cbv beta iota zeta.
  unfold before_mail, confirmed_row.
  match goal with
  | |- context [id (snd (confirm_payment b ?t ?r ?w1))] =>
      change (id (snd (confirm_payment b t r w1))) with (id b)
  end.
  reflexivity.
Qed.

Lemma before_mail_row :
  find_booking (id b) (before_mail cb w b) = Some (confirmed_row cb w b).
Proof.
  unfold before_mail. rewrite find_booking_log.
  apply find_booking_save_at. reflexivity.
Qed.

Lemma confirmed_row_confirmation_flag :
  confirmation_email_sent (confirmed_row cb w b) = confirmation_email_sent b.
Proof. reflexivity. Qed.

Lemma confirmed_row_payment_flag :
  payment_email_sent (confirmed_row cb w b) = payment_email_sent b.
Proof. reflexivity. Qed.

Lemma before_mail_outbox : outbox (before_mail cb w b) = outbox w.
Proof. unfold before_mail. cbn. rewrite save_outbox. reflexivity. Qed.

(** With both flags set, a confirming callback sends nothing. *)
Lemma mailed_callback_is_silent :
  confirmation_email_sent b = true -> payment_email_sent b = true ->
  outbox (process_callback E cb w) = outbox w.
Proof.
  intros Hc Hp. rewrite process_callback_confirming.
  unfold send_booking_confirmation_email_sync,
    send_payment_confirmation_email_sync.
  rewrite before_mail_row, confirmed_row_confirmation_flag, Hc.
  rewrite before_mail_row, confirmed_row_payment_flag, Hp.
  cbn [fst]. apply before_mail_outbox.
Qed.

(** With both flags set, the row carries them after the callback too. *)
Lemma mailed_callback_keeps_flags :
  confirmation_email_sent b = true -> payment_email_sent b = true ->
  exists b1,
    find_booking (id b) (process_callback E cb w) = Some b1 /\
    confirmation_email_sent b1 = true /\ payment_email_sent b1 = true.
Proof.
  intros Hc Hp. rewrite process_callback_confirming.
  unfold send_booking_confirmation_email_sync,
    send_payment_confirmation_email_sync.
  rewrite before_mail_row, confirmed_row_confirmation_flag, Hc.
  rewrite before_mail_row, confirmed_row_payment_flag, Hp.
  cbn [fst]. exists (confirmed_row cb w b).
  split; [exact before_mail_row|].
  split; [rewrite confirmed_row_confirmation_flag; exact Hc
         |rewrite confirmed_row_payment_flag; exact Hp].
Qed.

End CallbackMail.

(** X22: a confirming callback that is delivered again sends no mail.
    Once the row a callback addresses carries both mail flags, as it does
    when the mails of an earlier delivery have gone out, the same callback
    can arrive any number of times, at any later times and whatever the
    mail server would do: the outbox stays as it is. The row that
    [confirm_payment] saves then has [payment_email_sent] set, so the
    newsletter receiver is idle at that save as well. *)
Theorem redelivery_sends_no_mail (E : Env) (cb : StkCallback)
    (delays : list nat) (w : World) (b : Booking) :
  NoDup (map id (bookings w)) ->
  bookings_with_transaction_id (CheckoutRequestID cb) w = [b] ->
  ResultCode cb = PInt 0 ->
  truthy (CheckoutRequestID cb) = true ->
  confirmation_email_sent b = true ->
  payment_email_sent b = true ->
  (forall w0, receiver_idle (confirmed_row cb w0 b) = true) /\
  outbox (fold_left (fun w0 d => process_callback E cb (tick d w0)) delays w)
  = outbox w.
Proof.
  intros Hnd Hf Hrc Ht Hc Hp.
  split.
  { intros w0. unfold receiver_idle.
    rewrite (confirmed_row_payment_flag cb w0 b), Hp, andb_false_r.
    reflexivity. }
  revert w b Hnd Hf Hc Hp.
  induction delays as [|d ds IH]; intros w b Hnd Hf Hc Hp; [reflexivity|].
  cbn [fold_left].
  assert (NoDup (map id (bookings (tick d w)))) as Hnd0 by exact Hnd.
  assert (bookings_with_transaction_id (CheckoutRequestID cb) (tick d w)
          = [b]) as Hf0 by exact Hf.
  destruct (confirming_callback E cb (tick d w) b (conj Hnd0 Hf0) Hrc Ht)
    as (b' & [Hnd1 Hf1] & _ & _ & Hfind1 & _).
  destruct (mailed_callback_keeps_flags E cb (tick d w) b Hf0 Ht Hrc Hc Hp)
    as (b1 & Hb1 & Hc1 & Hp1).
  rewrite Hb1 in Hfind1. injection Hfind1 as <-.
  rewrite (IH (process_callback E cb (tick d w)) b1 Hnd1 Hf1 Hc1 Hp1).
  apply (mailed_callback_is_silent E cb (tick d w) b Hf0 Ht Hrc Hc Hp).
Qed.

Lemma redelivery_sends_no_mail_witness :
  bookings_with_transaction_id (CheckoutRequestID Scenario.success_callback)
    Scenario.paid = [Scenario.confirmed_booking] /\
  confirmation_email_sent Scenario.confirmed_booking = true /\
  payment_email_sent Scenario.confirmed_booking = true /\
  outbox (fold_left
            (fun w0 d =>
               process_callback Scenario.timing_out Scenario.success_callback
                 (tick d w0))
            [20%nat; 3600%nat] Scenario.paid)
  = outbox Scenario.paid.
Proof.
  assert (NoDup (map id (bookings Scenario.paid))) as Hnd
    by (repeat constructor; intros []).
  do 3 (split; [reflexivity|]).
  exact (proj2 (redelivery_sends_no_mail Scenario.timing_out
                  Scenario.success_callback [20%nat; 3600%nat]
                  Scenario.paid Scenario.confirmed_booking Hnd eq_refl
                  eq_refl eq_refl eq_refl eq_refl)).
Defined.

(** ** The creation of a booking is on record *)

Section Creation.
Variable E : Env.

(** What [BookingCreateView.post] leaves when it stores a booking: the new
    row, with a new primary key and the time of the request, and the entry
    of its creation. *)
Lemma BookingCreateView_post_creates (u : Z) (k : KarateClass) (s : Z)
    (t : BookingType) (p r : string) (w : World) :
  let w' := fst (BookingCreateView_post E u k s t p r w) in
  bookings w' = bookings w \/
  exists b, bookings w' = bookings w ++ [b] /\
            id b = fresh_id w /\ booked_at b = clock w /\
            In (entry (fresh_id w) None "booking_created" (Some "CREATED")
                  (clock w)) (payment_logs w').
Proof.
  cbn zeta. unfold BookingCreateView_post.
  destruct (clean_phone_number p) as [phone|]; cbn [fst]; [|auto].
  repeat (split_match; cbn [fst]; [left; reflexivity|]).
  split_match; cbn [fst].
  { left. unfold waiting_list_get_or_create. split_match; reflexivity. }
  split_match; cbn [fst]; [left; reflexivity|].
  right.
  lazymatch goal with
  | |- context [process_class_payment E ?b ?ph ?w0] =>
      assert (forall x, In x (bookings w) -> id x <> id b) as Hnew;
      [|assert (last_row (bookings w) (identity b) w0) as Hw0;
        [|assert (In (entry (fresh_id w) None "booking_created"
                        (Some "CREATED") (clock w)) (payment_logs w0)) as Hlog
            by (unfold PaymentLog_create at 1;
                cbn [payment_logs with_payment_logs];
                rewrite save_payment_logs, save_clock;
                apply in_or_app; right; left; reflexivity);
          pose proof (process_class_payment_last_row E (bookings w) b Hnew
                        ph w0 Hw0) as [Hp Hid];
          pose proof (process_class_payment_appended E b ph w0)
            as (_ & newer & Hlogs & _);
          pose proof (process_class_payment_returns E b ph w0) as Hret;
          destruct (process_class_payment E b ph w0) as [[w2 b2] [res|]]]]
  end.
  - intros x Hx Heq. apply (fresh_id_is_new w). cbn [id] in Heq.
    rewrite <- Heq. apply in_map. exact Hx.
  - eexists. split; [|reflexivity].
    rewrite PaymentLog_create_bookings. apply save_new. exact Hnew.
  - cbn [fst snd] in *.
    assert (In (entry (fresh_id w) None "booking_created" (Some "CREATED")
                  (clock w)) (payment_logs w2)) as Hlog2
      by (rewrite Hlogs; apply in_or_app; left; exact Hlog).
    assert (forall w3, last_row (bookings w) (identity b2) w3 ->
              In (entry (fresh_id w) None "booking_created" (Some "CREATED")
                    (clock w)) (payment_logs w3) ->
              exists b, bookings w3 = bookings w ++ [b] /\
                        id b = fresh_id w /\ booked_at b = clock w /\
                        In (entry (fresh_id w) None "booking_created"
                              (Some "CREATED") (clock w)) (payment_logs w3))
      as Hdone.
    { intros w3 (b & Hb & Hi) Hl3. exists b. split; [exact Hb|].
      rewrite Hid in Hi. unfold identity in Hi.
      cbn [id user karate_class schedule booking_type booking_reference
             booked_at] in Hi.
      injection Hi as H1 H2 H3 H4 H5 H6 H7. auto. }
    rewrite <- Hid in Hp.
    destruct (pay_success res).
    + destruct res; cbn [fst]; apply Hdone; assumption.
    + cbn [fst]. apply Hdone; [|rewrite save_payment_logs; exact Hlog2].
      rewrite Hid in *.
      match goal with
      | |- context [save ?b3 w2] =>
          apply (save_last (bookings w) _ Hnew b3 w2 Hp)
      end.
      transitivity (identity b2); [reflexivity|exact Hid].
  - contradiction Hret. reflexivity.
Qed.

Lemma appended_In (w w' : World) (l : PaymentLog) :
  appended w w' -> In l (payment_logs w) -> In l (payment_logs w').
Proof.
  intros (_ & newer & -> & _) Hin. apply in_or_app. left. exact Hin.
Qed.

(** Every row carries the time of its creation, and the audit log holds the
    entry written then. *)
Lemma reachable_created (w : World) :
  reachable E w ->
  forall b, In b (bookings w) ->
    In (entry (id b) None "booking_created" (Some "CREATED") (booked_at b))
      (payment_logs w).
Proof.
  induction 1 as [w Hb _|w ev Hr IH].
  - rewrite Hb. intros b [].
  - intros b' Hin'.
    pose proof (step_appended E ev w) as Happ.
    assert (forall b, In b (bookings w) -> id b = id b' ->
              booked_at b = booked_at b' ->
              In (entry (id b') None "booking_created" (Some "CREATED")
                    (booked_at b')) (payment_logs (step E ev w))) as Hold.
    { intros b Hin Hi Ht. rewrite <- Hi, <- Ht.
      apply (appended_In w); [exact Happ|]. apply IH. exact Hin. }
    pose proof (reachable_ids_unique E w Hr) as Hnd.
    pose proof (reachable_ids_unique E _ (reachable_step E w ev Hr)) as Hnd'.
    assert (In (id b') (map id (bookings w)) ->
            In (entry (id b') None "booking_created" (Some "CREATED")
                  (booked_at b')) (payment_logs (step E ev w))) as Hback.
    { intros Hi. apply in_map_iff in Hi. destruct Hi as (b & Hi & Hin).
      destruct (step_rows E ev w Hnd (id b) b
                  (find_booking_unique w b Hnd Hin)) as (b'' & Hf & Hk).
      apply find_booking_In in Hf. destruct Hf as [Hin'' Hi''].
      assert (b'' = b') as ->
        by (apply (ids_unique (bookings (step E ev w))); try assumption;
            congruence).
      apply (Hold b Hin Hi). unfold identity in Hk.
      injection Hk as _ _ _ _ _ _ Hk. congruence. }
    destruct (step_ids E ev w) as [Hsame|(Hnew & Hlog & Hev)].
    + apply Hback. rewrite <- Hsame. apply in_map. exact Hin'.
    + destruct Hev as (u & k & s & t & p & r & ->). cbn [step] in *.
      destruct (BookingCreateView_post_creates u k s t p r w)
        as [Hb|(b & Hb & Hi & Ht & Hl)].
      * apply Hback. apply in_map. rewrite <- Hb. exact Hin'.
      * rewrite Hb in Hin'. apply in_app_or in Hin'.
        destruct Hin' as [Hin'|[<-|[]]].
        -- apply Hback. apply in_map. exact Hin'.
        -- rewrite Hi, Ht. exact Hl.
Qed.

End Creation.

(** X23: the creation of every booking is on record. In every state the
    booking operations reach, the audit log holds, for each stored
    booking, the entry [booking_created] with status code CREATED, stamped
    with the booking's [booked_at]; no later operation removes it. *)
Theorem every_booking_has_its_creation_on_record (E : Env) (w : World)
    (evs : list Event) (b : Booking) :
  reachable E w ->
  In b (bookings w) ->
  In (entry (id b) None "booking_created" (Some "CREATED") (booked_at b))
    (payment_logs w) /\
  In (entry (id b) None "booking_created" (Some "CREATED") (booked_at b))
    (payment_logs (run E evs w)).
Proof.
  intros Hr Hin.
  pose proof (reachable_created E w Hr b Hin) as Hlog.
  split; [exact Hlog|].
  apply (appended_In w); [apply run_appended|exact Hlog].
Qed.

Lemma every_booking_has_its_creation_on_record_witness :
  reachable Scenario.accepting Scenario.awaiting_payment /\
  In Scenario.pending_booking (bookings Scenario.awaiting_payment) /\
  In (entry (id Scenario.pending_booking) None "booking_created"
        (Some "CREATED") (booked_at Scenario.pending_booking))
    (payment_logs Scenario.awaiting_payment) /\
  In (entry (id Scenario.pending_booking) None "booking_created"
        (Some "CREATED") (booked_at Scenario.pending_booking))
    (payment_logs (run Scenario.accepting
                     [Tick 10; Callback Scenario.success_callback]
                     Scenario.awaiting_payment)).
Proof.
  assert (reachable Scenario.accepting Scenario.awaiting_payment) as Hr.
  { change Scenario.awaiting_payment with
      (run Scenario.accepting [Scenario.book_monthly] Scenario.empty_world).
    apply run_reachable. apply reachable_fresh; reflexivity. }
  assert (In Scenario.pending_booking (bookings Scenario.awaiting_payment))
    as Hin by (left; reflexivity).
  split; [exact Hr|]. split; [exact Hin|].
  exact (every_booking_has_its_creation_on_record Scenario.accepting
           Scenario.awaiting_payment
           [Tick 10; Callback Scenario.success_callback]
           Scenario.pending_booking Hr Hin).
Defined.

(** ** What the user is told *)

Lemma friendly_error_is_a_failure_message (error_message : string) :
  In (_get_user_friendly_error error_message) failure_messages.
Proof.
  unfold _get_user_friendly_error, error_map. cbn [find fst snd].
  set (l := lower error_message).
  pose proof (contains_suffix "ds " "timeout" l ltac:(discriminate)) as Hdead.
  change ("ds " ++ "timeout")%string with "ds timeout" in Hdead.
  repeat match goal with
         | |- context [if contains ?k l then _ else _] =>
             destruct (contains k l) eqn:?
         end;
    try (unfold failure_messages; cbn [In]; tauto).
  exfalso. specialize (Hdead eq_refl). congruence.
Qed.

Section Messages.
Variable E : Env.

Lemma stk_attempts_messages (fuel attempt : nat) (phone : string)
    (amount_int : Z) (ref desc : string) (booking_id : Z) (w : World) :
  match snd (stk_attempts E fuel attempt phone amount_int ref desc
               booking_id w) with
  | Returned (Some (StkFailure _ message)) => In message failure_messages
  | Returned (Some (StkSuccess _ _ message _)) =>
      message = "Payment request sent. Check your phone."
  | _ => True
  end.
Proof.
  revert attempt w. induction fuel as [|fuel IH]; intros attempt w;
    [exact I|].
  cbn [stk_attempts]. unfold http.
  assert (forall (w0 : World) (code : PyVal) (message : string),
             In message failure_messages ->
             match snd (if Nat.ltb attempt (max_retries - 1)
                        then stk_attempts E fuel (S attempt) phone amount_int
                               ref desc booking_id (sleep 2 w0)
                        else (w0, Returned (Some (StkFailure code message))))
             with
             | Returned (Some (StkFailure _ m)) => In m failure_messages
             | Returned (Some (StkSuccess _ _ m _)) =>
                 m = "Payment request sent. Check your phone."
             | _ => True
             end) as Hretry.
  { intros w0 code message Hm. destruct (Nat.ltb attempt (max_retries - 1)).
    - apply IH.
    - exact Hm. }
  destruct (reply E (sent w) _) as [| |sc body].
  - apply Hretry. unfold failure_messages. cbn [In]. tauto.
  - apply Hretry. unfold failure_messages. cbn [In]. tauto.
  - destruct (sc =? 200).
    + destruct (py_eqb _ _); [reflexivity|].
      destruct (get body "ResponseDescription" _); cbn [snd]; try exact I.
      apply friendly_error_is_a_failure_message.
    + apply Hretry. unfold failure_messages. cbn [In]. tauto.
Qed.

Lemma stk_push_messages (phone_number : string) (amount : Z)
    (ref desc : string) (booking_id : Z) (w : World) :
  match snd (stk_push E phone_number amount ref desc booking_id w) with
  | Some (StkFailure _ message) => In message failure_messages
  | Some (StkSuccess _ _ message _) =>
      message = "Payment request sent. Check your phone."
  | None => True
  end.
Proof.
  unfold stk_push.
  destruct (validate_phone_number phone_number) as [phone|]; cbn [snd];
    [|unfold failure_messages; cbn [In]; tauto].
  destruct (int_of_amount amount <? 1); cbn [snd];
    [unfold failure_messages; cbn [In]; tauto|].
  destruct (get_access_token E w) as [w1 [tok|]]; cbn [snd];
    [|unfold failure_messages; cbn [In]; tauto].
  destruct (negb (cache_truthy tok)); cbn [snd];
    [unfold failure_messages; cbn [In]; tauto|].
  pose proof (stk_attempts_messages max_retries 0 phone (int_of_amount amount)
                ref desc booking_id w1) as Hm.
  destruct (stk_attempts E max_retries 0 phone (int_of_amount amount) ref desc
              booking_id w1) as [w2 [[[c m msg ph|code msg]|]|]];
    cbn [snd] in *; try exact Hm; try exact I.
  unfold failure_messages. cbn [In]. tauto.
Qed.

End Messages.

(** X24: what the user is told is never the provider's text. Whatever the
    provider answers, [process_class_payment] returns one of its own
    texts: "Free trial confirmed!" for a free trial, "Payment request sent.
    Check your phone." for an accepted push, and for a failure one of
    sixteen fixed messages. *)
Theorem payment_messages_are_fixed (E : Env) (booking : Booking)
    (phone_number : string) (w : World) :
  match snd (process_class_payment E booking phone_number w) with
  | Returned (PayFreeTrial message) => message = "Free trial confirmed!"
  | Returned (PaySuccess _ message) =>
      message = "Payment request sent. Check your phone."
  | Returned (PayFailure _ message) => In message failure_messages
  | Raised => False
  end.
Proof.
  pose proof (process_class_payment_returns E booking phone_number w) as Hret.
  revert Hret. unfold process_class_payment.
  destruct (BookingType_eqb _ _).
  { destruct (send_booking_confirmation_email_sync _ _ _). reflexivity. }
  destruct (_ <=? 0); cbn [snd].
  { intros _. unfold failure_messages. cbn [In]. tauto. }
  match goal with
  | |- context [stk_push E ?p ?a ?r ?d ?i ?w0] =>
      pose proof (stk_push_messages E p a r d i w0) as Hm;
      destruct (stk_push E p a r d i w0) as [w1 [[c m msg ph|code msg]|]]
  end; cbn [snd] in *; intros Hret.
  - exact Hm.
  - exact Hm.
  - apply Hret. reflexivity.
Qed.

(** ** The client address *)

Lemma before_comma_split (s : string) :
  exists rest,
    s = (before_comma s ++ rest)%string /\
    (rest = "" \/ exists rest', rest = String "," rest').
Proof.
  induction s as [|c s (rest & Hs & Hrest)]; cbn [before_comma].
  - exists "". auto.
  - destruct (Ascii.eqb_spec c ",") as [->|Hc].
    + exists (String "," s). split; [reflexivity|]. right. eauto.
    + exists rest. split; [|exact Hrest]. cbn. rewrite <- Hs. reflexivity.
Qed.

Lemma before_comma_has_no_comma (s : string) (n : nat) :
  String.get n (before_comma s) <> Some ","%char.
Proof.
  revert n. induction s as [|c s IH]; intros n; cbn [before_comma].
  - destruct n; discriminate.
  - destruct (Ascii.eqb_spec c ",") as [->|Hc].
    + destruct n; discriminate.
    + destruct n as [|n]; cbn; [congruence|apply IH].
Qed.

(** X25: [get_client_ip] takes the client address from the forwarding
    header whenever that header is there and not empty, whatever
    [REMOTE_ADDR] says: it returns what stands before the first comma of
    the header, a text without a comma; only without the header, or with
    an empty one, it returns [REMOTE_ADDR]. *)
Theorem client_ip_prefers_the_forwarding_header (meta : Meta) :
  (forall x_forwarded_for,
      HTTP_X_FORWARDED_FOR meta = Some x_forwarded_for ->
      x_forwarded_for <> "" ->
      exists ip rest,
        get_client_ip meta = Some ip /\
        x_forwarded_for = (ip ++ rest)%string /\
        (rest = "" \/ exists rest', rest = String "," rest') /\
        forall n, String.get n ip <> Some ","%char) /\
  (HTTP_X_FORWARDED_FOR meta = None \/ HTTP_X_FORWARDED_FOR meta = Some "" ->
   get_client_ip meta = REMOTE_ADDR meta).
Proof.
  unfold get_client_ip. split.
  - intros x Hx Hne. rewrite Hx.
    apply String.eqb_neq in Hne. rewrite Hne. cbn [negb].
    destruct (before_comma_split x) as (rest & Hs & Hrest).
    exists (before_comma x), rest. split; [reflexivity|].
    split; [exact Hs|]. split; [exact Hrest|].
    apply before_comma_has_no_comma.
  - intros [-> | ->]; reflexivity.
Qed.

(** * C9: the entry that names a transition *)














Section Audit.
Variable E : Env.











End Audit.


